(** * sigmaTrading: contract scraper, snapshot scraper and news trader

    A shallow embedding of the three scripts of the repository that talk to
    the brokerage API ([conid_scraper.py], [tws/snapshot.py], [news.py]),
    and the properties of their polling loops, of the order bracket and of
    the export step.

    Conventions.
    - Python [int] is [Z]; Python [float] is an IEEE binary64 value,
      represented by [spec_float] with precision 53 and [emax] 1024.
    - A Python [dict] used as a record is a Rocq record; a key that a
      callback adds later is an [option] field.  The dictionary
      [Snapshot.account] is a [gmap].
    - The API delivers callbacks on a background thread while the main
      thread sleeps inside its polling loop.  A run of a polling loop is
      therefore described by a schedule [nat -> list callback]: the
      callbacks handled during the k-th [time.sleep] of the loop.  One pass
      of the [for] loop over the records is taken to be atomic.
    - Loops that may spin for ever take a fuel argument counting the polls
      they are allowed; [None] is "still polling when the fuel ran out".
    - Calls to the logger are kept only where a property speaks of them. *)

From Stdlib Require Import ZArith List Bool Lia Ascii.
From Stdlib Require Import Floats.SpecFloat.
From Stdlib Require Import DecimalString DecimalPos DecimalZ.
From stdpp Require Import base option list strings gmap fin_maps.

Local Open Scope Z_scope.

(** ** Python values *)

Module Py.

(** Binary64 parameters. *)
Definition prec : Z := 53.
Definition emax : Z := 1024.

Definition float : Type := spec_float.

Definition nan : float := S754_nan.

(** [float(z)] for an integer literal of the source. *)
Definition of_Z (z : Z) : float := binary_normalize prec emax z 0 false.

(** [np.isnan] / [math.isnan]. *)
Definition isnan (x : float) : bool :=
  match x with S754_nan => true | _ => false end.

Definition is_zero (x : float) : bool :=
  match x with S754_zero _ => true | _ => false end.

Definition feqb : float -> float -> bool := SFeqb.
Definition fleb : float -> float -> bool := SFleb.
Definition fadd : float -> float -> float := SFadd prec emax.
Definition fsub : float -> float -> float := SFsub prec emax.
Definition fmul : float -> float -> float := SFmul prec emax.
Definition fabs : float -> float := SFabs.

(** Exceptions the modelled code can raise. *)
Inductive exn : Type :=
| TypeError
| KeyError (key : string)
| ZeroDivisionError
| ValueError.

Inductive result (A : Type) : Type :=
| Ok (a : A)
| Raise (e : exn).
Arguments Ok {A} a.
Arguments Raise {A} e.

Definition bind {A B} (r : result A) (k : A -> result B) : result B :=
  match r with
  | Ok a => k a
  | Raise e => Raise e
  end.

(** Python's [x / y] on floats: IEEE division, except that a zero
    divisor raises. *)
Definition truediv (x y : float) : result float :=
  if is_zero y then Raise ZeroDivisionError else Ok (SFdiv prec emax x y).

(** A value that is either an [int] or a [str] (order identifiers). *)
Inductive id_val : Type :=
| PyInt (z : Z)
| PyStr (s : string).

(** [str(z)] for an [int]. *)
Definition str_of_Z (z : Z) : string := NilZero.string_of_int (Z.to_int z).

(** [int(s)] for a decimal string, [None] when it would raise. *)
Definition Z_of_str (s : string) : option Z :=
  Z.of_int <$> NilZero.int_of_string s.

Definition str (v : id_val) : string :=
  match v with
  | PyInt z => str_of_Z z
  | PyStr s => s
  end.

(** [a == b]: an [int] never equals a [str]. *)
Definition eqb (a b : id_val) : bool :=
  match a, b with
  | PyInt x, PyInt y => Z.eqb x y
  | PyStr s, PyStr t => String.eqb s t
  | _, _ => false
  end.

(** The integer an identifier denotes, [int(v)]. *)
Definition int_of (v : id_val) : option Z :=
  match v with
  | PyInt z => Some z
  | PyStr s => Z_of_str s
  end.

(** A [float] argument that the API may leave out ([None]). *)
Inductive opt_float : Type :=
| PyNone
| PyFloat (x : float).

(** [v == float("nan")] for such a value. *)
Definition eq_float (v : opt_float) (y : float) : bool :=
  match v with
  | PyNone => false
  | PyFloat x => feqb x y
  end.

End Py.

Notation "x <-! r ; k" := (Py.bind r (fun x => k))
  (at level 100, r at next level, right associativity, only parsing).

(** ** Callback schedules *)

Module Sched.
Section Schedule.

Context {State Callback : Type}.
Variable handle : Callback -> State -> State.

(** The callbacks of one sleep, handled in order of arrival. *)
Definition deliver (cbs : list Callback) (s : State) : State :=
  fold_left (fun s cb => handle cb s) cbs s.

(** The schedule seen from the second sleep on. *)
Definition shift (sleep : nat -> list Callback) : nat -> list Callback :=
  fun k => sleep (S k).

(** The state at the k-th poll: after the first k sleeps. *)
Fixpoint state_at (sleep : nat -> list Callback) (s : State) (k : nat) : State :=
  match k with
  | O => s
  | S k' => deliver (sleep k') (state_at sleep s k')
  end.

End Schedule.
End Sched.

(** ** Waiting on a flag *)

Module Wait.
Section While.

Context {State Callback : Type}.
Variable handle : Callback -> State -> State.
Variable busy : State -> bool.

(** [while busy: time.sleep(dt)].  Every turn tests the flag and, when it
    is still set, sleeps; the result is the state that passed the test and
    the number of sleeps it took.  The fuel counts the tests. *)
Fixpoint wait_while (fuel : nat) (sleep : nat -> list Callback) (s : State)
    : option (State * nat) :=
  match fuel with
  | O => None
  | S fuel' =>
      if busy s then
        match wait_while fuel' (Sched.shift sleep)
                (Sched.deliver handle (sleep O) s) with
        | Some (r, n) => Some (r, S n)
        | None => None
        end
      else Some (s, O)
  end.

End While.
End Wait.

(** ** conid_scraper.py *)

Module IdScraper.

(** The fields of [ibapi]'s [Contract] that the scraper reads. *)
Record Contract : Type := mkContract {
  conId : Z;
  lastTradeDateOrContractMonth : string
}.

Record ContractDetails : Type := mkContractDetails {
  contract : Contract
}.

(** One element of [self.data], as [req_data] appends it; ["contr_month"]
    is only there once [contractDetails] has added it. *)
Record request : Type := mkRequest {
  id : Z;
  symbol : string;
  sectype : string;
  class : string;
  exchange : string;
  currency : string;
  expiry : string;
  side : string;
  strike : string;
  conid : Z;
  contr_month : option string
}.

Definition set_details (m : request) (c : Contract) : request :=
  {| id := id m; symbol := symbol m; sectype := sectype m; class := class m;
     exchange := exchange m; currency := currency m; expiry := expiry m;
     side := side m; strike := strike m;
     conid := conId c;
     contr_month := Some (lastTradeDateOrContractMonth c) |}.

(** [IdScraper.contractDetails]: every record with the request's id takes
    the contract id and the contract month of the answer. *)
Definition contractDetails (req_id : Z) (contract_details : ContractDetails)
    (data : list request) : list request :=
  map (fun m => if id m =? req_id
                then set_details m (contract contract_details)
                else m) data.

(** The callbacks that change [self.data]. *)
Inductive callback : Type :=
| ContractDetailsCb (req_id : Z) (contract_details : ContractDetails).

Definition handle (cb : callback) (data : list request) : list request :=
  match cb with
  | ContractDetailsCb req_id cd => contractDetails req_id cd data
  end.

(** One pass of the [for m in self.data] loop of [wait_for_finish],
    started with [have_all = True]. *)
Definition poll (data : list request) : bool :=
  fold_left (fun have_all m => if conid m =? 0 then false else have_all)
            data true.

(** [IdScraper.wait_for_finish].  Each turn of the [while] loop polls the
    records, sleeps (the callbacks of that sleep are handled) and leaves the
    loop when the poll found no record with [conid == 0].  The result is
    [self.data] on return and the number of polls made. *)
Fixpoint wait_for_finish (fuel : nat) (sleep : nat -> list callback)
    (data : list request) : option (list request * nat) :=
  match fuel with
  | O => None
  | S fuel' =>
      let have_all := poll data in
      let data' := Sched.deliver handle (sleep O) data in
      if have_all then Some (data', 1%nat)
      else
        match wait_for_finish fuel' (Sched.shift sleep) data' with
        | Some (d, n) => Some (d, S n)
        | None => None
        end
  end.

(** A record is complete when its sentinel field is filled. *)
Definition complete (m : request) : bool := negb (conid m =? 0).

(** An answer that carries a contract id. *)
Definition carries_conid (cb : callback) : Prop :=
  match cb with
  | ContractDetailsCb _ cd => conId (contract cd) <> 0
  end.

(** A run in which nothing ever arrives. *)
Definition silence : nat -> list callback := fun _ => [].

(** A record whose contract id has arrived, an answer for it that carries
    no contract id ([Contract()] has [conId = 0]), the record after that
    answer, and the run in which the answer arrives during the first
    sleep. *)
Definition filled_request : request :=
  {| id := 1; symbol := "CL"; sectype := "FOP"; class := "LO";
     exchange := "NYMEX"; currency := "USD"; expiry := "201903";
     side := "P"; strike := "40"; conid := 42;
     contr_month := Some "20190214" |}.

Definition blank_answer : callback :=
  ContractDetailsCb 1
    {| contract := {| conId := 0; lastTradeDateOrContractMonth := "" |} |}.

Definition blanked_request : request :=
  {| id := 1; symbol := "CL"; sectype := "FOP"; class := "LO";
     exchange := "NYMEX"; currency := "USD"; expiry := "201903";
     side := "P"; strike := "40"; conid := 0; contr_month := Some "" |}.

Definition blank_run : nat -> list callback :=
  fun k => match k with O => [blank_answer] | S _ => [] end.

(** A request for one option, its answer, and the run in which the answer
    arrives during the first sleep. *)
Definition sample_request : request :=
  {| id := 1; symbol := "CL"; sectype := "FOP"; class := "LO";
     exchange := "NYMEX"; currency := "USD"; expiry := "201903";
     side := "P"; strike := "40"; conid := 0; contr_month := None |}.

Definition sample_answer : callback :=
  ContractDetailsCb 1
    {| contract := {| conId := 42;
                      lastTradeDateOrContractMonth := "20190214" |} |}.

Definition sample_run : nat -> list callback :=
  fun k => match k with O => [sample_answer] | S _ => [] end.

(** *** Requesting, labelling and exporting *)

(** The fields of the contract [self.c] that do not change from one
    request to the next. *)
Record template : Type := mkTemplate {
  t_symbol : string;
  t_secType : string;
  t_tradingClass : string;
  t_exchange : string;
  t_currency : string
}.

(** What the scraper sends and writes. *)
Inductive effect : Type :=
| Connect (host : string) (port client_id : Z)
| ReqContractDetails (req_id : Z) (c : template) (month strike right : string)
| PutItem (table : string) (instString : string) (item_conid : Z)
| Disconnect.

(** The record [req_data] appends for request [o]. *)
Definition new_request (c : template) (o : Z) (m j k : string) : request :=
  {| id := o; symbol := t_symbol c; sectype := t_secType c;
     class := t_tradingClass c; exchange := t_exchange c;
     currency := t_currency c; expiry := m; side := k; strike := j;
     conid := 0; contr_month := None |}.

(** The body of the innermost loop of [req_data], on the counter [o],
    [self.data] and the requests sent so far. *)
Definition req_one (c : template) (m j : string)
    (st : Z * list request * list effect) (k : string)
    : Z * list request * list effect :=
  let '(o, data, out) := st in
  (o + 1, data ++ [new_request c o m j k],
   out ++ [ReqContractDetails o c m j k]).

(** [IdScraper.req_data]: a put and a call for every strike of every
    month, numbered from [self.nextId] on.  The result is the counter,
    [self.data] and the requests sent. *)
Definition req_data (c : template) (months strikes : list string)
    (nextId : Z) (data : list request) : Z * list request * list effect :=
  fold_left
    (fun st m =>
       fold_left
         (fun st j => fold_left (req_one c m j) ["P"; "C"]%string st)
         strikes st)
    months (nextId, data, []).

(** The requests of [req_data] in the order it makes them. *)
Definition request_keys (months strikes : list string)
    : list (string * string * string) :=
  flat_map (fun m =>
              flat_map (fun j => map (fun k => (m, j, k)) ["P"; "C"]%string)
                       strikes)
           months.

(** The keys numbered from [o] on. *)
Fixpoint number_from {A : Type} (o : Z) (l : list A) : list (Z * A) :=
  match l with
  | [] => []
  | x :: l' => (o, x) :: number_from (o + 1) l'
  end.

(** The record and the request of a numbered key. *)
Definition record_of (c : template) (x : Z * (string * string * string))
    : request :=
  let '(o, (m, j, k)) := x in new_request c o m j k.

Definition call_of (c : template) (x : Z * (string * string * string))
    : effect :=
  let '(o, (m, j, k)) := x in ReqContractDetails o c m j k.

(** What [req_data] wrote in a record, apart from the sentinel. *)
Definition descriptor (m : request)
    : Z * string * string * string * string * string * string * string * string :=
  (id m, symbol m, sectype m, class m, exchange m, currency m, expiry m,
   side m, strike m).

(** What a callback does to one record, and what the callbacks of the
    first [k] sleeps of a run do to it. *)
Definition evolve (cb : callback) (m : request) : request :=
  match cb with
  | ContractDetailsCb req_id cd =>
      if id m =? req_id then set_details m (contract cd) else m
  end.

Definition evolve_run (sleep : nat -> list callback) (k : nat) (m : request)
    : request :=
  Sched.state_at evolve sleep m k.

(** The number a request went out under. *)
Definition request_id (e : effect) : option Z :=
  match e with
  | ReqContractDetails o _ _ _ _ => Some o
  | _ => None
  end.

(** The contract ids of the items written. *)
Definition written (out : list effect) : list Z :=
  flat_map (fun e => match e with PutItem _ _ cid => [cid] | _ => [] end) out.

Section Labels.

(** [datetime.strptime(text, "%Y%m").strftime("%b'%y")]: the label of a
    contract month, or the exception of the parser. *)
Variable month_label : string -> Py.result string.

(** The text [postprocess] stores under ["Financial Instrument"]. *)
Definition financial_instrument (m : request) : Py.result string :=
  let right := if String.eqb (side m) "C" then "CALL" else "PUT" in
  label <-! month_label (expiry m);
  Py.Ok (symbol m +:+ " " +:+ sectype m +:+ " (" +:+ class m +:+ ") "
         +:+ label +:+ " " +:+ strike m +:+ " " +:+ right +:+ " @"
         +:+ exchange m).

(** [IdScraper.postprocess]: every record with its new key.  (The
    method sets the locale to [en_US] around the loop and puts it back.) *)
Fixpoint postprocess (data : list request) : Py.result (list (request * string)) :=
  match data with
  | [] => Py.Ok []
  | m :: data' =>
      text <-! financial_instrument m;
      rest <-! postprocess data';
      Py.Ok ((m, text) :: rest)
  end.

(** [IdScraper.write_dynamo]: one item for every record. *)
Definition write_dynamo (tbl : string) (data : list (request * string))
    : list effect :=
  map (fun '(m, text) => PutItem tbl text (conid m)) data.

(** The script: connect, request, wait, label, export, disconnect.
    [None] is a wait that has not ended when the fuel ran out. *)
Definition main (fuel : nat) (sleep : nat -> list callback) (c : template)
    (months strikes : list string) (nextId : Z)
    : option (Py.result (list effect)) :=
  let '(_, data, out) := req_data c months strikes nextId [] in
  match wait_for_finish fuel sleep data with
  | None => None
  | Some (data', _) =>
      Some (labelled <-! postprocess data';
            Py.Ok ([Connect "localhost" 4001 56] ++ out
                   ++ write_dynamo "instruments" labelled ++ [Disconnect]))
  end.

End Labels.

(** Some answer that arrives before the K-th poll is for request [r] and
    carries a contract id. *)
Definition answered (sleep : nat -> list callback) (K : nat) (r : Z) : Prop :=
  exists k cd,
    (k < K)%nat /\ In (ContractDetailsCb r cd) (sleep k)
    /\ conId (contract cd) <> 0.

(** The chain of the sample: one month, one strike. *)
Definition sample_template : template :=
  {| t_symbol := "CL"; t_secType := "FOP"; t_tradingClass := "LO";
     t_exchange := "NYMEX"; t_currency := "USD" |}.

Definition sample_label : string -> Py.result string :=
  fun text => if String.eqb text "201903" then Py.Ok "Mar'19"
              else Py.Raise Py.ValueError.

Definition sample_answers : nat -> list callback :=
  fun k => match k with
           | O => [ContractDetailsCb 5
                     {| contract := {| conId := 101;
                                       lastTradeDateOrContractMonth := "20190214" |} |}]
           | 1%nat => [ContractDetailsCb 6
                     {| contract := {| conId := 102;
                                       lastTradeDateOrContractMonth := "20190214" |} |}]
           | _ => []
           end.

End IdScraper.

(** ** tws/snapshot.py *)

Module Snapshot.

(** The fields of [ibapi]'s [Contract] that the snapshot tool touches. *)
Record Contract : Type := mkContract {
  symbol : string;
  exchange : string;
  currency : string;
  secType : string;
  tradingClass : string;
  conId : Z;
  strike : Py.float;
  lastTradeDateOrContractMonth : string
}.

Record ContractDetails : Type := mkContractDetails {
  contract : Contract
}.

(** The text stored under ["Implied Vol. %"]: ["NA"], or [str(x) + "%"]
    for the float [x]. *)
Inductive vol_text : Type :=
| VolNA
| VolPercent (x : Py.float).

(** One element of [self.chain].  The first ten fields are the keys
    [create_instruments] writes; the others are keys that a callback
    adds. *)
Record instrument : Type := mkInstrument {
  id : Z;
  Financial_Instrument : string;
  Strike : Py.float;
  Side : string;
  Expiry : string;
  Underlying_Price : Py.float;
  Bid : Py.float;
  Ask : Py.float;
  Delta : Py.opt_float;
  Gamma : Py.opt_float;
  Theta : option Py.opt_float;
  Vega : option Py.opt_float;
  Implied_Vol : option vol_text;
  conid : option Z;
  Days_to_Last_Trading_Day : option string
}.

(** A value of [self.account]. *)
Record holding : Type := mkHolding {
  position : Py.float;
  avg_price : Py.float;
  holding_strike : Py.float
}.

(** The configuration section, with its numbers already read. *)
Record Config : Type := mkConfig {
  cfg_symbol : string;
  cfg_exchange : string;
  cfg_currency : string;
  cfg_sectype : string;
  cfg_class : string;
  cfg_account : string;
  cfg_mult : Py.float
}.

(** The part of a [Snapshot] object that the callbacks, the polling loop
    and the export read or write.  ([months], [strikes] and the price
    range are only used while the requests are issued.) *)
Record snapshot : Type := mkSnapshot {
  config : Config;
  cont : Contract;
  chain : list instrument;
  account : gmap Z holding;
  acct_updates_ongoing : bool
}.

Definition set_chain (s : snapshot) (c : list instrument) : snapshot :=
  {| config := config s; cont := cont s; chain := c; account := account s;
     acct_updates_ongoing := acct_updates_ongoing s |}.

Definition set_account (s : snapshot) (a : gmap Z holding) : snapshot :=
  {| config := config s; cont := cont s; chain := chain s; account := a;
     acct_updates_ongoing := acct_updates_ongoing s |}.

Definition set_acct_updates_ongoing (s : snapshot) (b : bool) : snapshot :=
  {| config := config s; cont := cont s; chain := chain s;
     account := account s; acct_updates_ongoing := b |}.

(** [Snapshot.__init__].  The constructor reads [config["price.from"]]
    before it tests [config is None], so a missing configuration raises
    [TypeError]. *)
Definition init (config : option Config) : Py.result snapshot :=
  match config with
  | None => Py.Raise Py.TypeError
  | Some c =>
      Py.Ok {| config := c;
               cont := {| symbol := cfg_symbol c; exchange := cfg_exchange c;
                          currency := cfg_currency c; secType := cfg_sectype c;
                          tradingClass := cfg_class c;
                          conId := 0; strike := S754_zero false;
                          lastTradeDateOrContractMonth := "" |};
               chain := [];
               account := ∅;
               acct_updates_ongoing := true |}
  end.

Definition set_Bid (i : instrument) (price : Py.float) : instrument :=
  {| id := id i; Financial_Instrument := Financial_Instrument i;
     Strike := Strike i; Side := Side i; Expiry := Expiry i;
     Underlying_Price := Underlying_Price i;
     Bid := price; Ask := Ask i;
     Delta := Delta i; Gamma := Gamma i; Theta := Theta i; Vega := Vega i;
     Implied_Vol := Implied_Vol i; conid := conid i;
     Days_to_Last_Trading_Day := Days_to_Last_Trading_Day i |}.

Definition set_Ask (i : instrument) (price : Py.float) : instrument :=
  {| id := id i; Financial_Instrument := Financial_Instrument i;
     Strike := Strike i; Side := Side i; Expiry := Expiry i;
     Underlying_Price := Underlying_Price i;
     Bid := Bid i; Ask := price;
     Delta := Delta i; Gamma := Gamma i; Theta := Theta i; Vega := Vega i;
     Implied_Vol := Implied_Vol i; conid := conid i;
     Days_to_Last_Trading_Day := Days_to_Last_Trading_Day i |}.

Definition set_Underlying_Price (i : instrument) (p : Py.float) : instrument :=
  {| id := id i; Financial_Instrument := Financial_Instrument i;
     Strike := Strike i; Side := Side i; Expiry := Expiry i;
     Underlying_Price := p;
     Bid := Bid i; Ask := Ask i;
     Delta := Delta i; Gamma := Gamma i; Theta := Theta i; Vega := Vega i;
     Implied_Vol := Implied_Vol i; conid := conid i;
     Days_to_Last_Trading_Day := Days_to_Last_Trading_Day i |}.

Definition set_greeks (i : instrument) (delta gamma theta vega : Py.opt_float)
    (vol : vol_text) : instrument :=
  {| id := id i; Financial_Instrument := Financial_Instrument i;
     Strike := Strike i; Side := Side i; Expiry := Expiry i;
     Underlying_Price := Underlying_Price i;
     Bid := Bid i; Ask := Ask i;
     Delta := delta; Gamma := gamma; Theta := Some theta; Vega := Some vega;
     Implied_Vol := Some vol; conid := conid i;
     Days_to_Last_Trading_Day := Days_to_Last_Trading_Day i |}.

Definition set_details (i : instrument) (c : Contract) : instrument :=
  {| id := id i; Financial_Instrument := Financial_Instrument i;
     Strike := Strike i; Side := Side i; Expiry := Expiry i;
     Underlying_Price := Underlying_Price i;
     Bid := Bid i; Ask := Ask i;
     Delta := Delta i; Gamma := Gamma i; Theta := Theta i; Vega := Vega i;
     Implied_Vol := Implied_Vol i; conid := Some (conId c);
     Days_to_Last_Trading_Day := Some (lastTradeDateOrContractMonth c) |}.

(** [Snapshot.tickPrice]: tick type 1 is the bid, 2 the ask. *)
Definition tickPrice (req_id : Z) (tick_type : Z) (price : Py.float)
    (chain : list instrument) : list instrument :=
  map (fun i =>
         if id i =? req_id then
           if tick_type =? 1 then set_Bid i price
           else if tick_type =? 2 then set_Ask i price
           else i
         else i) chain.

(** [Snapshot.contractDetails]. *)
Definition contractDetails (req_id : Z) (contract_details : ContractDetails)
    (chain : list instrument) : list instrument :=
  map (fun i => if req_id =? id i
                then set_details i (contract contract_details)
                else i) chain.

(** The arguments of [tickOptionComputation] that the handler stores. *)
Record option_tick : Type := mkOptionTick {
  implied_vol : Py.opt_float;
  delta : Py.opt_float;
  gamma : Py.opt_float;
  vega : Py.opt_float;
  theta : Py.opt_float;
  und_price : Py.opt_float
}.

Definition vol_text_of (implied_vol : Py.opt_float) : vol_text :=
  match implied_vol with
  | Py.PyNone => VolNA
  | Py.PyFloat x => VolPercent (Py.fmul x (Py.of_Z 100))
  end.

(** [Snapshot.tickOptionComputation], its effect on the chain (the handler
    also logs an error when no record has the request's id). *)
Definition tickOptionComputation (req_id : Z) (tick_type : Z) (t : option_tick)
    (chain : list instrument) : list instrument :=
  map (fun i =>
         if id i =? req_id then
           let i1 := match und_price t with
                     | Py.PyFloat p => set_Underlying_Price i p
                     | Py.PyNone => i
                     end in
           if tick_type =? 13
           then set_greeks i1 (delta t) (gamma t) (theta t) (vega t)
                           (vol_text_of (implied_vol t))
           else i1
         else i) chain.

(** [Snapshot.updatePortfolio]: a position in the configured symbol is
    stored under its contract id; any other position is dropped. *)
Definition updatePortfolio (c : Contract) (pos : Py.float)
    (average_cost : Py.float) (s : snapshot) : snapshot :=
  if String.eqb (symbol c) (symbol (cont s)) then
    set_account s
      (<[conId c := {| position := pos; avg_price := average_cost;
                       holding_strike := strike c |}]> (account s))
  else s.

(** [Snapshot.accountDownloadEnd]. *)
Definition accountDownloadEnd (s : snapshot) : snapshot :=
  set_acct_updates_ongoing s false.

(** The callbacks the API thread can deliver to a [Snapshot]. *)
Inductive callback : Type :=
| TickPrice (req_id tick_type : Z) (price : Py.float)
| ContractDetailsCb (req_id : Z) (contract_details : ContractDetails)
| TickOptionComputation (req_id tick_type : Z) (t : option_tick)
| UpdatePortfolio (c : Contract) (pos average_cost : Py.float)
| AccountDownloadEnd.

Definition handle (cb : callback) (s : snapshot) : snapshot :=
  match cb with
  | TickPrice r t p => set_chain s (tickPrice r t p (chain s))
  | ContractDetailsCb r cd => set_chain s (contractDetails r cd (chain s))
  | TickOptionComputation r t o =>
      set_chain s (tickOptionComputation r t o (chain s))
  | UpdatePortfolio c pos avg => updatePortfolio c pos avg s
  | AccountDownloadEnd => accountDownloadEnd s
  end.

(** The test of [wait_to_finish] on one record:
    [(np.isnan(i["Ask"]) and np.isnan(i["Bid"])) or i["Delta"] == float("nan")]. *)
Definition missing (i : instrument) : bool :=
  (Py.isnan (Ask i) && Py.isnan (Bid i)) || Py.eq_float (Delta i) Py.nan.

(** One pass of the [for i in self.chain] loop, started with
    [found = True] and [c1 = 0]. *)
Definition scan (chain : list instrument) : bool * nat :=
  fold_left (fun '(found, c1) i =>
               if missing i then (false, S c1) else (found, c1))
            chain (true, O).

(** The [while not found] loop of [wait_to_finish], entered with the
    current value of [c1].  A turn scans the chain, sleeps, and leaves the
    loop by [break] when the count equals that of the turn before, or by
    the loop test when nothing was missing. *)
Fixpoint wait_loop (fuel : nat) (sleep : nat -> list callback)
    (s : snapshot) (c1 : nat) : option (snapshot * nat) :=
  match fuel with
  | O => None
  | S fuel' =>
      let c_prev := c1 in
      let '(found, c1) := scan (chain s) in
      let s' := Sched.deliver handle (sleep O) s in
      if Nat.eqb c_prev c1 then Some (s', 1%nat)
      else if found then Some (s', 1%nat)
      else
        match wait_loop fuel' (Sched.shift sleep) s' c1 with
        | Some (r, n) => Some (r, S n)
        | None => None
        end
  end.

(** [Snapshot.wait_to_finish]: the object on return and the number of
    polls made. *)
Definition wait_to_finish (fuel : nat) (sleep : nat -> list callback)
    (s : snapshot) : option (snapshot * nat) :=
  wait_loop fuel sleep s O.

(** The number of records with neither a bid nor an ask. *)
Definition unquoted (chain : list instrument) : nat :=
  length (List.filter (fun i => Py.isnan (Ask i) && Py.isnan (Bid i)) chain).

(** The count the k-th poll of a run logs. *)
Definition missing_at (sleep : nat -> list callback) (s : snapshot) (k : nat) : nat :=
  snd (scan (chain (Sched.state_at handle sleep s k))).

(** The k-th poll ends the wait: nothing is missing, or as much is
    missing as at the poll before. *)
Definition settled (sleep : nat -> list callback) (s : snapshot) (k : nat) : Prop :=
  missing_at sleep s k = O
  \/ (0 < k)%nat /\ missing_at sleep s k = missing_at sleep s (k - 1).

(** The count a poll is compared with: the value of [c1] on entry for
    the first poll, the count of the poll before for the others. *)
Definition count_before (c : nat) (sleep : nat -> list callback)
    (s : snapshot) (k : nat) : nat :=
  match k with
  | O => c
  | S k' => missing_at sleep s k'
  end.

Definition leaves (c : nat) (sleep : nat -> list callback)
    (s : snapshot) (k : nat) : Prop :=
  missing_at sleep s k = count_before c sleep s k
  \/ missing_at sleep s k = O.

(** A callback that does not blank a quote: a price tick carries a
    price. *)
Definition fills (cb : callback) : Prop :=
  match cb with
  | TickPrice _ _ price => Py.isnan price = false
  | _ => True
  end.

(** A chain record as [create_instruments] appends it. *)
Definition new_instrument (o : Z) (str_f : string) (i : Py.float)
    (j m : string) : instrument :=
  {| id := o; Financial_Instrument := str_f; Strike := i; Side := j;
     Expiry := m; Underlying_Price := Py.nan; Bid := Py.nan; Ask := Py.nan;
     Delta := Py.PyFloat Py.nan; Gamma := Py.PyFloat Py.nan;
     Theta := None; Vega := None; Implied_Vol := None; conid := None;
     Days_to_Last_Trading_Day := None |}.

(** A small run: two options are requested, a bid arrives for the first
    one during the first sleep, and nothing ever arrives for the second. *)
Definition sample_config : Config :=
  {| cfg_symbol := "CL"; cfg_exchange := "NYMEX"; cfg_currency := "USD";
     cfg_sectype := "FOP"; cfg_class := "LO"; cfg_account := "DU000000";
     cfg_mult := Py.of_Z 1000 |}.

Definition sample_chain : list instrument :=
  [ new_instrument 2 "CL FOP (LO) Mar'19 40 CALL @NYMEX" (Py.of_Z 40) "C" "201903";
    new_instrument 3 "CL FOP (LO) Mar'19 40 PUT @NYMEX" (Py.of_Z 40) "P" "201903" ].

Definition sample_snapshot : snapshot :=
  {| config := sample_config;
     cont := {| symbol := "CL"; exchange := "NYMEX"; currency := "USD";
                secType := "FOP"; tradingClass := "LO"; conId := 0;
                strike := Py.of_Z 40; lastTradeDateOrContractMonth := "201903" |};
     chain := sample_chain;
     account := ∅;
     acct_updates_ongoing := false |}.

Definition sample_run : nat -> list callback :=
  fun k => match k with
           | O => [TickPrice 2 1 (Py.of_Z 11)]
           | S _ => []
           end.

(** A run in which the bid of the first option comes and goes: a price
    in one sleep, NaN in the next. *)
Definition blinking_run : nat -> list callback :=
  fun k => if Nat.even k
           then [TickPrice 2 1 (Py.of_Z 11)]
           else [TickPrice 2 1 Py.nan].

Definition sample_quoted : snapshot :=
  handle (TickPrice 2 1 (Py.of_Z 11)) sample_snapshot.

(** *** The data frame *)

(** A row of the data frame of [prepare_df]: the columns that come from
    the chain record, and the columns [prepare_df] adds.  The converted
    ["Days to Last Trading Day"] is kept next to the text it replaces. *)
Record row : Type := mkRow {
  inst : instrument;
  Mid : Py.float;
  Spread : Py.float;
  Days : option Z;
  Position : Py.float;
  Avg_Price : Py.float
}.

Definition set_Position (r : row) (x : Py.float) : row :=
  {| inst := inst r; Mid := Mid r; Spread := Spread r; Days := Days r;
     Position := x; Avg_Price := Avg_Price r |}.

Definition set_Avg_Price (r : row) (x : Py.float) : row :=
  {| inst := inst r; Mid := Mid r; Spread := Spread r; Days := Days r;
     Position := Position r; Avg_Price := x |}.

(** [df.loc[df["conid"] == k, col] = x], for the two columns. *)
Definition loc_Position (k : Z) (x : Py.float) (df : list row) : list row :=
  map (fun r => if decide (conid (inst r) = Some k) then set_Position r x else r) df.

Definition loc_Avg_Price (k : Z) (x : Py.float) (df : list row) : list row :=
  map (fun r => if decide (conid (inst r) = Some k) then set_Avg_Price r x else r) df.

(** The body of [for k, v in self.account.items()], folded over the
    items.  The quotient is computed in every turn, so a zero multiplier
    raises in the first one. *)
Fixpoint update_positions (mult : Py.float) (items : list (Z * holding))
    (df : list row) : Py.result (list row) :=
  match items with
  | [] => Py.Ok df
  | (k, v) :: items' =>
      let df1 := loc_Position k (position v) df in
      q <-! Py.truediv (avg_price v) mult;
      update_positions mult items' (loc_Avg_Price k q df1)
  end.

Section Environment.

(** What the tool takes from outside the file: the number of days from
    today to a date written as [%Y%m%d] (or [ValueError]), the lookup of
    contract ids in the instrument table ([tools.lookup_contract_id]), and
    the date-time group of the moment of the export. *)
Variable days_left : string -> Py.result Z.
Variable lookup_contract_id : list row -> string -> Py.result (list row).
Variable dtg : Z.

(** The conversion of the ["Days to Last Trading Day"] column: a record
    without the key has no date. *)
Fixpoint days_column (chain : list instrument) : Py.result (list (option Z)) :=
  match chain with
  | [] => Py.Ok []
  | i :: chain' =>
      d <-! match Days_to_Last_Trading_Day i with
            | None => Py.Ok None
            | Some text => (n <-! days_left text; Py.Ok (Some n))
            end;
      ds <-! days_column chain';
      Py.Ok (d :: ds)
  end.

Definition has_details (i : instrument) : bool :=
  match Days_to_Last_Trading_Day i with Some _ => true | None => false end.

(** [prepare_df], up to and including the lookup of the contract ids.
    A frame built from an empty chain has no ["Ask"] column, and one built
    from records that never got their contract details has no
    ["Days to Last Trading Day"] column. *)
Definition prepare_frame (s : snapshot) : Py.result (list row) :=
  match chain s with
  | [] => Py.Raise (Py.KeyError "Ask")
  | _ :: _ =>
      if existsb has_details (chain s) then
        ds <-! days_column (chain s);
        lookup_contract_id
          (map (fun '(i, d) =>
                  {| inst := i;
                     Mid := SFdiv Py.prec Py.emax
                              (Py.fadd (Ask i) (Bid i)) (Py.of_Z 2);
                     Spread := Py.fabs (Py.fsub (Ask i) (Bid i));
                     Days := d;
                     Position := Py.of_Z 0;
                     Avg_Price := Py.of_Z 0 |})
               (combine (chain s) ds))
          "instruments"
      else Py.Raise (Py.KeyError "Days to Last Trading Day")
  end.

(** [Snapshot.prepare_df]: the frame it returns (and stores in
    [self.df]).  The items of the dictionary are visited in the order
    [map_to_list] gives them; the keys being distinct, the result does not
    depend on it. *)
Definition prepare_df (s : snapshot) : Py.result (list row) :=
  df <-! prepare_frame s;
  update_positions (cfg_mult (config s)) (map_to_list (account s)) df.

(** What [prepare_df] writes in a row, given the holding stored under the
    row's contract id. *)
Definition enrich (mult : Py.float) (account : gmap Z holding) (r : row) : row :=
  match conid (inst r) ≫= (account !!.) with
  | Some v =>
      set_Avg_Price (set_Position r (position v))
                    (SFdiv Py.prec Py.emax (avg_price v) mult)
  | None => r
  end.

(** *** The export *)

(** What the tool does to the outside world. *)
Inductive effect : Type :=
| Log (msg : string)
| Verbose (msg : string)
| Error (msg : string)
| PutItem (table : string) (item_dtg : Z) (item_inst : string) (data : list row)
| ToCsv (path : string) (data : list row)
| Disconnect.

(** [Snapshot.export_dynamo], given the frame in [self.df] and the HTTP
    status code of the response to [put_item]: what it does, and how it
    ends. *)
Definition export_dynamo (s : snapshot) (df : list row) (tbl : string)
    (status_code : Z) : list effect * Py.result unit :=
  let is_ok := status_code =? 200 in
  ([ Log ("Exporting market data snapshot to Dynamo DB table " +:+ tbl);
     PutItem tbl dtg (symbol (cont s)) df;
     if is_ok then Verbose "Data export to DynamoDB successful"
     else Error "Failed to export data to DynamoDB" ],
   Py.Ok tt).

(** *** The command line *)

(** The namespace [parse_args] returns. *)
Record args : Type := mkArgs {
  arg_verbose : bool;
  arg_quiet : bool;
  arg_db : bool;
  arg_csv : option string
}.

Definition no_args : args :=
  {| arg_verbose := false; arg_quiet := false; arg_db := false; arg_csv := None |}.

(** The options of the parser: the help option that [ArgumentParser]
    adds by itself and those of the four [add_argument] calls, in the
    order the parser holds them. *)
Inductive action : Type :=
| ActHelp
| ActVerbose
| ActQuiet
| ActDb
| ActCsv.

Definition option_strings : list (string * action) :=
  [("-h", ActHelp); ("--help", ActHelp);
   ("-v", ActVerbose); ("--verbose", ActVerbose);
   ("-q", ActQuiet); ("--quiet", ActQuiet);
   ("--db", ActDb); ("--csv", ActCsv)]%string.

Definition find_option (w : string) : option action :=
  match find (fun x => String.eqb (fst x) w) option_strings with
  | Some x => Some (snd x)
  | None => None
  end.

(** [w.split('=', 1)] when ['=' in w]. *)
Fixpoint split_eq (w : string) : option (string * string) :=
  match w with
  | EmptyString => None
  | String c t =>
      if Ascii.eqb c "="%char then Some (EmptyString, t)
      else match split_eq t with
           | Some (l, e) => Some (String c l, e)
           | None => None
           end
  end.

Fixpoint has_space (w : string) : bool :=
  match w with
  | EmptyString => false
  | String c t => Ascii.eqb c " "%char || has_space t
  end.

(** The parser's test for a negative number, [^-\d+$|^-\d*\.\d+$], on
    ASCII text; [$] also matches before a newline that ends the text. *)
Definition is_digit (c : Ascii.ascii) : bool :=
  let n := Ascii.nat_of_ascii c in (48 <=? n)%nat && (n <=? 57)%nat.

Fixpoint skip_digits (t : string) : string :=
  match t with
  | EmptyString => EmptyString
  | String c t' => if is_digit c then skip_digits t' else t
  end.

Definition starts_with_digit (t : string) : bool :=
  match t with
  | EmptyString => false
  | String c _ => is_digit c
  end.

Definition at_end (t : string) : bool :=
  match t with
  | EmptyString => true
  | String c EmptyString => Ascii.eqb c (Ascii.ascii_of_nat 10)
  | _ => false
  end.

Definition negative_number (w : string) : bool :=
  match w with
  | EmptyString => false
  | String c t =>
      Ascii.eqb c "-"%char
      && ((starts_with_digit t && at_end (skip_digits t))
          || match skip_digits t with
             | String d t' =>
                 Ascii.eqb d "."%char
                 && starts_with_digit t' && at_end (skip_digits t')
             | EmptyString => false
             end)
  end.

(** What the parser takes a word of the command line for: an argument, an
    option it knows (with the option string it stands for and the value
    written in the same word, if any), a word that looks like an option
    and is none, or a prefix of several options (an error). *)
Inductive word_class : Type :=
| Argument
| Opt (act : action) (option_string : string) (explicit_arg : option string)
| Unknown
| Ambiguous.

(** The parser's [_get_option_tuples]: a word that starts with two dashes
    stands for every option it is a prefix of (up to its [=]); one that
    starts with a single dash stands for the short option of its first
    two characters, the rest being the value written with it. *)
Definition get_option_tuples (w : string)
    : list (action * string * option string) :=
  match w with
  | String c0 (String c1 t2) =>
      if Ascii.eqb c1 "-"%char then
        let '(option_prefix, explicit_arg) :=
          match split_eq w with
          | Some (l, e) => (l, Some e)
          | None => (w, None)
          end in
        flat_map (fun x => if String.prefix option_prefix (fst x)
                           then [(snd x, fst x, explicit_arg)] else [])
                 option_strings
      else
        let short_option_prefix := String c0 (String c1 EmptyString) in
        flat_map (fun x => if String.eqb (fst x) short_option_prefix
                           then [(snd x, fst x, Some t2)]
                           else if String.prefix w (fst x)
                                then [(snd x, fst x, None)] else [])
                 option_strings
  | _ => []
  end.

(** The parser's [_parse_optional]. *)
Definition parse_optional (w : string) : word_class :=
  match w with
  | EmptyString => Argument
  | String c0 t =>
      if negb (Ascii.eqb c0 "-"%char) then Argument
      else
        match find_option w with
        | Some act => Opt act w None
        | None =>
            match t with
            | EmptyString => Argument
            | String _ _ =>
                let exact :=
                  match split_eq w with
                  | Some (l, e) =>
                      match find_option l with
                      | Some act => Some (Opt act l (Some e))
                      | None => None
                      end
                  | None => None
                  end in
                match exact with
                | Some r => r
                | None =>
                    match get_option_tuples w with
                    | _ :: _ :: _ => Ambiguous
                    | [(act, option_string, explicit_arg)] =>
                        Opt act option_string explicit_arg
                    | [] =>
                        if negative_number w then Argument
                        else if has_space w then Argument
                        else Unknown
                    end
                end
            end
        end
  end.

(** A word that can be the value of [--csv]: an argument, and not the
    separator [--]. *)
Definition is_argument (w : string) : bool :=
  negb (String.eqb w "--")
  && match parse_optional w with Argument => true | _ => false end.

(** What an option that takes no value does to the namespace; the help
    option prints the help text and ends the script, and [--csv] is no
    such option. *)
Definition store_true (act : action) (a : args) : option args :=
  match act with
  | ActVerbose => Some {| arg_verbose := true; arg_quiet := arg_quiet a;
                          arg_db := arg_db a; arg_csv := arg_csv a |}
  | ActQuiet => Some {| arg_verbose := arg_verbose a; arg_quiet := true;
                        arg_db := arg_db a; arg_csv := arg_csv a |}
  | ActDb => Some {| arg_verbose := arg_verbose a; arg_quiet := arg_quiet a;
                     arg_db := true; arg_csv := arg_csv a |}
  | ActHelp | ActCsv => None
  end.

(** [--csv] stores its value.  (The value [--] written as [--csv=--] is
    kept as this text; the parser of Python 3.11 and older stores an empty
    list for it.) *)
Definition store_csv (a : args) (path : string) : args :=
  {| arg_verbose := arg_verbose a; arg_quiet := arg_quiet a;
     arg_db := arg_db a; arg_csv := Some path |}.

(** The rest of a word of short switches, as in [-vq]: every further
    character has to be a short option of its own (none of the short
    options takes a value). *)
Fixpoint short_switches (a : args) (e : string) : option args :=
  match e with
  | EmptyString => Some a
  | String c e' =>
      match find_option (String "-"%char (String c EmptyString)) with
      | Some act =>
          match store_true act a with
          | Some a' => short_switches a' e'
          | None => None
          end
      | None => None
      end
  end.

Definition single_dash (option_string : string) : bool :=
  match option_string with
  | String _ (String c1 _) => negb (Ascii.eqb c1 "-"%char)
  | _ => false
  end.

(** [parser.parse_args()] on the words of the command line, with the
    namespace so far.  [None] stands for the script ending inside the
    parser: with the usage message (an argument nobody takes, among them
    [--] and what follows it; an unknown or ambiguous option; a value
    written to a switch; [--csv] without a value) or with the help text. *)
Fixpoint parse_args_from (a : args) (argv : list string) : option args :=
  match argv with
  | [] => Some a
  | w :: rest =>
      if String.eqb w "--" then None
      else
        match parse_optional w with
        | Argument | Unknown | Ambiguous => None
        | Opt ActHelp _ _ => None
        | Opt ActCsv _ (Some e) => parse_args_from (store_csv a e) rest
        | Opt ActCsv _ None =>
            match rest with
            | path :: rest' =>
                if is_argument path
                then parse_args_from (store_csv a path) rest'
                else None
            | [] => None
            end
        | Opt act _ None =>
            match store_true act a with
            | Some a' => parse_args_from a' rest
            | None => None
            end
        | Opt act option_string (Some e) =>
            if single_dash option_string && negb (String.eqb e "") then
              match store_true act a with
              | Some a' =>
                  match short_switches a' e with
                  | Some a'' => parse_args_from a'' rest
                  | None => None
                  end
              | None => None
              end
            else None
        end
  end.

Definition parse_args (argv : list string) : option args :=
  parse_args_from no_args argv.

(** The statements of the script that follow [wait_to_finish], run on the
    object [tws] as the polling loop left it; [status_code] is the answer
    of the database to [put_item]. *)
Definition report (a : args) (tws : snapshot) (status_code : Z)
    : Py.result (list effect) :=
  df1 <-! prepare_df tws;
  let '(out, r) := export_dynamo tws df1 "mktData" status_code in
  _ <-! r;
  Py.Ok ([ToCsv "./data/out.csv" df1] ++ out ++ [Disconnect]).

(** The script, from the command line to the construction of the tool:
    it builds [Snapshot()] without a configuration. *)
Definition main_start (argv : list string) : option (Py.result (args * snapshot)) :=
  match parse_args argv with
  | None => None
  | Some a => Some (tws <-! init None; Py.Ok (a, tws))
  end.

End Environment.

(** A run of the export: the first option of the sample chain has its
    contract details, the account holds two lots of it, every date is
    thirty days away and the instrument table changes nothing. *)
Definition sample_contract : Contract :=
  {| symbol := "CL"; exchange := "NYMEX"; currency := "USD";
     secType := "FOP"; tradingClass := "LO"; conId := 77;
     strike := Py.of_Z 40; lastTradeDateOrContractMonth := "20190214" |}.

Definition sample_export : snapshot :=
  updatePortfolio sample_contract (Py.of_Z 2) (Py.of_Z 1500)
    (handle (ContractDetailsCb 2 {| contract := sample_contract |})
            sample_snapshot).

Definition sample_days_left : string -> Py.result Z := fun _ => Py.Ok 30.

Definition sample_lookup : list row -> string -> Py.result (list row) :=
  fun df _ => Py.Ok df.

(** The sample export with a multiplier of zero in the configuration. *)
Definition sample_export_no_mult : snapshot :=
  {| config := {| cfg_symbol := "CL"; cfg_exchange := "NYMEX";
                  cfg_currency := "USD"; cfg_sectype := "FOP";
                  cfg_class := "LO"; cfg_account := "DU000000";
                  cfg_mult := Py.of_Z 0 |};
     cont := cont sample_export;
     chain := chain sample_export;
     account := account sample_export;
     acct_updates_ongoing := acct_updates_ongoing sample_export |}.

(** What a trace of effects says about the export. *)
Definition is_put (e : effect) : bool :=
  match e with PutItem _ _ _ _ => true | _ => false end.

Definition is_success_report (e : effect) : bool :=
  match e with
  | Verbose msg => String.eqb msg "Data export to DynamoDB successful"
  | _ => false
  end.

Definition is_failure_report (e : effect) : bool :=
  match e with
  | Error msg => String.eqb msg "Failed to export data to DynamoDB"
  | _ => false
  end.

Definition csv_paths (out : list effect) : list string :=
  flat_map (fun e => match e with ToCsv path _ => [path] | _ => [] end) out.

(** *** Requesting the chain *)

(** A run in which nothing ever arrives. *)
Definition silence : nat -> list callback := fun _ => [].

(** The calls [create_instruments] makes; the contract of a market data
    or contract details request is [self.cont] with its strike and month,
    and the right. *)
Inductive request : Type :=
| ReqAccountUpdates (subscribe : bool) (acct_code : string)
| ReqMktData (req_id : Z) (c : Contract) (right : string)
| ReqContractDetails (req_id : Z) (c : Contract) (right : string).

(** The first statements of [create_instruments]: the flag is raised and
    the account updates are asked for. *)
Definition begin_account_updates (s : snapshot) : snapshot * list request :=
  (set_acct_updates_ongoing s true,
   [ReqAccountUpdates true (cfg_account (config s))]).

(** [while self.acct_updates_ongoing: time.sleep(0.1)]. *)
Definition wait_account (fuel : nat) (sleep : nat -> list callback)
    (s : snapshot) : option (snapshot * nat) :=
  Wait.wait_while handle acct_updates_ongoing fuel sleep s.

(** [str.upper] on ASCII text. *)
Definition upper_ascii (a : Ascii.ascii) : Ascii.ascii :=
  let n := Ascii.nat_of_ascii a in
  if (97 <=? n)%nat && (n <=? 122)%nat then Ascii.ascii_of_nat (n - 32) else a.

Fixpoint upper (t : string) : string :=
  match t with
  | EmptyString => EmptyString
  | String a t' => String (upper_ascii a) (upper t')
  end.



Section Chain.

(** [datetime.strptime(m, "%Y%m").strftime("%b'%y")] (or the exception of
    the parser) and ["{:g}".format(i)]. *)
Variable month_label : string -> Py.result string.
Variable format_g : Py.float -> string.

(** The text [str_f] of [create_instruments]. *)
Definition financial_instrument (c : Contract) (m : string) (i : Py.float)
    (j : string) : Py.result string :=
  let str_s := if String.eqb j "c" then "CALL" else "PUT" in
  label <-! month_label m;
  Py.Ok (symbol c +:+ " " +:+ secType c +:+ " (" +:+ tradingClass c +:+ ") "
         +:+ label +:+ " " +:+ format_g i +:+ " " +:+ str_s +:+ " @"
         +:+ exchange c).



End Chain.

(** The requests of [create_instruments] in the order it makes them. *)
Definition request_keys (months : list string) (strikes : list Py.float)
    : list (string * Py.float * string) :=
  flat_map (fun m =>
              flat_map (fun i => map (fun j => (m, i, j)) ["c"; "p"]%string)
                       strikes)
           months.

(** The keys numbered from [o] on. *)
Fixpoint number_from {A : Type} (o : Z) (l : list A) : list (Z * A) :=
  match l with
  | [] => []
  | x :: l' => (o, x) :: number_from (o + 1) l'
  end.



(** What [create_instruments] wrote in a record and no callback
    changes. *)
Definition descriptor (i : instrument) : Z * string * Py.float * string * string :=
  (id i, Financial_Instrument i, Strike i, Side i, Expiry i).

(** The request a market data callback answers. *)
Definition answers (cb : callback) : option Z :=
  match cb with
  | TickPrice r _ _ => Some r
  | ContractDetailsCb r _ => Some r
  | TickOptionComputation r _ _ => Some r
  | UpdatePortfolio _ _ _ => None
  | AccountDownloadEnd => None
  end.

(** A callback other than a price tick. *)
Definition no_quote (cb : callback) : Prop :=
  match cb with
  | TickPrice _ _ _ => False
  | _ => True
  end.

(** A run that brings greeks and contract details for the first option
    of the sample chain, and no price. *)
Definition greeks_only_run : nat -> list callback :=
  fun k => match k with
           | O => [TickOptionComputation 2 13
                     {| implied_vol := Py.PyFloat (Py.of_Z 1);
                        delta := Py.PyFloat (Py.of_Z 1);
                        gamma := Py.PyNone; vega := Py.PyNone;
                        theta := Py.PyNone;
                        und_price := Py.PyFloat (Py.of_Z 51) |}]
           | 1%nat => [ContractDetailsCb 2 {| contract := sample_contract |}]
           | _ => []
           end.

(** The callbacks of a sleep bring the end of the account download. *)
Definition download_ends (cbs : list callback) : bool :=
  existsb (fun cb => match cb with AccountDownloadEnd => true | _ => false end) cbs.

Definition sample_label : string -> Py.result string :=
  fun text => if String.eqb text "201903" then Py.Ok "Mar'19"
              else Py.Raise Py.ValueError.

Definition sample_format_g : Py.float -> string := fun _ => "40"%string.

Definition sample_account_run : nat -> list callback :=
  fun k => match k with
           | O => [UpdatePortfolio sample_contract (Py.of_Z 2) (Py.of_Z 1500)]
           | 1%nat => [AccountDownloadEnd]
           | _ => []
           end.

End Snapshot.

(** ** news.py *)

Module News.

Inductive TraderStatus : Type :=
| COLD
| HOT
| ACTIVE.

(** The fields of [ibapi]'s [Order] that the trader sets or reads. *)
Record Order : Type := mkOrder {
  orderId : Py.id_val;
  parentId : Py.id_val;
  action : string;
  orderType : string;
  totalQuantity : Z;
  ocaGroup : string;
  transmit : bool;
  lmtPrice : Py.float;
  auxPrice : Py.float;
  trailStopPrice : Py.float;
  lmtPriceOffset : Py.float
}.

(** [Order()], with the defaults of the vendor's constructor: identifiers
    0, empty texts, [transmit] set, prices at [UNSET_DOUBLE]. *)
Definition UNSET_DOUBLE : Py.float := SFmax_float Py.prec Py.emax.

Definition new_Order : Order :=
  {| orderId := Py.PyInt 0; parentId := Py.PyInt 0;
     action := ""; orderType := ""; totalQuantity := 0;
     ocaGroup := ""; transmit := true;
     lmtPrice := UNSET_DOUBLE; auxPrice := UNSET_DOUBLE;
     trailStopPrice := UNSET_DOUBLE; lmtPriceOffset := UNSET_DOUBLE |}.

Definition set_orderId (o : Order) (v : Py.id_val) : Order :=
  {| orderId := v; parentId := parentId o; action := action o;
     orderType := orderType o; totalQuantity := totalQuantity o;
     ocaGroup := ocaGroup o; transmit := transmit o;
     lmtPrice := lmtPrice o; auxPrice := auxPrice o;
     trailStopPrice := trailStopPrice o; lmtPriceOffset := lmtPriceOffset o |}.

Definition set_parentId (o : Order) (v : Py.id_val) : Order :=
  {| orderId := orderId o; parentId := v; action := action o;
     orderType := orderType o; totalQuantity := totalQuantity o;
     ocaGroup := ocaGroup o; transmit := transmit o;
     lmtPrice := lmtPrice o; auxPrice := auxPrice o;
     trailStopPrice := trailStopPrice o; lmtPriceOffset := lmtPriceOffset o |}.

Definition set_ocaGroup (o : Order) (g : string) : Order :=
  {| orderId := orderId o; parentId := parentId o; action := action o;
     orderType := orderType o; totalQuantity := totalQuantity o;
     ocaGroup := g; transmit := transmit o;
     lmtPrice := lmtPrice o; auxPrice := auxPrice o;
     trailStopPrice := trailStopPrice o; lmtPriceOffset := lmtPriceOffset o |}.

Definition set_prices (o : Order) (lmt aux stop offset : Py.float) : Order :=
  {| orderId := orderId o; parentId := parentId o; action := action o;
     orderType := orderType o; totalQuantity := totalQuantity o;
     ocaGroup := ocaGroup o; transmit := transmit o;
     lmtPrice := lmt; auxPrice := aux;
     trailStopPrice := stop; lmtPriceOffset := offset |}.

(** The order as [__init__] sets it up. *)
Definition make_Order (act type : string) (q : Z) (oca : string) : Order :=
  {| orderId := orderId new_Order; parentId := parentId new_Order;
     action := act; orderType := type; totalQuantity := q;
     ocaGroup := oca; transmit := false;
     lmtPrice := lmtPrice new_Order; auxPrice := auxPrice new_Order;
     trailStopPrice := trailStopPrice new_Order;
     lmtPriceOffset := lmtPriceOffset new_Order |}.

(** The state of a [TwsWrapper]. *)
Record TwsWrapper : Type := mkTwsWrapper {
  nextValidOrderId : Z;
  last_price : Py.float;
  set_price : Py.float;
  entry_spread : Py.float;
  tgt_spread : Py.float;
  trail_spread : Py.float;
  delta_adjust : Py.float;
  time_adjust : Z;
  q : Z;
  status : TraderStatus;
  long_entry : Order;
  long_tgt : Order;
  long_trail : Order;
  short_entry : Order;
  short_tgt : Order;
  short_trail : Order
}.

(** The float a decimal literal [n / d] of the source denotes. *)
Definition literal (n d : Z) : Py.float :=
  SFdiv Py.prec Py.emax (Py.of_Z n) (Py.of_Z d).

(** [TwsWrapper.__init__]. *)
Definition init : TwsWrapper :=
  let q := 1 in
  {| nextValidOrderId := -1;
     last_price := literal (-1) 1;
     set_price := literal (-1) 1;
     entry_spread := literal 5 100;
     tgt_spread := literal 2 10;
     trail_spread := literal 2 10;
     delta_adjust := literal 2 100;
     time_adjust := 500;
     q := q;
     status := COLD;
     long_entry := make_Order "BUY" "STP LMT" q "";
     long_tgt := make_Order "SELL" "LMT" q "News_Long";
     long_trail := make_Order "SELL" "TRAIL" q "News_Long";
     short_entry := make_Order "SELL" "STP LMT" q "";
     short_tgt := make_Order "BUY" "LMT" q "News_Short";
     short_trail := make_Order "BUY" "TRAIL" q "News_Short" |}.

Definition with_orders (w : TwsWrapper)
    (le lt ltr se st str : Order) : TwsWrapper :=
  {| nextValidOrderId := nextValidOrderId w; last_price := last_price w;
     set_price := set_price w; entry_spread := entry_spread w;
     tgt_spread := tgt_spread w; trail_spread := trail_spread w;
     delta_adjust := delta_adjust w; time_adjust := time_adjust w;
     q := q w; status := status w;
     long_entry := le; long_tgt := lt; long_trail := ltr;
     short_entry := se; short_tgt := st; short_trail := str |}.

Definition with_status (w : TwsWrapper) (st : TraderStatus) : TwsWrapper :=
  {| nextValidOrderId := nextValidOrderId w; last_price := last_price w;
     set_price := set_price w; entry_spread := entry_spread w;
     tgt_spread := tgt_spread w; trail_spread := trail_spread w;
     delta_adjust := delta_adjust w; time_adjust := time_adjust w;
     q := q w; status := st;
     long_entry := long_entry w; long_tgt := long_tgt w;
     long_trail := long_trail w; short_entry := short_entry w;
     short_tgt := short_tgt w; short_trail := short_trail w |}.

Definition with_nextValidOrderId (w : TwsWrapper) (o : Z) : TwsWrapper :=
  {| nextValidOrderId := o; last_price := last_price w;
     set_price := set_price w; entry_spread := entry_spread w;
     tgt_spread := tgt_spread w; trail_spread := trail_spread w;
     delta_adjust := delta_adjust w; time_adjust := time_adjust w;
     q := q w; status := status w;
     long_entry := long_entry w; long_tgt := long_tgt w;
     long_trail := long_trail w; short_entry := short_entry w;
     short_tgt := short_tgt w; short_trail := short_trail w |}.

Definition with_last_price (w : TwsWrapper) (p : Py.float) : TwsWrapper :=
  {| nextValidOrderId := nextValidOrderId w; last_price := p;
     set_price := set_price w; entry_spread := entry_spread w;
     tgt_spread := tgt_spread w; trail_spread := trail_spread w;
     delta_adjust := delta_adjust w; time_adjust := time_adjust w;
     q := q w; status := status w;
     long_entry := long_entry w; long_tgt := long_tgt w;
     long_trail := long_trail w; short_entry := short_entry w;
     short_tgt := short_tgt w; short_trail := short_trail w |}.

Definition with_set_price (w : TwsWrapper) (p : Py.float) : TwsWrapper :=
  {| nextValidOrderId := nextValidOrderId w; last_price := last_price w;
     set_price := p; entry_spread := entry_spread w;
     tgt_spread := tgt_spread w; trail_spread := trail_spread w;
     delta_adjust := delta_adjust w; time_adjust := time_adjust w;
     q := q w; status := status w;
     long_entry := long_entry w; long_tgt := long_tgt w;
     long_trail := long_trail w; short_entry := short_entry w;
     short_tgt := short_tgt w; short_trail := short_trail w |}.

(** [TwsWrapper.nextValidId]. *)
Definition nextValidId (order_id : Z) (w : TwsWrapper) : TwsWrapper :=
  with_nextValidOrderId w order_id.

(** [TwsWrapper.get_orders]. *)
Definition get_orders (w : TwsWrapper) : list Order :=
  [long_entry w; long_tgt w; long_trail w;
   short_entry w; short_tgt w; short_trail w].

(** [TwsWrapper.prepare_orders]. *)
Definition prepare_orders (w : TwsWrapper) : TwsWrapper :=
  if Py.fleb (last_price w) (Py.of_Z 0) then w
  else
    let o := nextValidOrderId w in
    let le := set_ocaGroup (set_orderId (long_entry w) (Py.PyStr (Py.str_of_Z o)))
                           "News trader" in
    let lt := set_parentId
                (set_orderId (long_tgt w) (Py.PyStr (Py.str_of_Z (o + 1))))
                (Py.PyStr (Py.str (orderId le))) in
    let ltr := set_parentId
                 (set_orderId (long_trail w) (Py.PyStr (Py.str_of_Z (o + 2))))
                 (Py.PyStr (Py.str (orderId le))) in
    let se := set_ocaGroup
                (set_orderId (short_entry w) (Py.PyStr (Py.str_of_Z (o + 3))))
                "News Trader" in
    let st := set_parentId
                (set_orderId (short_tgt w) (Py.PyStr (Py.str_of_Z (o + 4))))
                (Py.PyStr (Py.str (orderId se))) in
    let str := set_parentId
                 (set_orderId (short_trail w) (Py.PyStr (Py.str_of_Z (o + 5))))
                 (Py.PyStr (Py.str (orderId se))) in
    with_orders w le lt ltr se st str.

(** [TwsWrapper.wrapper_price_update]. *)
Definition wrapper_price_update (p : Py.float) (w : TwsWrapper) : TwsWrapper :=
  let w := with_set_price w p in
  let le := long_entry w in
  let lt := long_tgt w in
  let ltr := long_trail w in
  let se := short_entry w in
  let st := short_tgt w in
  let str := short_trail w in
  with_orders w
    (set_prices le (Py.fadd p (entry_spread w)) (Py.fadd p (entry_spread w))
                (trailStopPrice le) (lmtPriceOffset le))
    (set_prices lt (Py.fadd p (tgt_spread w)) (auxPrice lt)
                (trailStopPrice lt) (lmtPriceOffset lt))
    (set_prices ltr (lmtPrice ltr) (trail_spread w)
                (Py.fsub p (trail_spread w)) (trail_spread w))
    (set_prices se (Py.fsub p (entry_spread w)) (Py.fsub p (entry_spread w))
                (trailStopPrice se) (lmtPriceOffset se))
    (set_prices st (Py.fsub p (tgt_spread w)) (auxPrice st)
                (trailStopPrice st) (lmtPriceOffset st))
    (set_prices str (lmtPrice str) (trail_spread w)
                (Py.fadd p (trail_spread w)) (trail_spread w)).

(** [TickTypeEnum.LAST]. *)
Definition LAST : Z := 4.

(** [TwsWrapper.tickPrice]. *)
Definition tickPrice (tick_type : Z) (price : Py.float) (w : TwsWrapper)
    : TwsWrapper :=
  if tick_type =? LAST then with_last_price w price else w.

(** [TwsWrapper.orderStatus]: three tests in a row on the identifier of
    the order the status is about. *)
Definition orderStatus (order_id : Py.id_val) (w : TwsWrapper) : TwsWrapper :=
  let w1 :=
    if Py.eqb order_id (orderId (long_entry w))
       || Py.eqb order_id (orderId (short_entry w))
    then with_status w ACTIVE else w in
  let w2 :=
    if Py.eqb order_id (orderId (long_trail w1))
       || Py.eqb order_id (orderId (long_tgt w1))
    then with_status w1 COLD else w1 in
  if Py.eqb order_id (orderId (short_trail w2))
     || Py.eqb order_id (orderId (short_tgt w2))
  then with_status w2 COLD else w2.

(** A call of the client's [placeOrder]. *)
Inductive request : Type :=
| PlaceOrder (order_id : Py.id_val) (order : Order).

(** [Trader.place_orders]: the six orders go out, the trader is [HOT]. *)
Definition place_orders (w : TwsWrapper) : TwsWrapper * list request :=
  (with_status w HOT, map (fun i => PlaceOrder (orderId i) i) (get_orders w)).

(** The identifier matches one of the four exit orders of the bracket. *)
Definition is_exit (order_id : Py.id_val) (w : TwsWrapper) : bool :=
  Py.eqb order_id (orderId (long_trail w))
  || Py.eqb order_id (orderId (long_tgt w))
  || Py.eqb order_id (orderId (short_trail w))
  || Py.eqb order_id (orderId (short_tgt w)).

(** The identifier matches one of the two entry orders. *)
Definition is_entry (order_id : Py.id_val) (w : TwsWrapper) : bool :=
  Py.eqb order_id (orderId (long_entry w))
  || Py.eqb order_id (orderId (short_entry w)).

(** The trader once the API has announced order id 7 and a last price of
    50 has come in, with its orders prepared and placed. *)
Definition sample_ready : TwsWrapper :=
  tickPrice LAST (Py.of_Z 50) (nextValidId 7 init).

Definition sample_hot : TwsWrapper :=
  fst (place_orders (prepare_orders sample_ready)).

(** The trader whose orders were placed before any price came in. *)
Definition sample_unprepared : TwsWrapper :=
  fst (place_orders (prepare_orders (nextValidId 7 init))).

(** *** Adjusting the bracket *)

(** [Trader.update_order_prices]: the bracket is moved to the last price
    and every order is sent again. *)
Definition update_order_prices (w : TwsWrapper) : TwsWrapper * list request :=
  let w1 := wrapper_price_update (last_price w) w in
  (w1, map (fun i => PlaceOrder (orderId i) i) (get_orders w1)).

(** The test of [update_loop]:
    [self.status == HOT and abs(self.set_price - self.last_price) > self.delta_adjust]. *)
Definition needs_adjustment (w : TwsWrapper) : bool :=
  match status w with
  | HOT => SFltb (delta_adjust w) (Py.fabs (Py.fsub (set_price w) (last_price w)))
  | _ => false
  end.

(** One turn of [update_loop], after its sleep. *)
Definition update_step (w : TwsWrapper) : TwsWrapper * list request :=
  if needs_adjustment w
  then place_orders (wrapper_price_update (last_price w) w)
  else (w, []).

(** The first three statements of [Trader.trade]. *)
Definition trade_setup (w : TwsWrapper) : TwsWrapper * list request :=
  let w1 := prepare_orders w in
  place_orders (wrapper_price_update (last_price w1) w1).

(** The wrapper after a series of price ticks, given as tick type and
    price. *)
Definition after_ticks (ticks : list (Z * Py.float)) (w : TwsWrapper)
    : TwsWrapper :=
  fold_left (fun w '(tick_type, price) => tickPrice tick_type price w) ticks w.

(** The identifier a [placeOrder] call went out under. *)
Definition placed_id (r : request) : Py.id_val :=
  match r with PlaceOrder order_id _ => order_id end.

(** The prices of an order. *)
Definition prices (o : Order) : Py.float * Py.float * Py.float * Py.float :=
  (lmtPrice o, auxPrice o, trailStopPrice o, lmtPriceOffset o).

(** What [prepare_orders] may set in an order: identifiers and group. *)
Definition labels (o : Order) : Py.id_val * Py.id_val * string :=
  (orderId o, parentId o, ocaGroup o).

End News.

(** ** tws/portfolio.py *)

Module Portfolio.

(** The fields of [ibapi]'s [Contract] that identify a position. *)
Record Contract : Type := mkContract {
  symbol : string;
  conId : Z
}.

(** The greeks [tickOptionComputation] stores. *)
Record greeks : Type := mkGreeks {
  delta : Py.opt_float;
  gamma : Py.opt_float;
  theta : Py.opt_float;
  vega : Py.opt_float
}.

(** An element of [self.portfolio]: [updatePortfolio] writes ["cont"]
    only; ["id"] and the greeks are keys that may be missing. *)
Record entry : Type := mkEntry {
  cont : Contract;
  id : option Z;
  Greeks : option greeks
}.

(** The state of a [Portfolio] object. *)
Record portfolio_tool : Type := mkPortfolio {
  haveData : bool;
  acct : string;
  portfolio : list entry;
  value : Py.float
}.

(** [Portfolio.__init__]. *)
Definition init (acct : string) : portfolio_tool :=
  {| haveData := false; acct := acct; portfolio := []; value := Py.of_Z 0 |}.

Definition set_haveData (p : portfolio_tool) (b : bool) : portfolio_tool :=
  {| haveData := b; acct := acct p; portfolio := portfolio p; value := value p |}.

Definition set_portfolio (p : portfolio_tool) (l : list entry) : portfolio_tool :=
  {| haveData := haveData p; acct := acct p; portfolio := l; value := value p |}.

(** [Portfolio.updatePortfolio]: the contract is appended, whether or not
    it is there already. *)
Definition updatePortfolio (c : Contract) (p : portfolio_tool) : portfolio_tool :=
  set_portfolio p (portfolio p ++ [{| cont := c; id := None; Greeks := None |}]).

(** [Portfolio.accountSummaryEnd] and [Portfolio.accountDownloadEnd]. *)
Definition accountSummaryEnd (p : portfolio_tool) : portfolio_tool :=
  set_haveData p true.

Definition accountDownloadEnd (p : portfolio_tool) : portfolio_tool :=
  set_haveData p true.

(** The account callbacks; [updateAccountValue] and [accountSummary] only
    write to the log. *)
Inductive callback : Type :=
| UpdateAccountValue (key val currency : string)
| UpdatePortfolio (c : Contract)
| AccountSummary (tag value currency : string)
| AccountSummaryEnd
| AccountDownloadEnd.

Definition handle (cb : callback) (p : portfolio_tool) : portfolio_tool :=
  match cb with
  | UpdateAccountValue _ _ _ => p
  | UpdatePortfolio c => updatePortfolio c p
  | AccountSummary _ _ _ => p
  | AccountSummaryEnd => accountSummaryEnd p
  | AccountDownloadEnd => accountDownloadEnd p
  end.

(** The loop of [Portfolio.tickOptionComputation] over the entries.  The
    test [i["id"] == int(req_id)] raises [KeyError] on an entry without
    ["id"]; the entries before it have been updated by then. *)
Fixpoint tick_entries (req_id : Z) (g : greeks) (l : list entry)
    : list entry * option Py.exn :=
  match l with
  | [] => ([], None)
  | i :: l' =>
      match id i with
      | None => (i :: l', Some (Py.KeyError "id"))
      | Some n =>
          let i' := if n =? req_id
                    then {| cont := cont i; id := id i; Greeks := Some g |}
                    else i in
          let '(rest, e) := tick_entries req_id g l' in
          (i' :: rest, e)
      end
  end.

(** [Portfolio.tickOptionComputation]. *)
Definition tickOptionComputation (req_id : Z) (g : greeks) (p : portfolio_tool)
    : portfolio_tool * option Py.exn :=
  let '(l, e) := tick_entries req_id g (portfolio p) in
  (set_portfolio p l, e).

(** What the tool sends. *)
Inductive request : Type :=
| Connect (host : string) (port client_id : Z)
| ReqAccountSummary (req_id : Z) (group tags : string)
| ReqAccountUpdates (subscribe : bool) (acct_code : string)
| Disconnect.

(** [Portfolio.get_account_summary], for the tags [all_tags] of the
    vendor: connect, ask, wait for [haveData], disconnect. *)
Definition get_account_summary (all_tags : string) (nextId : Z) (fuel : nat)
    (sleep : nat -> list callback) (p : portfolio_tool)
    : option (portfolio_tool * list request) :=
  match Wait.wait_while handle (fun p => negb (haveData p)) fuel sleep
          (set_haveData p false) with
  | None => None
  | Some (p', _) =>
      Some (p', [Connect "localhost" 4001 32;
                 ReqAccountSummary nextId "All" all_tags;
                 Disconnect])
  end.

(** [Portfolio.get_account_details]. *)
Definition get_account_details (fuel : nat) (sleep : nat -> list callback)
    (p : portfolio_tool) : option (portfolio_tool * list request) :=
  match Wait.wait_while handle (fun p => negb (haveData p)) fuel sleep
          (set_haveData p false) with
  | None => None
  | Some (p', _) =>
      Some (p', [Connect "localhost" 4001 32;
                 ReqAccountUpdates true (acct p);
                 ReqAccountUpdates false (acct p);
                 Disconnect])
  end.

(** The entry [updatePortfolio] appends for a contract. *)
Definition new_entry (c : Contract) : entry :=
  {| cont := c; id := None; Greeks := None |}.

(** The contracts of the [updatePortfolio] callbacks of a list. *)
Definition updates (cbs : list callback) : list Contract :=
  flat_map (fun cb => match cb with UpdatePortfolio c => [c] | _ => [] end) cbs.

(** A callback list ends a wait. *)
Definition ends (cbs : list callback) : bool :=
  existsb (fun cb => match cb with
                     | AccountSummaryEnd | AccountDownloadEnd => true
                     | _ => false
                     end) cbs.

(** All the callbacks of the first [n] sleeps of a run, in order. *)
Fixpoint arrived (sleep : nat -> list callback) (n : nat) : list callback :=
  match n with
  | O => []
  | S n' => arrived sleep n' ++ sleep n'
  end.

(** The n-th sleep of a run is the first that brings an end callback. *)
Definition first_end (sleep : nat -> list callback) (n : nat) : Prop :=
  (0 < n)%nat
  /\ ends (sleep (n - 1)%nat) = true
  /\ (forall j, (j < n - 1)%nat -> ends (sleep j) = false).

(** The tool after n sleeps that brought an end callback: the flag is
    set, and every contract reported has been appended. *)
Definition after_wait (sleep : nat -> list callback) (p : portfolio_tool)
    (n : nat) : portfolio_tool :=
  {| haveData := true;
     acct := acct p;
     portfolio := portfolio p ++ map new_entry (updates (arrived sleep n));
     value := value p |}.

Definition sample_run : nat -> list callback :=
  fun k => match k with
           | O => [UpdatePortfolio {| symbol := "CL"; conId := 77 |};
                   UpdateAccountValue "NetLiquidation" "1000" "USD"]
           | 1%nat => [UpdatePortfolio {| symbol := "CL"; conId := 77 |};
                       AccountDownloadEnd]
           | _ => []
           end.

End Portfolio.

(** ** gms/data.py *)

Module Gms.

(** A record of a GAMS variable, as [read_gdx_var] reads it: the keys and
    the level. *)
Record var_record : Type := mkVarRecord {
  keys : list string;
  level : Py.float
}.

(** [read_gdx_var], on the records [db[var]] yields:
    [dict((tuple(rec.keys), rec.level) for rec in db[var])]. *)
Definition read_gdx_var (records : list var_record) : gmap (list string) Py.float :=
  fold_left (fun d rec => <[keys rec := level rec]> d) records ∅.

Definition sample_records : list var_record :=
  [ {| keys := ["x"; "1"]%string; level := Py.of_Z 3 |};
    {| keys := ["x"; "2"]%string; level := Py.of_Z 4 |} ].

End Gms.

(** * Properties *)

Local Open Scope nat_scope.

(** ** Schedules *)

Section ScheduleFacts.

Context {State Callback : Type}.
Variable handle : Callback -> State -> State.

Lemma state_at_shift (sleep : nat -> list Callback) (s : State) (k : nat) :
  Sched.state_at handle (Sched.shift sleep) (Sched.deliver handle (sleep 0) s) k
  = Sched.state_at handle sleep s (S k).
Proof.
  induction k as [|k IH]; [reflexivity|].
  simpl. rewrite IH. reflexivity.
Qed.

(** A property of the state that every callback of the schedule keeps is
    kept by every sleep. *)
Lemma deliver_preserves (P : State -> Prop) (ok : Callback -> Prop) :
  (forall cb s, ok cb -> P s -> P (handle cb s)) ->
  forall cbs s, Forall ok cbs -> P s -> P (Sched.deliver handle cbs s).
Proof.
  intros Hstep cbs. unfold Sched.deliver.
  induction cbs as [|cb cbs IH]; intros s Hok Hs; [exact Hs|].
  inversion Hok; subst. simpl. apply IH; auto.
Qed.

End ScheduleFacts.

(** ** The contract scraper *)

Lemma IdScraper_poll_acc (data : list IdScraper.request) (b : bool) :
  fold_left (fun have_all m => if (IdScraper.conid m =? 0)%Z then false else have_all)
            data b
  = b && forallb IdScraper.complete data.
Proof.
  revert b. induction data as [|m data IH]; intros b; simpl.
  - now rewrite andb_true_r.
  - rewrite IH. unfold IdScraper.complete.
    destruct (IdScraper.conid m =? 0)%Z; simpl; [|reflexivity].
    now rewrite andb_false_r.
Qed.

Lemma IdScraper_poll_forallb (data : list IdScraper.request) :
  IdScraper.poll data = forallb IdScraper.complete data.
Proof. unfold IdScraper.poll. now rewrite IdScraper_poll_acc. Qed.

(** The loop returns after its n-th poll exactly when that poll is the
    first one to find every record complete. *)
Lemma wait_for_finish_first_complete (fuel : nat)
    (sleep : nat -> list IdScraper.callback) (data d : list IdScraper.request)
    (n : nat) :
  IdScraper.wait_for_finish fuel sleep data = Some (d, n) <->
  (0 < n <= fuel
   /\ forallb IdScraper.complete
        (Sched.state_at IdScraper.handle sleep data (n - 1)) = true
   /\ (forall j, j < n - 1 ->
        forallb IdScraper.complete
          (Sched.state_at IdScraper.handle sleep data j) = false)
   /\ d = Sched.state_at IdScraper.handle sleep data n).
Proof.
  revert sleep data d n.
  induction fuel as [|fuel IH]; intros sleep data d n; simpl.
  - split; [discriminate | lia].
  - rewrite IdScraper_poll_forallb.
    destruct (forallb IdScraper.complete data) eqn:Hall.
    + split.
      * intros [= <- <-]. simpl. repeat split; try lia; auto.
      * intros (Hn & Hc & Hlt & ->).
        destruct (decide (n = 1)) as [->|Hne]; [reflexivity|].
        specialize (Hlt 0 ltac:(lia)). simpl in Hlt. congruence.
    + split.
      * destruct (IdScraper.wait_for_finish fuel _ _) as [[d' n']|] eqn:Hrec;
          [|discriminate].
        intros [= <- <-].
        apply IH in Hrec as (Hn & Hc & Hlt & ->).
        rewrite state_at_shift in *.
        replace (S n' - 1) with (S (n' - 1)) by lia.
        repeat split; try lia; auto.
        intros [|j] Hj; [exact Hall|].
        rewrite <- state_at_shift. apply Hlt. lia.
      * intros (Hn & Hc & Hlt & ->).
        destruct n as [|[|n']]; [lia | simpl in Hc; congruence |].
        assert (Hrec : IdScraper.wait_for_finish fuel (Sched.shift sleep)
                         (Sched.deliver IdScraper.handle (sleep 0) data)
                       = Some (Sched.state_at IdScraper.handle sleep data (S (S n')),
                               S n')).
        { apply IH. rewrite !state_at_shift.
          replace (S n' - 1) with n' by lia.
          replace (S (S n') - 1) with (S n') in Hc, Hlt by lia.
          repeat split; try lia; auto.
          intros j Hj. rewrite state_at_shift. apply Hlt. lia. }
        rewrite Hrec. reflexivity.
Qed.

Lemma forallb_complete_true (data : list IdScraper.request) :
  forallb IdScraper.complete data = true <->
  (forall m, In m data -> IdScraper.conid m <> 0%Z).
Proof.
  rewrite forallb_forall. unfold IdScraper.complete.
  split; intros H m Hm; specialize (H m Hm).
  - intros Heq. rewrite Heq in H. discriminate.
  - apply negb_true_iff. now apply Z.eqb_neq.
Qed.

Lemma forallb_complete_false (data : list IdScraper.request) :
  forallb IdScraper.complete data = false <->
  (exists m, In m data /\ IdScraper.conid m = 0%Z).
Proof.
  split.
  - induction data as [|m data IH]; simpl; [discriminate|].
    intros H. apply andb_false_iff in H as [H|H].
    + exists m. split; [now left|].
      unfold IdScraper.complete in H. apply negb_false_iff in H.
      now apply Z.eqb_eq.
    + destruct (IH H) as (m' & Hin & Hz). exists m'. split; [now right|exact Hz].
  - intros (m & Hin & Hz).
    destruct (forallb IdScraper.complete data) eqn:Hall; [|reflexivity].
    exfalso. eapply forallb_complete_true in Hall; eauto.
Qed.

Lemma IdScraper_handle_keeps_complete (cb : IdScraper.callback)
    (data : list IdScraper.request) :
  IdScraper.carries_conid cb ->
  (forall m, In m data -> IdScraper.conid m <> 0%Z) ->
  (forall m, In m (IdScraper.handle cb data) -> IdScraper.conid m <> 0%Z).
Proof.
  destruct cb as [req_id cd]. simpl. intros Hcb Hdata m Hin.
  unfold IdScraper.contractDetails in Hin.
  apply in_map_iff in Hin as (m0 & <- & Hin0).
  destruct (IdScraper.id m0 =? req_id)%Z; simpl; auto.
Qed.

(** C3.  [IdScraper.wait_for_finish] returns after a poll exactly when
    that poll is the first to find the sentinel [conid] of every record
    nonzero: every record read by the last poll has [conid <> 0], every
    earlier poll read some record with [conid = 0], and the records handed
    back are complete as long as the answers that arrive during the last
    sleep carry a contract id. *)
Theorem wait_for_finish_complete_on_return (fuel : nat)
    (sleep : nat -> list IdScraper.callback)
    (data d : list IdScraper.request) (n : nat) :
  (IdScraper.wait_for_finish fuel sleep data = Some (d, n) <->
   0 < n <= fuel
   /\ (forall m, In m (Sched.state_at IdScraper.handle sleep data (n - 1)) ->
        IdScraper.conid m <> 0%Z)
   /\ (forall j, j < n - 1 ->
        exists m, In m (Sched.state_at IdScraper.handle sleep data j)
                  /\ IdScraper.conid m = 0%Z)
   /\ d = Sched.state_at IdScraper.handle sleep data n)
  /\ (IdScraper.wait_for_finish fuel sleep data = Some (d, n) ->
      Forall IdScraper.carries_conid (sleep (n - 1)) ->
      forall m, In m d -> IdScraper.conid m <> 0%Z).
Proof.
  split.
  - rewrite wait_for_finish_first_complete, forallb_complete_true.
    setoid_rewrite forallb_complete_false. reflexivity.
  - intros Hret Hcbs.
    apply wait_for_finish_first_complete in Hret as (Hn & Hc & _ & ->).
    replace n with (S (n - 1)) by lia. simpl.
    pose proof (proj1 (forallb_complete_true _) Hc) as Hc'.
    revert Hcbs Hc'.
    apply (deliver_preserves IdScraper.handle
             (fun data => forall m, In m data -> IdScraper.conid m <> 0%Z)).
    intros cb s. apply IdScraper_handle_keeps_complete.
Qed.

Lemma wait_for_finish_complete_on_return_witness :
  IdScraper.wait_for_finish 3 IdScraper.sample_run [IdScraper.sample_request]
  = Some (Sched.state_at IdScraper.handle IdScraper.sample_run
            [IdScraper.sample_request] 2, 2)
  /\ Forall IdScraper.carries_conid (IdScraper.sample_run (2 - 1))
  /\ (forall m,
        In m (Sched.state_at IdScraper.handle IdScraper.sample_run
                [IdScraper.sample_request] 2) ->
        IdScraper.conid m <> 0%Z).
Proof.
  split; [reflexivity|]. split; [constructor|].
  apply (proj2 (wait_for_finish_complete_on_return 3 IdScraper.sample_run
                  [IdScraper.sample_request] _ 2)).
  - reflexivity.
  - constructor.
Defined.

(** C3, as stated, fails on the records handed back: the loop sleeps once
    more after the poll that found every record complete, and an answer
    without a contract id that arrives during that sleep puts 0 over the
    contract id the poll has read.  The function returns all the same. *)
Lemma wait_for_finish_returns_unfilled :
  IdScraper.wait_for_finish 1 IdScraper.blank_run [IdScraper.filled_request]
  = Some ([IdScraper.blanked_request], 1)
  /\ IdScraper.conid IdScraper.filled_request = 42%Z
  /\ IdScraper.conid IdScraper.blanked_request = 0%Z
  /\ ~ (forall fuel sleep data d n,
          IdScraper.wait_for_finish fuel sleep data = Some (d, n) ->
          forall m, In m d -> IdScraper.conid m <> 0%Z).
Proof.
  split; [reflexivity|]. split; [reflexivity|]. split; [reflexivity|].
  intros H.
  apply (H 1 IdScraper.blank_run [IdScraper.filled_request]
           [IdScraper.blanked_request] 1 eq_refl IdScraper.blanked_request).
  - now left.
  - reflexivity.
Qed.

(** ** The snapshot scraper: the polling loop *)

Lemma feqb_nan_r (x : Py.float) : Py.feqb x Py.nan = false.
Proof. destruct x; reflexivity. Qed.

Lemma eq_float_nan (v : Py.opt_float) : Py.eq_float v Py.nan = false.
Proof. destruct v; simpl; [reflexivity | apply feqb_nan_r]. Qed.

Lemma missing_quotes (i : Snapshot.instrument) :
  Snapshot.missing i
  = Py.isnan (Snapshot.Ask i) && Py.isnan (Snapshot.Bid i).
Proof. unfold Snapshot.missing. rewrite eq_float_nan. apply orb_false_r. Qed.

Lemma scan_acc (chain : list Snapshot.instrument) (found : bool) (c : nat) :
  fold_left (fun '(found, c1) i =>
               if Snapshot.missing i then (false, S c1) else (found, c1))
            chain (found, c)
  = (found && Nat.eqb (Snapshot.unquoted chain) 0,
     c + Snapshot.unquoted chain).
Proof.
  revert found c. unfold Snapshot.unquoted.
  induction chain as [|i chain IH]; intros found c; simpl.
  - rewrite andb_true_r. f_equal. lia.
  - rewrite <- missing_quotes.
    destruct (Snapshot.missing i); simpl; rewrite IH.
    + simpl. rewrite andb_false_r. f_equal. lia.
    + reflexivity.
Qed.

Lemma scan_unquoted (chain : list Snapshot.instrument) :
  Snapshot.scan chain
  = (Nat.eqb (Snapshot.unquoted chain) 0, Snapshot.unquoted chain).
Proof. unfold Snapshot.scan. now rewrite scan_acc. Qed.

Lemma missing_at_unquoted (sleep : nat -> list Snapshot.callback)
    (s : Snapshot.snapshot) (k : nat) :
  Snapshot.missing_at sleep s k
  = Snapshot.unquoted
      (Snapshot.chain (Sched.state_at Snapshot.handle sleep s k)).
Proof. unfold Snapshot.missing_at. now rewrite scan_unquoted. Qed.

Lemma missing_at_shift (sleep : nat -> list Snapshot.callback)
    (s : Snapshot.snapshot) (k : nat) :
  Snapshot.missing_at (Sched.shift sleep)
    (Sched.deliver Snapshot.handle (sleep 0) s) k
  = Snapshot.missing_at sleep s (S k).
Proof. unfold Snapshot.missing_at. now rewrite state_at_shift. Qed.

Lemma leaves_shift (c : nat) (sleep : nat -> list Snapshot.callback)
    (s : Snapshot.snapshot) (k : nat) :
  Snapshot.leaves (Snapshot.missing_at sleep s 0) (Sched.shift sleep)
         (Sched.deliver Snapshot.handle (sleep 0) s) k
  <-> Snapshot.leaves c sleep s (S k).
Proof.
  unfold Snapshot.leaves. rewrite missing_at_shift.
  destruct k as [|k]; simpl; [reflexivity|].
  rewrite missing_at_shift. reflexivity.
Qed.

Lemma wait_loop_first_leave (fuel : nat)
    (sleep : nat -> list Snapshot.callback) (s s' : Snapshot.snapshot)
    (c n : nat) :
  Snapshot.wait_loop fuel sleep s c = Some (s', n) <->
  (0 < n <= fuel
   /\ Snapshot.leaves c sleep s (n - 1)
   /\ (forall j, j < n - 1 -> ~ Snapshot.leaves c sleep s j)
   /\ s' = Sched.state_at Snapshot.handle sleep s n).
Proof.
  revert sleep s s' c n.
  induction fuel as [|fuel IH]; intros sleep s s' c n; simpl.
  - split; [discriminate | lia].
  - rewrite scan_unquoted.
    assert (H0 : Snapshot.missing_at sleep s 0 = Snapshot.unquoted (Snapshot.chain s))
      by apply missing_at_unquoted.
    rewrite <- H0.
    assert (Hnow : (Nat.eqb c (Snapshot.missing_at sleep s 0)
                    || Nat.eqb (Snapshot.missing_at sleep s 0) 0) = true
                   <-> Snapshot.leaves c sleep s 0).
    { unfold Snapshot.leaves. simpl. rewrite orb_true_iff, !Nat.eqb_eq. intuition lia. }
    destruct (Nat.eqb c (Snapshot.missing_at sleep s 0)
              || Nat.eqb (Snapshot.missing_at sleep s 0) 0) eqn:Hb.
    + assert (Hres : (if Nat.eqb c (Snapshot.missing_at sleep s 0)
                      then Some (Sched.deliver Snapshot.handle (sleep 0) s, 1)
                      else if Nat.eqb (Snapshot.missing_at sleep s 0) 0
                           then Some (Sched.deliver Snapshot.handle (sleep 0) s, 1)
                           else match Snapshot.wait_loop fuel (Sched.shift sleep)
                                        (Sched.deliver Snapshot.handle (sleep 0) s)
                                        (Snapshot.missing_at sleep s 0) with
                                | Some (r, n0) => Some (r, S n0)
                                | None => None
                                end)
                     = Some (Sched.deliver Snapshot.handle (sleep 0) s, 1)).
      { destruct (Nat.eqb c _); [reflexivity|].
        simpl in Hb. rewrite Hb. reflexivity. }
      rewrite Hres. clear Hres.
      split.
      * intros [= <- <-]. simpl. repeat split; try lia.
        now apply Hnow.
      * intros (Hn & _ & Hlt & ->).
        destruct (decide (n = 1)) as [->|Hne]; [reflexivity|].
        exfalso. apply (Hlt 0); [lia | now apply Hnow].
    + apply orb_false_iff in Hb as [Hb1 Hb2]. rewrite Hb1, Hb2.
      assert (Hnot : ~ Snapshot.leaves c sleep s 0).
      { intros Hl. apply Hnow in Hl. discriminate. }
      split.
      * destruct (Snapshot.wait_loop fuel _ _ _) as [[r n']|] eqn:Hrec;
          [|discriminate].
        intros [= <- <-].
        apply IH in Hrec as (Hn & Hl & Hlt & ->).
        rewrite state_at_shift.
        replace (S n' - 1) with (S (n' - 1)) by lia.
        repeat split; try lia.
        -- now apply (leaves_shift c).
        -- intros [|j] Hj; [exact Hnot|].
           rewrite <- leaves_shift. apply Hlt. lia.
      * intros (Hn & Hl & Hlt & ->).
        destruct n as [|[|n']]; [lia | simpl in Hl; contradiction |].
        assert (Hrec : Snapshot.wait_loop fuel (Sched.shift sleep)
                         (Sched.deliver Snapshot.handle (sleep 0) s)
                         (Snapshot.missing_at sleep s 0)
                       = Some (Sched.state_at Snapshot.handle sleep s (S (S n')),
                               S n')).
        { apply IH. rewrite state_at_shift.
          replace (S n' - 1) with n' by lia.
          replace (S (S n') - 1) with (S n') in Hl, Hlt by lia.
          repeat split; try lia.
          - now apply (leaves_shift c).
          - intros j Hj. rewrite (leaves_shift c). apply Hlt. lia. }
        rewrite Hrec. reflexivity.
Qed.

Lemma leaves_settled (sleep : nat -> list Snapshot.callback)
    (s : Snapshot.snapshot) (k : nat) :
  Snapshot.leaves 0 sleep s k <-> Snapshot.settled sleep s k.
Proof.
  unfold Snapshot.leaves, Snapshot.settled.
  destruct k as [|k]; simpl.
  - intuition lia.
  - rewrite Nat.sub_0_r. intuition lia.
Qed.

(** C4.  [Snapshot.wait_to_finish] returns after a poll exactly when that
    poll is the first at which either no record is counted as missing or
    the number of missing records equals that of the poll before. *)
Theorem wait_to_finish_returns_when_settled (fuel : nat)
    (sleep : nat -> list Snapshot.callback) (s s' : Snapshot.snapshot)
    (n : nat) :
  Snapshot.wait_to_finish fuel sleep s = Some (s', n) <->
  (0 < n <= fuel
   /\ Snapshot.settled sleep s (n - 1)
   /\ (forall j, j < n - 1 -> ~ Snapshot.settled sleep s j)
   /\ s' = Sched.state_at Snapshot.handle sleep s n).
Proof.
  unfold Snapshot.wait_to_finish.
  rewrite wait_loop_first_leave, leaves_settled.
  setoid_rewrite leaves_settled. reflexivity.
Qed.

(** C9.  The test of [wait_to_finish] counts a record as missing exactly
    when both its ask and its bid are NaN; the comparison of ["Delta"]
    with NaN never holds, so that no value of ["Delta"] changes the test,
    and the count of a poll is the number of records with neither quote. *)
Theorem missing_iff_both_quotes_nan :
  (forall i : Snapshot.instrument,
     Snapshot.missing i = true <->
     Py.isnan (Snapshot.Bid i) = true /\ Py.isnan (Snapshot.Ask i) = true)
  /\ (forall (i : Snapshot.instrument) (delta gamma theta vega : Py.opt_float)
             (vol : Snapshot.vol_text),
        Snapshot.missing (Snapshot.set_greeks i delta gamma theta vega vol)
        = Snapshot.missing i)
  /\ (forall chain : list Snapshot.instrument,
        Snapshot.scan chain
        = (Nat.eqb (Snapshot.unquoted chain) 0, Snapshot.unquoted chain)).
Proof.
  split; [|split].
  - intros i. rewrite missing_quotes, andb_true_iff. tauto.
  - intros i delta gamma theta vega vol. now rewrite !missing_quotes.
  - apply scan_unquoted.
Qed.

(** ** Termination of the polling loops *)

Lemma unquoted_map_le (f : Snapshot.instrument -> Snapshot.instrument)
    (chain : list Snapshot.instrument) :
  (forall i, Snapshot.missing (f i) = true -> Snapshot.missing i = true) ->
  Snapshot.unquoted (map f chain) <= Snapshot.unquoted chain.
Proof.
  intros Hf. unfold Snapshot.unquoted.
  induction chain as [|i chain IH]; simpl; [lia|].
  rewrite <- !missing_quotes.
  destruct (Snapshot.missing (f i)) eqn:Hfi.
  - rewrite (Hf i Hfi). simpl. lia.
  - destruct (Snapshot.missing i); simpl; lia.
Qed.

Lemma handle_unquoted_le (cb : Snapshot.callback) (s : Snapshot.snapshot) :
  Snapshot.fills cb ->
  Snapshot.unquoted (Snapshot.chain (Snapshot.handle cb s))
  <= Snapshot.unquoted (Snapshot.chain s).
Proof.
  destruct cb as [r t p | r cd | r t o | c pos avg | ]; simpl; intros Hcb.
  - apply unquoted_map_le. intros i.
    rewrite !missing_quotes.
    destruct (Snapshot.id i =? r)%Z; [|tauto].
    destruct (t =? 1)%Z; [simpl; rewrite Hcb, andb_false_r; discriminate|].
    destruct (t =? 2)%Z; [simpl; rewrite Hcb; discriminate | tauto].
  - apply unquoted_map_le. intros i. rewrite !missing_quotes.
    destruct (r =? Snapshot.id i)%Z; simpl; tauto.
  - apply unquoted_map_le. intros i. rewrite !missing_quotes.
    destruct (Snapshot.id i =? r)%Z; [|tauto].
    destruct (Snapshot.und_price o); destruct (t =? 13)%Z; simpl; tauto.
  - unfold Snapshot.updatePortfolio.
    destruct (String.eqb _ _); simpl; lia.
  - lia.
Qed.

Lemma deliver_unquoted_le (cbs : list Snapshot.callback)
    (s : Snapshot.snapshot) (c : nat) :
  Forall Snapshot.fills cbs ->
  Snapshot.unquoted (Snapshot.chain s) <= c ->
  Snapshot.unquoted (Snapshot.chain (Sched.deliver Snapshot.handle cbs s)) <= c.
Proof.
  apply (deliver_preserves Snapshot.handle
           (fun s => Snapshot.unquoted (Snapshot.chain s) <= c)).
  intros cb s0 Hcb Hs0. pose proof (handle_unquoted_le cb s0 Hcb). lia.
Qed.

Lemma wait_loop_terminates (fuel : nat)
    (sleep : nat -> list Snapshot.callback) (s : Snapshot.snapshot) (c : nat) :
  (forall k, Forall Snapshot.fills (sleep k)) ->
  Snapshot.unquoted (Snapshot.chain s) <= c ->
  c < fuel ->
  exists s' n, Snapshot.wait_loop fuel sleep s c = Some (s', n) /\ n <= S c.
Proof.
  revert sleep s c.
  induction fuel as [|fuel IH]; intros sleep s c Hfill Hle Hlt; [lia|].
  simpl. rewrite scan_unquoted.
  destruct (Nat.eqb_spec c (Snapshot.unquoted (Snapshot.chain s))) as [Heq|Hne].
  - eexists _, 1. split; [reflexivity | lia].
  - destruct (Nat.eqb_spec (Snapshot.unquoted (Snapshot.chain s)) 0) as [Hz|Hnz].
    + eexists _, 1. split; [reflexivity | lia].
    + destruct (IH (Sched.shift sleep)
                   (Sched.deliver Snapshot.handle (sleep 0) s)
                   (Snapshot.unquoted (Snapshot.chain s)))
        as (s' & n & Hrec & Hn).
      * intros k. apply Hfill.
      * apply deliver_unquoted_le; [apply Hfill | lia].
      * lia.
      * rewrite Hrec. eexists _, (S n). split; [reflexivity | lia].
Qed.

Lemma unquoted_le_length (chain : list Snapshot.instrument) :
  Snapshot.unquoted chain <= length chain.
Proof. unfold Snapshot.unquoted. apply filter_length_le. Qed.

Lemma wait_to_finish_terminates (sleep : nat -> list Snapshot.callback)
    (s : Snapshot.snapshot) :
  (forall k, Forall Snapshot.fills (sleep k)) ->
  exists s' n,
    Snapshot.wait_to_finish (length (Snapshot.chain s) + 2) sleep s
    = Some (s', n)
    /\ n <= length (Snapshot.chain s) + 2.
Proof.
  intros Hfill. unfold Snapshot.wait_to_finish.
  pose proof (unquoted_le_length (Snapshot.chain s)) as Hlen.
  replace (length (Snapshot.chain s) + 2)
    with (S (S (length (Snapshot.chain s)))) by lia.
  remember (S (length (Snapshot.chain s))) as fuel eqn:Hfuel.
  cbn [Snapshot.wait_loop]. rewrite scan_unquoted.
  destruct (Nat.eqb_spec 0 (Snapshot.unquoted (Snapshot.chain s))) as [Heq|Hne].
  - eexists _, 1. split; [reflexivity | lia].
  - destruct (Nat.eqb_spec (Snapshot.unquoted (Snapshot.chain s)) 0) as [Hz|Hnz];
      [lia|].
    destruct (wait_loop_terminates fuel
                (Sched.shift sleep)
                (Sched.deliver Snapshot.handle (sleep 0) s)
                (Snapshot.unquoted (Snapshot.chain s)))
      as (s' & n & Hrec & Hn).
    + intros k. apply Hfill.
    + apply deliver_unquoted_le; [apply Hfill | lia].
    + lia.
    + rewrite Hrec. eexists _, (S n). split; [reflexivity | lia].
Qed.

Lemma wait_for_finish_step (fuel : nat)
    (sleep : nat -> list IdScraper.callback) (data : list IdScraper.request) :
  IdScraper.wait_for_finish (S fuel) sleep data
  = if IdScraper.poll data
    then Some (Sched.deliver IdScraper.handle (sleep 0) data, 1)
    else match IdScraper.wait_for_finish fuel (Sched.shift sleep)
                 (Sched.deliver IdScraper.handle (sleep 0) data) with
         | Some (d, n) => Some (d, S n)
         | None => None
         end.
Proof. reflexivity. Qed.

Lemma wait_for_finish_enough_fuel (k : nat)
    (sleep : nat -> list IdScraper.callback) (data : list IdScraper.request) :
  forallb IdScraper.complete (Sched.state_at IdScraper.handle sleep data k) = true ->
  exists r, IdScraper.wait_for_finish (S k) sleep data = Some r.
Proof.
  revert sleep data. induction k as [|k IH]; intros sleep data Hc.
  - simpl in *. rewrite IdScraper_poll_forallb, Hc. eauto.
  - rewrite wait_for_finish_step, IdScraper_poll_forallb.
    destruct (forallb IdScraper.complete data); [eauto|].
    rewrite <- state_at_shift in Hc.
    destruct (IH _ _ Hc) as [[d n] Hr]. rewrite Hr. eauto.
Qed.

Lemma wait_for_finish_silence (fuel : nat) :
  IdScraper.wait_for_finish fuel IdScraper.silence [IdScraper.sample_request]
  = None.
Proof.
  induction fuel as [|fuel IH]; [reflexivity|].
  rewrite wait_for_finish_step.
  change (Sched.shift IdScraper.silence) with IdScraper.silence.
  change (Sched.deliver IdScraper.handle (IdScraper.silence 0)
            [IdScraper.sample_request]) with [IdScraper.sample_request].
  rewrite IH. reflexivity.
Qed.

(** C1, as the code has it.  [Snapshot.wait_to_finish] leaves its loop by
    the stagnation test: on every run whose price ticks carry a price it
    returns within [len(chain) + 2] polls, whether or not every record
    gets filled.  [IdScraper.wait_for_finish] has no such test: it returns
    on a run exactly when some poll of that run finds every record
    complete. *)
Theorem stagnation_exit :
  (forall (sleep : nat -> list Snapshot.callback) (s : Snapshot.snapshot),
     (forall k, Forall Snapshot.fills (sleep k)) ->
     exists s' n,
       Snapshot.wait_to_finish (length (Snapshot.chain s) + 2) sleep s
       = Some (s', n)
       /\ n <= length (Snapshot.chain s) + 2)
  /\ (forall (sleep : nat -> list IdScraper.callback)
             (data : list IdScraper.request),
        (exists fuel r, IdScraper.wait_for_finish fuel sleep data = Some r)
        <-> (exists k, forallb IdScraper.complete
                         (Sched.state_at IdScraper.handle sleep data k) = true)).
Proof.
  split.
  - apply wait_to_finish_terminates.
  - intros sleep data. split.
    + intros (fuel & [d n] & Hr).
      apply wait_for_finish_first_complete in Hr as (_ & Hc & _).
      eauto.
    + intros (k & Hc). exists (S k).
      now apply wait_for_finish_enough_fuel.
Qed.

Lemma stagnation_exit_witness :
  (forall k, Forall Snapshot.fills (Snapshot.sample_run k))
  /\ exists s' n,
       Snapshot.wait_to_finish (length (Snapshot.chain Snapshot.sample_snapshot) + 2)
         Snapshot.sample_run Snapshot.sample_snapshot
       = Some (s', n)
       /\ n <= length (Snapshot.chain Snapshot.sample_snapshot) + 2.
Proof.
  assert (H : forall k, Forall Snapshot.fills (Snapshot.sample_run k)).
  { intros [|k]; simpl; repeat constructor. }
  split; [exact H|].
  exact (proj1 stagnation_exit Snapshot.sample_run Snapshot.sample_snapshot H).
Defined.

(** C1, as stated, fails for the contract scraper: on the run in which
    the answer to a request never arrives, [wait_for_finish] is still
    polling after any number of polls. *)
Lemma wait_for_finish_polls_forever :
  ~ (exists fuel r,
       IdScraper.wait_for_finish fuel IdScraper.silence
         [IdScraper.sample_request] = Some r).
Proof.
  intros (fuel & r & Hr). rewrite wait_for_finish_silence in Hr. discriminate.
Qed.

(** The proviso on the ticks cannot be dropped: when a quote is blanked
    again in every other sleep the count goes 2, 1, 2, 1, ... and the
    snapshot loop never sees it settle. *)
Lemma blinking_run_states (k : nat) :
  Sched.state_at Snapshot.handle Snapshot.blinking_run Snapshot.sample_snapshot k
  = if Nat.even k then Snapshot.sample_snapshot else Snapshot.sample_quoted.
Proof.
  induction k as [|k IH]; [reflexivity|].
  cbn [Sched.state_at]. rewrite IH, Nat.even_succ, <- Nat.negb_even.
  unfold Snapshot.blinking_run.
  destruct (Nat.even k); reflexivity.
Qed.

Lemma blinking_run_missing (k : nat) :
  Snapshot.missing_at Snapshot.blinking_run Snapshot.sample_snapshot k
  = if Nat.even k then 2 else 1.
Proof.
  unfold Snapshot.missing_at. rewrite blinking_run_states.
  destruct (Nat.even k); reflexivity.
Qed.

Lemma wait_to_finish_blinking_quote :
  ~ (exists fuel r,
       Snapshot.wait_to_finish fuel Snapshot.blinking_run
         Snapshot.sample_snapshot = Some r).
Proof.
  intros (fuel & [s' n] & Hr).
  apply wait_loop_first_leave in Hr as (Hn & Hleave & _).
  destruct n as [|[|n]]; [lia | |];
    unfold Snapshot.leaves, Snapshot.count_before in Hleave;
    cbn [Nat.sub] in Hleave;
    rewrite ?blinking_run_missing, ?Nat.even_succ, <- ?Nat.negb_even in Hleave.
  - simpl in Hleave. lia.
  - destruct (Nat.even n); simpl in Hleave; lia.
Qed.

(** On the sample run the snapshot loop makes three polls: two records
    missing, then one, then one again. *)
Example wait_to_finish_sample :
  (Snapshot.missing_at Snapshot.sample_run Snapshot.sample_snapshot 0,
   Snapshot.missing_at Snapshot.sample_run Snapshot.sample_snapshot 1,
   Snapshot.missing_at Snapshot.sample_run Snapshot.sample_snapshot 2) = (2, 1, 1)
  /\ snd <$> Snapshot.wait_to_finish 4 Snapshot.sample_run Snapshot.sample_snapshot
     = Some 3.
Proof. split; reflexivity. Qed.

(** ** The snapshot scraper: the account and the data frame *)

Lemma truediv_nonzero (x y : Py.float) :
  Py.is_zero y = false ->
  Py.truediv x y = Py.Ok (SFdiv Py.prec Py.emax x y).
Proof. intros H. unfold Py.truediv. now rewrite H. Qed.

Lemma enrich_insert_same (mult : Py.float) (m : gmap Z Snapshot.holding)
    (k : Z) (v : Snapshot.holding) (r : Snapshot.row) :
  m !! k = None ->
  Snapshot.conid (Snapshot.inst r) = Some k ->
  Snapshot.enrich mult m
    (Snapshot.set_Avg_Price (Snapshot.set_Position r (Snapshot.position v))
       (SFdiv Py.prec Py.emax (Snapshot.avg_price v) mult))
  = Snapshot.enrich mult (<[k:=v]> m) r.
Proof.
  intros Hk Hr. unfold Snapshot.enrich. simpl. rewrite Hr. simpl.
  now rewrite Hk, lookup_insert_eq.
Qed.

Lemma enrich_insert_other (mult : Py.float) (m : gmap Z Snapshot.holding)
    (k : Z) (v : Snapshot.holding) (r : Snapshot.row) :
  Snapshot.conid (Snapshot.inst r) <> Some k ->
  Snapshot.enrich mult m r = Snapshot.enrich mult (<[k:=v]> m) r.
Proof.
  intros Hr. unfold Snapshot.enrich.
  destruct (Snapshot.conid (Snapshot.inst r)) as [k'|]; simpl; [|reflexivity].
  rewrite lookup_insert_ne; [reflexivity | congruence].
Qed.

Lemma update_positions_list (mult : Py.float)
    (items : list (Z * Snapshot.holding)) (df : list Snapshot.row) :
  Py.is_zero mult = false ->
  NoDup items.*1 ->
  Snapshot.update_positions mult items df
  = Py.Ok (map (Snapshot.enrich mult (list_to_map items)) df).
Proof.
  intros Hmult. revert df.
  induction items as [|[k v] items IH]; intros df Hnd.
  - simpl. f_equal. induction df as [|r df IHdf]; [reflexivity|].
    simpl. rewrite <- IHdf. f_equal.
    unfold Snapshot.enrich.
    destruct (Snapshot.conid (Snapshot.inst r)); reflexivity.
  - simpl in Hnd. apply NoDup_cons in Hnd as [Hk Hnd].
    cbn [Snapshot.update_positions]. rewrite (truediv_nonzero _ _ Hmult).
    cbn [Py.bind]. rewrite (IH _ Hnd). f_equal.
    unfold Snapshot.loc_Avg_Price, Snapshot.loc_Position.
    rewrite !map_map. apply map_ext. intros r.
    cbn [list_to_map foldr uncurry fst snd].
    assert (Hnone : (list_to_map items : gmap Z Snapshot.holding) !! k = None)
      by now apply not_elem_of_list_to_map.
    destruct (decide (Snapshot.conid (Snapshot.inst r) = Some k)) as [Heq|Hne].
    + simpl. rewrite decide_True by exact Heq.
      now apply enrich_insert_same.
    + rewrite decide_False by exact Hne.
      now apply enrich_insert_other.
Qed.

Lemma update_positions_account (mult : Py.float)
    (account : gmap Z Snapshot.holding) (df : list Snapshot.row) :
  Py.is_zero mult = false ->
  Snapshot.update_positions mult (map_to_list account) df
  = Py.Ok (map (Snapshot.enrich mult account) df).
Proof.
  intros Hmult.
  rewrite update_positions_list.
  - now rewrite list_to_map_to_list.
  - exact Hmult.
  - apply NoDup_fst_map_to_list.
Qed.

Lemma Forall2_map_intro {A B : Type} (R : A -> B -> Prop) (f : A -> B)
    (l : list A) :
  (forall x, R x (f x)) -> Forall2 R l (map f l).
Proof. intros H. induction l; simpl; constructor; auto. Qed.

(** C7.  A portfolio update for a contract of the configured symbol stores
    the position, the average cost and the strike under the contract id
    (and leaves the other entries alone); [prepare_df] then writes, in
    every row whose [conid] is a key of the account, the stored position
    into [Position] and the stored average cost divided by the multiplier
    into [Avg Price], and leaves the other rows as the lookup of the
    contract ids returned them. *)
Theorem account_enriches_frame :
  (forall (c : Snapshot.Contract) (pos avg : Py.float) (s : Snapshot.snapshot),
     Snapshot.symbol c = Snapshot.symbol (Snapshot.cont s) ->
     Snapshot.account (Snapshot.updatePortfolio c pos avg s) !! Snapshot.conId c
     = Some {| Snapshot.position := pos; Snapshot.avg_price := avg;
               Snapshot.holding_strike := Snapshot.strike c |}
     /\ (forall k, k <> Snapshot.conId c ->
          Snapshot.account (Snapshot.updatePortfolio c pos avg s) !! k
          = Snapshot.account s !! k))
  /\ (forall (days_left : string -> Py.result Z)
             (lookup_contract_id : list Snapshot.row -> string ->
                                   Py.result (list Snapshot.row))
             (s : Snapshot.snapshot) (df : list Snapshot.row),
        Snapshot.prepare_frame days_left lookup_contract_id s = Py.Ok df ->
        Py.is_zero (Snapshot.cfg_mult (Snapshot.config s)) = false ->
        exists out,
          Snapshot.prepare_df days_left lookup_contract_id s = Py.Ok out
          /\ Forall2
               (fun r r' =>
                  (forall k v,
                     Snapshot.conid (Snapshot.inst r) = Some k ->
                     Snapshot.account s !! k = Some v ->
                     r' = {| Snapshot.inst := Snapshot.inst r;
                             Snapshot.Mid := Snapshot.Mid r;
                             Snapshot.Spread := Snapshot.Spread r;
                             Snapshot.Days := Snapshot.Days r;
                             Snapshot.Position := Snapshot.position v;
                             Snapshot.Avg_Price :=
                               SFdiv Py.prec Py.emax (Snapshot.avg_price v)
                                 (Snapshot.cfg_mult (Snapshot.config s)) |})
                  /\ ((forall k, Snapshot.conid (Snapshot.inst r) = Some k ->
                                 Snapshot.account s !! k = None) ->
                      r' = r))
               df out).
Proof.
  split.
  - intros c pos avg s Hsym. unfold Snapshot.updatePortfolio.
    rewrite (proj2 (String.eqb_eq _ _) Hsym). simpl. split.
    + apply lookup_insert_eq.
    + intros k Hk. now apply lookup_insert_ne.
  - intros days_left lookup s df Hframe Hmult.
    exists (map (Snapshot.enrich (Snapshot.cfg_mult (Snapshot.config s))
                   (Snapshot.account s)) df).
    split.
    + unfold Snapshot.prepare_df. rewrite Hframe. cbn [Py.bind].
      now apply update_positions_account.
    + apply Forall2_map_intro. intros r. unfold Snapshot.enrich. split.
      * intros k v Hk Hv. rewrite Hk. simpl. rewrite Hv. reflexivity.
      * intros Hnone.
        destruct (Snapshot.conid (Snapshot.inst r)) as [k|]; simpl;
          [|reflexivity].
        now rewrite (Hnone k eq_refl).
Qed.

Lemma account_enriches_frame_witness :
  Snapshot.symbol Snapshot.sample_contract
  = Snapshot.symbol (Snapshot.cont Snapshot.sample_snapshot)
  /\ Py.is_zero (Snapshot.cfg_mult (Snapshot.config Snapshot.sample_export)) = false
  /\ exists df out,
       Snapshot.prepare_frame Snapshot.sample_days_left Snapshot.sample_lookup
         Snapshot.sample_export = Py.Ok df
       /\ Snapshot.prepare_df Snapshot.sample_days_left Snapshot.sample_lookup
            Snapshot.sample_export = Py.Ok out
       /\ length df = 2
       /\ length out = 2.
Proof.
  split; [reflexivity|]. split; [reflexivity|].
  eexists.
  destruct (proj2 account_enriches_frame Snapshot.sample_days_left
              Snapshot.sample_lookup Snapshot.sample_export _
              eq_refl eq_refl) as (out & Hout & Hrows).
  exists out. split; [reflexivity|]. split; [exact Hout|].
  split; [reflexivity|].
  apply Forall2_length in Hrows. rewrite <- Hrows. reflexivity.
Defined.

(** On the sample export the held option gets position 2 and average
    price 1500 / 1000; the other row keeps its zeros. *)
Example prepare_df_sample :
  match Snapshot.prepare_df Snapshot.sample_days_left Snapshot.sample_lookup
          Snapshot.sample_export with
  | Py.Ok out =>
      map (fun r => (Snapshot.conid (Snapshot.inst r),
                     Snapshot.Position r, Snapshot.Avg_Price r)) out
      = [ (Some 77%Z, Py.of_Z 2, SFdiv Py.prec Py.emax (Py.of_Z 3) (Py.of_Z 2));
          (None, Py.of_Z 0, Py.of_Z 0) ]
  | Py.Raise _ => False
  end.
Proof. vm_compute. reflexivity. Qed.

(** ** The snapshot scraper: the export and the command line *)

(** C8.  [Snapshot.export_dynamo] sends the item once, ends without an
    exception whatever the status code of the response, and reports
    success exactly when the code is 200 and a failure exactly when it is
    not. *)
Theorem export_dynamo_flags_status (dtg : Z) (s : Snapshot.snapshot)
    (df : list Snapshot.row) (tbl : string) (status_code : Z) :
  snd (Snapshot.export_dynamo dtg s df tbl status_code) = Py.Ok tt
  /\ length (List.filter Snapshot.is_put
              (fst (Snapshot.export_dynamo dtg s df tbl status_code))) = 1
  /\ existsb Snapshot.is_success_report
       (fst (Snapshot.export_dynamo dtg s df tbl status_code))
     = (status_code =? 200)%Z
  /\ existsb Snapshot.is_failure_report
       (fst (Snapshot.export_dynamo dtg s df tbl status_code))
     = negb (status_code =? 200)%Z.
Proof.
  unfold Snapshot.export_dynamo. simpl.
  destruct (status_code =? 200)%Z; simpl; repeat split; reflexivity.
Qed.

Example export_dynamo_sample :
  (fst (Snapshot.export_dynamo 190101120000 Snapshot.sample_export [] "mktData" 200),
   fst (Snapshot.export_dynamo 190101120000 Snapshot.sample_export [] "mktData" 500))
  = ([ Snapshot.Log "Exporting market data snapshot to Dynamo DB table mktData";
       Snapshot.PutItem "mktData" 190101120000 "CL" [];
       Snapshot.Verbose "Data export to DynamoDB successful" ],
     [ Snapshot.Log "Exporting market data snapshot to Dynamo DB table mktData";
       Snapshot.PutItem "mktData" 190101120000 "CL" [];
       Snapshot.Error "Failed to export data to DynamoDB" ]).
Proof. reflexivity. Qed.

(** The parser on a few command lines: options in full, abbreviated,
    with [=], short switches in one word; and command lines it ends the
    script on. *)
Example parse_args_samples :
  map Snapshot.parse_args
    [ []; ["-vq"]; ["--verb"; "--d"]; ["--csv=snap.csv"]; ["--c"; "-1.5"];
      ["--csv"; "a"; "--csv"; "-"] ]%string
  = [ Some Snapshot.no_args;
      Some {| Snapshot.arg_verbose := true; Snapshot.arg_quiet := true;
              Snapshot.arg_db := false; Snapshot.arg_csv := None |};
      Some {| Snapshot.arg_verbose := true; Snapshot.arg_quiet := false;
              Snapshot.arg_db := true; Snapshot.arg_csv := None |};
      Some {| Snapshot.arg_verbose := false; Snapshot.arg_quiet := false;
              Snapshot.arg_db := false; Snapshot.arg_csv := Some "snap.csv" |};
      Some {| Snapshot.arg_verbose := false; Snapshot.arg_quiet := false;
              Snapshot.arg_db := false; Snapshot.arg_csv := Some "-1.5" |};
      Some {| Snapshot.arg_verbose := false; Snapshot.arg_quiet := false;
              Snapshot.arg_db := false; Snapshot.arg_csv := Some "-" |} ]%string
  /\ map Snapshot.parse_args
       [ ["--csv"]; ["--csv"; "--db"]; ["--csv"; "-x"]; ["snap.csv"];
         ["--"]; ["-h"]; ["-vh"]; ["-vx"]; ["--db=1"]; ["--=x"];
         ["--zzz"] ]%string
     = repeat None 11.
Proof. split; reflexivity. Qed.

(** The parser accepts the four switches, and the run does not look at
    them: as written, the script stops with [TypeError] in [Snapshot()]
    whatever the command line; and the statements after the polling loop
    write the same things for any two sets of switches, always the file
    [./data/out.csv] and always one item to DynamoDB. *)
Lemma snapshot_flags_ignored :
  Snapshot.parse_args ["-v"; "--quiet"; "--db"; "--csv"; "snap.csv"]
  = Some {| Snapshot.arg_verbose := true; Snapshot.arg_quiet := true;
            Snapshot.arg_db := true; Snapshot.arg_csv := Some "snap.csv" |}
  /\ (forall argv a,
        Snapshot.parse_args argv = Some a ->
        Snapshot.main_start argv = Some (Py.Raise Py.TypeError))
  /\ (forall days_left lookup_contract_id dtg (a a' : Snapshot.args)
             (tws : Snapshot.snapshot) (status_code : Z),
        Snapshot.report days_left lookup_contract_id dtg a tws status_code
        = Snapshot.report days_left lookup_contract_id dtg a' tws status_code)
  /\ (forall days_left lookup_contract_id dtg (a : Snapshot.args)
             (tws : Snapshot.snapshot) (status_code : Z) out,
        Snapshot.report days_left lookup_contract_id dtg a tws status_code
        = Py.Ok out ->
        Snapshot.csv_paths out = ["./data/out.csv"]
        /\ length (List.filter Snapshot.is_put out) = 1).
Proof.
  split; [reflexivity|]. split; [|split].
  - intros argv a Ha. unfold Snapshot.main_start. now rewrite Ha.
  - reflexivity.
  - intros days_left lookup dtg a tws code out. unfold Snapshot.report.
    destruct (Snapshot.prepare_df days_left lookup tws) as [df|e];
      [|discriminate].
    simpl. intros [= <-]. simpl.
    destruct (code =? 200)%Z; split; reflexivity.
Qed.

(** C5, on the command line [--csv snap.csv].  The switches are accepted,
    but they do not govern the run: the script stops with [TypeError] when
    it builds [Snapshot()], and the statements after the polling loop,
    run without [--db] and with [--csv snap.csv], still put the item to
    DynamoDB and still write [./data/out.csv]. *)
Theorem report_without_db :
  Snapshot.parse_args ["--csv"; "snap.csv"]
  = Some {| Snapshot.arg_verbose := false; Snapshot.arg_quiet := false;
            Snapshot.arg_db := false; Snapshot.arg_csv := Some "snap.csv" |}
  /\ Snapshot.main_start ["--csv"; "snap.csv"] = Some (Py.Raise Py.TypeError)
  /\ match Snapshot.report Snapshot.sample_days_left Snapshot.sample_lookup
             190101120000
             {| Snapshot.arg_verbose := false; Snapshot.arg_quiet := false;
                Snapshot.arg_db := false; Snapshot.arg_csv := Some "snap.csv" |}
             Snapshot.sample_export 200 with
     | Py.Ok out =>
         Snapshot.csv_paths out = ["./data/out.csv"]
         /\ existsb Snapshot.is_put out = true
     | Py.Raise _ => False
     end.
Proof.
  split; [reflexivity|]. split; [reflexivity|].
  vm_compute. split; reflexivity.
Qed.

(** ** The news trader *)

(** [str] on a few integers, and the floats behind the literals of
    [__init__]: -1.0, 0.05, 0.2 and 0.02 as mantissa and exponent. *)
Example str_of_Z_samples :
  map Py.str_of_Z [0; 7; 10; -3; 1204]%Z = ["0"; "7"; "10"; "-3"; "1204"]%string.
Proof. reflexivity. Qed.

Example init_literals :
  (News.last_price News.init, News.entry_spread News.init,
   News.tgt_spread News.init, News.delta_adjust News.init)
  = (S754_finite true 4503599627370496 (-52),
     S754_finite false 7205759403792794 (-57),
     S754_finite false 7205759403792794 (-55),
     S754_finite false 5764607523034235 (-58)).
Proof. vm_compute. reflexivity. Qed.

Lemma Z_of_str_of_Z (z : Z) : Py.Z_of_str (Py.str_of_Z z) = Some z.
Proof.
  unfold Py.Z_of_str, Py.str_of_Z.
  rewrite NilZero.isi.
  - simpl. now rewrite DecimalZ.of_to.
  - destruct z as [|p|p]; simpl; try discriminate.
    intros [= H]. now apply (Unsigned.to_uint_nonnil p).
  - destruct z as [|p|p]; simpl; try discriminate.
    intros [= H]. now apply (Unsigned.to_uint_nonnil p).
Qed.

Lemma str_of_Z_inj (a b : Z) : Py.str_of_Z a = Py.str_of_Z b -> a = b.
Proof.
  intros H. apply (f_equal Py.Z_of_str) in H.
  rewrite !Z_of_str_of_Z in H. congruence.
Qed.

Lemma eqb_str_of_Z (v : Py.id_val) (a b : Z) :
  a <> b ->
  Py.eqb v (Py.PyStr (Py.str_of_Z a)) = true ->
  Py.eqb v (Py.PyStr (Py.str_of_Z b)) = false.
Proof.
  intros Hab. destruct v as [z|t]; simpl; [discriminate|].
  intros Ht. apply String.eqb_eq in Ht. subst t.
  apply String.eqb_neq. intros H. apply Hab. now apply str_of_Z_inj.
Qed.

(** C10.  When the last price is not positive, [prepare_orders] returns
    at once: the wrapper, with its six orders and [nextValidOrderId], is
    what it was. *)
Theorem prepare_orders_without_price (w : News.TwsWrapper) :
  Py.fleb (News.last_price w) (Py.of_Z 0) = true ->
  News.prepare_orders w = w.
Proof. intros H. unfold News.prepare_orders. now rewrite H. Qed.

Lemma prepare_orders_without_price_witness :
  Py.fleb (News.last_price News.init) (Py.of_Z 0) = true
  /\ News.prepare_orders News.init = News.init.
Proof.
  split; [reflexivity|].
  apply (prepare_orders_without_price News.init). reflexivity.
Defined.

(** C6.  [get_orders] returns the six orders of the bracket, an entry, a
    target and a trailing stop for the long and for the short side; once
    [prepare_orders] has run with a last price that is not [<= 0], their
    identifiers are the six consecutive numbers from [nextValidOrderId]
    on (written out in decimal), and the [parentId] of each target and
    trailing stop is the [orderId] of the entry of its side. *)
Theorem bracket_of_six_orders :
  (forall w, News.get_orders w
             = [News.long_entry w; News.long_tgt w; News.long_trail w;
                News.short_entry w; News.short_tgt w; News.short_trail w])
  /\ map (fun o => (News.action o, News.orderType o)) (News.get_orders News.init)
     = [("BUY", "STP LMT"); ("SELL", "LMT"); ("SELL", "TRAIL");
        ("SELL", "STP LMT"); ("BUY", "LMT"); ("BUY", "TRAIL")]%string
  /\ (forall w,
        Py.fleb (News.last_price w) (Py.of_Z 0) = false ->
        let o := News.nextValidOrderId w in
        let w' := News.prepare_orders w in
        length (News.get_orders w') = 6
        /\ map News.orderId (News.get_orders w')
           = map (fun k => Py.PyStr (Py.str_of_Z (o + k)))
                 [0; 1; 2; 3; 4; 5]%Z
        /\ map (fun i => Py.int_of (News.orderId i)) (News.get_orders w')
           = map (fun k => Some (o + k)%Z) [0; 1; 2; 3; 4; 5]%Z
        /\ News.parentId (News.long_tgt w') = News.orderId (News.long_entry w')
        /\ News.parentId (News.long_trail w') = News.orderId (News.long_entry w')
        /\ News.parentId (News.short_tgt w') = News.orderId (News.short_entry w')
        /\ News.parentId (News.short_trail w') = News.orderId (News.short_entry w')
        /\ map (fun o => (News.action o, News.orderType o)) (News.get_orders w')
           = map (fun o => (News.action o, News.orderType o)) (News.get_orders w)
        /\ News.nextValidOrderId w' = o).
Proof.
  split; [reflexivity|]. split; [reflexivity|].
  intros w Hprice o w'. subst o w'. unfold News.prepare_orders.
  rewrite Hprice. cbn -[Py.str_of_Z Py.Z_of_str Z.add].
  rewrite Z.add_0_r, !Z_of_str_of_Z.
  repeat split; reflexivity.
Qed.

Lemma bracket_of_six_orders_witness :
  Py.fleb (News.last_price News.sample_ready) (Py.of_Z 0) = false
  /\ map News.orderId (News.get_orders (News.prepare_orders News.sample_ready))
     = map Py.PyStr ["7"; "8"; "9"; "10"; "11"; "12"]%string.
Proof.
  split; [reflexivity|].
  destruct (proj2 (proj2 bracket_of_six_orders) News.sample_ready eq_refl)
    as (_ & Hids & _).
  rewrite Hids. reflexivity.
Defined.

(** In a bracket whose identifiers [prepare_orders] has set, an identifier
    that matches an entry order matches no exit order. *)
Lemma prepared_entry_not_exit (w : News.TwsWrapper) (order_id : Py.id_val) :
  Py.fleb (News.last_price w) (Py.of_Z 0) = false ->
  News.is_entry order_id (News.prepare_orders w) = true ->
  News.is_exit order_id (News.prepare_orders w) = false.
Proof.
  intros Hprice. unfold News.is_entry, News.is_exit, News.prepare_orders.
  rewrite Hprice. cbn -[Py.str_of_Z Py.eqb Z.add].
  set (o := News.nextValidOrderId w).
  intros Hentry. apply orb_true_iff in Hentry as [H|H].
  - rewrite (eqb_str_of_Z order_id o (o + 2)), (eqb_str_of_Z order_id o (o + 1)),
      (eqb_str_of_Z order_id o (o + 5)), (eqb_str_of_Z order_id o (o + 4));
      auto; lia.
  - rewrite (eqb_str_of_Z order_id (o + 3) (o + 2)),
      (eqb_str_of_Z order_id (o + 3) (o + 1)),
      (eqb_str_of_Z order_id (o + 3) (o + 5)),
      (eqb_str_of_Z order_id (o + 3) (o + 4)); auto; lia.
Qed.

(** The three tests of [orderStatus], on an identifier of any kind.
    [place_orders] makes the trader [HOT].  An order status whose
    identifier [==] an entry order's and no target's or trailing stop's
    makes it [ACTIVE]; one whose identifier [==] a target's or a trailing
    stop's makes it [COLD]; any other leaves the wrapper as it was.  Among
    the identifiers [prepare_orders] has set, one that [==] an entry
    order's is the text of that number, and it [==] no target's and no
    trailing stop's. *)
Lemma order_status_machine :
  (forall w, News.status (fst (News.place_orders w)) = News.HOT)
  /\ (forall w order_id,
        News.is_entry order_id w = true ->
        News.is_exit order_id w = false ->
        News.status (News.orderStatus order_id w) = News.ACTIVE)
  /\ (forall w order_id,
        News.is_exit order_id w = true ->
        News.status (News.orderStatus order_id w) = News.COLD)
  /\ (forall w order_id,
        News.is_entry order_id w = false ->
        News.is_exit order_id w = false ->
        News.orderStatus order_id w = w)
  /\ (forall w order_id,
        Py.fleb (News.last_price w) (Py.of_Z 0) = false ->
        News.is_entry order_id (News.prepare_orders w) = true ->
        News.status (News.orderStatus order_id (News.prepare_orders w))
        = News.ACTIVE).
Proof.
  assert (Hactive : forall w order_id,
             News.is_entry order_id w = true ->
             News.is_exit order_id w = false ->
             News.status (News.orderStatus order_id w) = News.ACTIVE).
  { intros w order_id. unfold News.is_entry, News.is_exit, News.orderStatus.
    intros -> Hexit.
    apply orb_false_iff in Hexit as [Hexit Hst].
    apply orb_false_iff in Hexit as [Hexit Hstr].
    cbn [News.with_status News.long_trail News.long_tgt
         News.short_trail News.short_tgt].
    rewrite Hexit.
    cbn [News.with_status News.long_trail News.long_tgt
         News.short_trail News.short_tgt].
    rewrite Hstr, Hst. reflexivity. }
  split; [reflexivity|]. split; [exact Hactive|]. split; [|split].
  - intros w order_id. unfold News.is_exit, News.orderStatus.
    destruct (Py.eqb order_id (News.orderId (News.long_entry w))
              || Py.eqb order_id (News.orderId (News.short_entry w)));
      cbn [News.with_status News.long_trail News.long_tgt
           News.short_trail News.short_tgt];
      destruct (Py.eqb order_id (News.orderId (News.long_trail w))
                || Py.eqb order_id (News.orderId (News.long_tgt w)));
      cbn [News.with_status News.long_trail News.long_tgt
           News.short_trail News.short_tgt orb];
      intros Hexit;
      first [ rewrite Hexit; reflexivity
            | destruct (Py.eqb order_id (News.orderId (News.short_trail w))
                        || Py.eqb order_id (News.orderId (News.short_tgt w)));
              reflexivity ].
  - intros w order_id. unfold News.is_entry, News.is_exit, News.orderStatus.
    intros -> Hexit.
    apply orb_false_iff in Hexit as [Hexit Hst].
    apply orb_false_iff in Hexit as [Hexit Hstr].
    rewrite Hexit, Hstr, Hst. reflexivity.
  - intros w order_id Hprice Hentry. apply Hactive; [exact Hentry|].
    now apply prepared_entry_not_exit.
Qed.

(** C2.  The trader of the sample has placed its prepared bracket under
    the identifiers "7" to "12" and is [HOT].  The order status of the long
    entry arrives with the identifier as the number 7: it equals none of
    the stored texts, and the trader stays [HOT] where the state machine
    has [ACTIVE].  In the same way the status of the long target, number
    8, leaves an [ACTIVE] trader [ACTIVE] where the machine has [COLD]; no
    numeric identifier moves this trader out of any status. *)
Theorem order_status_int_id_misses :
  News.status News.sample_hot = News.HOT
  /\ map News.orderId (News.get_orders News.sample_hot)
     = map Py.PyStr ["7"; "8"; "9"; "10"; "11"; "12"]%string
  /\ map (fun o => Py.int_of (News.orderId o)) (News.get_orders News.sample_hot)
     = map Some [7; 8; 9; 10; 11; 12]%Z
  /\ News.is_entry (Py.PyInt 7) News.sample_hot = false
  /\ News.status (News.orderStatus (Py.PyInt 7) News.sample_hot) = News.HOT
  /\ News.status (News.orderStatus (Py.PyInt 8)
                    (News.with_status News.sample_hot News.ACTIVE))
     = News.ACTIVE
  /\ (forall (z : Z) (st : News.TraderStatus),
        News.orderStatus (Py.PyInt z) (News.with_status News.sample_hot st)
        = News.with_status News.sample_hot st).
Proof.
  repeat (split; [reflexivity|]).
  intros z st. unfold News.orderStatus. reflexivity.
Qed.

(** A second way past the state machine: when the orders were placed
    before any price came in, [prepare_orders] has left every identifier
    at the number 0; the order status for identifier 0 then matches the
    entry orders and the exit orders alike, and the trader goes from [HOT]
    to [COLD], not to [ACTIVE]. *)
Lemma order_status_entry_goes_cold :
  News.status News.sample_unprepared = News.HOT
  /\ Py.eqb (Py.PyInt 0)
       (News.orderId (News.long_entry News.sample_unprepared)) = true
  /\ News.status (News.orderStatus (Py.PyInt 0) News.sample_unprepared)
     = News.COLD
  /\ News.status (News.orderStatus (Py.PyInt 0) News.sample_unprepared)
     <> News.ACTIVE.
Proof. repeat split; try reflexivity. discriminate. Qed.

(** * Further properties *)

(** ** Numbered requests *)

Lemma number_from_app {A : Type} (o : Z) (l1 l2 : list A) :
  IdScraper.number_from o (l1 ++ l2)
  = IdScraper.number_from o l1
    ++ IdScraper.number_from (o + Z.of_nat (length l1))%Z l2.
Proof.
  revert o. induction l1 as [|x l1 IH]; intros o.
  - simpl. now rewrite Z.add_0_r.
  - replace (o + Z.of_nat (length (x :: l1)))%Z
      with (o + 1 + Z.of_nat (length l1))%Z by (cbn [length]; lia).
    simpl. now rewrite IH.
Qed.

Lemma number_from_ids {A : Type} (o : Z) (l : list A) :
  map fst (IdScraper.number_from o l) = seqZ o (Z.of_nat (length l)).
Proof.
  revert o. induction l as [|x l IH]; intros o; [reflexivity|].
  cbn [IdScraper.number_from map fst length].
  rewrite IH, (seqZ_cons o) by lia.
  f_equal. f_equal; lia.
Qed.

Lemma number_from_length {A : Type} (o : Z) (l : list A) :
  length (IdScraper.number_from o l) = length l.
Proof. revert o. induction l; intros o; simpl; auto. Qed.

(** A loop over the months, the strikes and the sides is a loop over the
    keys in the order the loops visit them. *)
Lemma nested_fold_keys {S A B C : Type} (f : A -> B -> S -> C -> S)
    (ms : list A) (js : list B) (ks : list C) (st : S) :
  fold_left (fun st m => fold_left (fun st j => fold_left (f m j) ks st) js st)
            ms st
  = fold_left (fun st '(m, j, k) => f m j st k)
      (flat_map (fun m => flat_map (fun j => map (fun k => (m, j, k)) ks) js) ms)
      st.
Proof.
  revert st. induction ms as [|m ms IHm]; intros st; [reflexivity|].
  cbn [fold_left flat_map]. rewrite fold_left_app, <- IHm. f_equal.
  clear IHm. revert st. induction js as [|j js IHj]; intros st; [reflexivity|].
  cbn [fold_left flat_map]. rewrite fold_left_app, <- IHj. f_equal.
  clear IHj. revert st. induction ks as [|k ks IHk]; intros st; [reflexivity|].
  simpl. apply IHk.
Qed.

Lemma request_keys_length (months strikes : list string) :
  length (IdScraper.request_keys months strikes)
  = 2 * length months * length strikes.
Proof.
  unfold IdScraper.request_keys.
  induction months as [|m months IH]; [reflexivity|].
  cbn [flat_map]. rewrite length_app, IH.
  assert (H : length (flat_map (fun j => map (fun k => (m, j, k)) ["P"; "C"]%string)
                        strikes) = 2 * length strikes).
  { clear. induction strikes as [|j strikes IH]; [reflexivity|].
    cbn [flat_map]. rewrite length_app, IH. simpl. lia. }
  rewrite H. simpl. lia.
Qed.

(** ** The contract scraper: requests *)

Lemma req_keys_fold (c : IdScraper.template)
    (keys : list (string * string * string)) (o : Z)
    (data : list IdScraper.request) (out : list IdScraper.effect) :
  fold_left (fun st '(m, j, k) => IdScraper.req_one c m j st k) keys
            (o, data, out)
  = ((o + Z.of_nat (length keys))%Z,
     data ++ map (IdScraper.record_of c) (IdScraper.number_from o keys),
     out ++ map (IdScraper.call_of c) (IdScraper.number_from o keys)).
Proof.
  revert o data out.
  induction keys as [|[[m j] k] keys IH]; intros o data out.
  - simpl. now rewrite Z.add_0_r, !app_nil_r.
  - cbn [fold_left IdScraper.req_one]. rewrite IH.
    cbn [IdScraper.number_from map IdScraper.record_of IdScraper.call_of length].
    rewrite <- !app_assoc. simpl. do 2 f_equal. lia.
Qed.

Lemma scraper_records_ids (c : IdScraper.template) (o : Z)
    (keys : list (string * string * string)) :
  map IdScraper.id (map (IdScraper.record_of c) (IdScraper.number_from o keys))
  = seqZ o (Z.of_nat (length keys)).
Proof.
  rewrite <- number_from_ids, map_map. apply map_ext.
  intros [o' [[m j] k]]. reflexivity.
Qed.

(** X1.  [IdScraper.req_data] appends one record per month, strike and
    side, [2 * len(months) * len(strikes)] in all, and sends one request
    for each: the records and the requests carry the consecutive numbers
    from [nextId] on, no number twice, and every new record has the
    sentinel [conid = 0]. *)
Theorem req_data_numbers (c : IdScraper.template) (months strikes : list string)
    (nextId : Z) (data : list IdScraper.request) :
  exists new calls,
    IdScraper.req_data c months strikes nextId data
    = ((nextId + Z.of_nat (2 * length months * length strikes))%Z,
       data ++ new, calls)
    /\ length new = 2 * length months * length strikes
    /\ map IdScraper.id new
       = seqZ nextId (Z.of_nat (2 * length months * length strikes))
    /\ NoDup (map IdScraper.id new)
    /\ Forall (fun m => IdScraper.conid m = 0%Z) new
    /\ map IdScraper.request_id calls = map (fun m => Some (IdScraper.id m)) new.
Proof.
  set (keys := IdScraper.request_keys months strikes).
  exists (map (IdScraper.record_of c) (IdScraper.number_from nextId keys)),
         (map (IdScraper.call_of c) (IdScraper.number_from nextId keys)).
  assert (Hlen : length keys = 2 * length months * length strikes)
    by apply request_keys_length.
  split; [|split; [|split; [|split; [|split]]]].
  - unfold IdScraper.req_data.
    rewrite (nested_fold_keys (fun m j st k => IdScraper.req_one c m j st k)).
    fold (IdScraper.request_keys months strikes). fold keys.
    rewrite req_keys_fold, Hlen. reflexivity.
  - now rewrite length_map, number_from_length.
  - now rewrite scraper_records_ids, Hlen.
  - rewrite scraper_records_ids. apply NoDup_seqZ.
  - apply List.Forall_forall. intros m Hm.
    apply in_map_iff in Hm as ([o [[mo j] k]] & <- & _). reflexivity.
  - rewrite !map_map. apply map_ext. intros [o [[m j] k]]. reflexivity.
Qed.

(** ** The contract scraper: answers *)

Lemma scraper_handle_map (cb : IdScraper.callback) (data : list IdScraper.request) :
  IdScraper.handle cb data = map (IdScraper.evolve cb) data.
Proof. destruct cb. reflexivity. Qed.

Lemma scraper_deliver_map (cbs : list IdScraper.callback)
    (data : list IdScraper.request) :
  Sched.deliver IdScraper.handle cbs data
  = map (Sched.deliver IdScraper.evolve cbs) data.
Proof.
  unfold Sched.deliver. revert data.
  induction cbs as [|cb cbs IH]; intros data; simpl.
  - now rewrite map_id.
  - rewrite IH, scraper_handle_map, map_map. reflexivity.
Qed.

Lemma scraper_state_map (sleep : nat -> list IdScraper.callback)
    (data : list IdScraper.request) (k : nat) :
  Sched.state_at IdScraper.handle sleep data k
  = map (IdScraper.evolve_run sleep k) data.
Proof.
  unfold IdScraper.evolve_run.
  induction k as [|k IH]; simpl.
  - now rewrite map_id.
  - rewrite IH, scraper_deliver_map, map_map. reflexivity.
Qed.

Lemma evolve_descriptor (cb : IdScraper.callback) (m : IdScraper.request) :
  IdScraper.descriptor (IdScraper.evolve cb m) = IdScraper.descriptor m.
Proof.
  destruct cb as [r cd]. simpl.
  destruct (IdScraper.id m =? r)%Z; reflexivity.
Qed.

Lemma evolve_all_descriptor (cbs : list IdScraper.callback) (m : IdScraper.request) :
  IdScraper.descriptor (Sched.deliver IdScraper.evolve cbs m)
  = IdScraper.descriptor m.
Proof.
  unfold Sched.deliver. revert m.
  induction cbs as [|cb cbs IH]; intros m; simpl; [reflexivity|].
  now rewrite IH, evolve_descriptor.
Qed.

Lemma evolve_run_descriptor (sleep : nat -> list IdScraper.callback) (k : nat)
    (m : IdScraper.request) :
  IdScraper.descriptor (IdScraper.evolve_run sleep k m) = IdScraper.descriptor m.
Proof.
  unfold IdScraper.evolve_run. induction k as [|k IH]; simpl; [reflexivity|].
  now rewrite evolve_all_descriptor.
Qed.

Lemma descriptor_id (m m' : IdScraper.request) :
  IdScraper.descriptor m = IdScraper.descriptor m' ->
  IdScraper.id m = IdScraper.id m'.
Proof. unfold IdScraper.descriptor. congruence. Qed.

(** X2.  The answers of a run never add, drop, reorder or renumber the
    requests: at every poll the records carry the descriptors [req_data]
    gave them.  An answer to a number no record carries changes nothing,
    and an answer to request [r] fills in every record numbered [r] and
    no other. *)
Theorem answers_keep_requests :
  (forall (sleep : nat -> list IdScraper.callback)
          (data : list IdScraper.request) (k : nat),
     map IdScraper.descriptor (Sched.state_at IdScraper.handle sleep data k)
     = map IdScraper.descriptor data)
  /\ (forall (r : Z) (cd : IdScraper.ContractDetails)
             (data : list IdScraper.request),
        ~ In r (map IdScraper.id data) ->
        IdScraper.contractDetails r cd data = data)
  /\ (forall (r : Z) (cd : IdScraper.ContractDetails)
             (data : list IdScraper.request),
        Forall2
          (fun m m' =>
             if (IdScraper.id m =? r)%Z
             then IdScraper.conid m'
                  = IdScraper.conId (IdScraper.contract cd)
                  /\ IdScraper.contr_month m'
                     = Some (IdScraper.lastTradeDateOrContractMonth
                               (IdScraper.contract cd))
             else m' = m)
          data (IdScraper.contractDetails r cd data)).
Proof.
  split; [|split].
  - intros sleep data k. rewrite scraper_state_map, map_map.
    apply map_ext. intros m. apply evolve_run_descriptor.
  - intros r cd data Hr. unfold IdScraper.contractDetails.
    induction data as [|m data IH]; [reflexivity|].
    simpl in *. rewrite IH by tauto.
    destruct (Z.eqb_spec (IdScraper.id m) r) as [Heq|_]; [|reflexivity].
    exfalso. apply Hr. now left.
  - intros r cd data. unfold IdScraper.contractDetails.
    apply Forall2_map_intro. intros m.
    destruct (IdScraper.id m =? r)%Z; simpl; auto.
Qed.

Lemma answers_keep_requests_witness :
  ~ In 9%Z (map IdScraper.id [IdScraper.sample_request])
  /\ IdScraper.handle (IdScraper.ContractDetailsCb 9
                         {| IdScraper.contract :=
                              {| IdScraper.conId := 5;
                                 IdScraper.lastTradeDateOrContractMonth := "20190214" |} |})
       [IdScraper.sample_request]
     = [IdScraper.sample_request].
Proof.
  assert (H : ~ In 9%Z (map IdScraper.id [IdScraper.sample_request])).
  { simpl. intros [H|[]]. discriminate. }
  split; [exact H|].
  exact (proj1 (proj2 answers_keep_requests) 9%Z _ _ H).
Defined.

Lemma evolve_keeps_complete (cb : IdScraper.callback) (m : IdScraper.request) :
  IdScraper.carries_conid cb ->
  IdScraper.complete m = true ->
  IdScraper.complete (IdScraper.evolve cb m) = true.
Proof.
  destruct cb as [r cd]. simpl. intros Hcb Hm.
  destruct (IdScraper.id m =? r)%Z; [|exact Hm].
  unfold IdScraper.complete. simpl.
  apply negb_true_iff. now apply Z.eqb_neq.
Qed.

Lemma evolve_all_keeps_complete (cbs : list IdScraper.callback)
    (m : IdScraper.request) :
  Forall IdScraper.carries_conid cbs ->
  IdScraper.complete m = true ->
  IdScraper.complete (Sched.deliver IdScraper.evolve cbs m) = true.
Proof.
  apply (deliver_preserves IdScraper.evolve
           (fun m => IdScraper.complete m = true)).
  intros cb m0. apply evolve_keeps_complete.
Qed.

Lemma evolve_all_answer (cbs : list IdScraper.callback) (m : IdScraper.request)
    (cd : IdScraper.ContractDetails) :
  Forall IdScraper.carries_conid cbs ->
  In (IdScraper.ContractDetailsCb (IdScraper.id m) cd) cbs ->
  IdScraper.complete (Sched.deliver IdScraper.evolve cbs m) = true.
Proof.
  revert m. induction cbs as [|cb cbs IH]; intros m Hall Hin; [destruct Hin|].
  inversion Hall as [|? ? Hcb Hrest]; subst.
  change (Sched.deliver IdScraper.evolve (cb :: cbs) m)
    with (Sched.deliver IdScraper.evolve cbs (IdScraper.evolve cb m)).
  destruct Hin as [->|Hin].
  - apply evolve_all_keeps_complete; [exact Hrest|].
    simpl in *. rewrite Z.eqb_refl. unfold IdScraper.complete. simpl.
    apply negb_true_iff. now apply Z.eqb_neq.
  - apply IH; [exact Hrest|].
    replace (IdScraper.id (IdScraper.evolve cb m)) with (IdScraper.id m);
      [exact Hin|].
    symmetry. apply descriptor_id, evolve_descriptor.
Qed.

Lemma evolve_run_stays_complete (sleep : nat -> list IdScraper.callback)
    (m : IdScraper.request) (k K : nat) :
  (forall j, Forall IdScraper.carries_conid (sleep j)) ->
  k <= K ->
  IdScraper.complete (IdScraper.evolve_run sleep k m) = true ->
  IdScraper.complete (IdScraper.evolve_run sleep K m) = true.
Proof.
  intros Hall Hle Hk. induction Hle as [|K Hle IH]; [exact Hk|].
  unfold IdScraper.evolve_run in *. simpl.
  now apply evolve_all_keeps_complete.
Qed.

Lemma evolve_run_answered (sleep : nat -> list IdScraper.callback)
    (m : IdScraper.request) (K : nat) :
  (forall j, Forall IdScraper.carries_conid (sleep j)) ->
  IdScraper.answered sleep K (IdScraper.id m) ->
  IdScraper.complete (IdScraper.evolve_run sleep K m) = true.
Proof.
  intros Hall (k & cd & Hk & Hin & _).
  apply (evolve_run_stays_complete sleep m (S k) K Hall); [lia|].
  unfold IdScraper.evolve_run. simpl.
  apply (evolve_all_answer _ _ cd); [apply Hall|].
  replace (IdScraper.id (Sched.state_at IdScraper.evolve sleep m k))
    with (IdScraper.id m); [exact Hin|].
  symmetry. apply descriptor_id.
  apply (evolve_run_descriptor sleep k m).
Qed.

Lemma wait_for_finish_returns_complete (fuel : nat)
    (sleep : nat -> list IdScraper.callback)
    (data d : list IdScraper.request) (n : nat) :
  (forall k, Forall IdScraper.carries_conid (sleep k)) ->
  IdScraper.wait_for_finish fuel sleep data = Some (d, n) ->
  d = map (IdScraper.evolve_run sleep n) data
  /\ forallb IdScraper.complete d = true.
Proof.
  intros Hall Hret.
  apply wait_for_finish_first_complete in Hret as (Hn & Hc & _ & ->).
  split; [apply scraper_state_map|].
  rewrite scraper_state_map in *. rewrite forallb_forall in *.
  intros m' Hm'. apply in_map_iff in Hm' as (m & <- & Hm).
  apply (evolve_run_stays_complete sleep m (n - 1) n Hall); [lia|].
  apply Hc. apply in_map_iff. eauto.
Qed.

(** X3.  When every answer of a run carries a contract id and every
    record's request is answered before the K-th poll,
    [IdScraper.wait_for_finish] returns within K + 1 polls, with every
    record complete. *)
Theorem wait_for_finish_when_answered
    (sleep : nat -> list IdScraper.callback) (data : list IdScraper.request)
    (K : nat) :
  (forall k, Forall IdScraper.carries_conid (sleep k)) ->
  (forall m, In m data -> IdScraper.answered sleep K (IdScraper.id m)) ->
  exists d n,
    IdScraper.wait_for_finish (S K) sleep data = Some (d, n)
    /\ n <= S K
    /\ length d = length data
    /\ (forall m, In m d -> IdScraper.conid m <> 0%Z).
Proof.
  intros Hall Hans.
  assert (Hc : forallb IdScraper.complete
                 (Sched.state_at IdScraper.handle sleep data K) = true).
  { rewrite scraper_state_map, forallb_forall.
    intros m' Hm'. apply in_map_iff in Hm' as (m & <- & Hm).
    apply evolve_run_answered; auto. }
  destruct (wait_for_finish_enough_fuel K sleep data Hc) as [[d n] Hr].
  exists d, n. split; [exact Hr|].
  pose proof (wait_for_finish_returns_complete _ _ _ _ _ Hall Hr) as [-> Hd].
  apply wait_for_finish_first_complete in Hr as (Hn & _).
  split; [lia|]. split; [apply length_map|].
  now apply forallb_complete_true.
Qed.

Lemma wait_for_finish_when_answered_witness :
  (forall k, Forall IdScraper.carries_conid (IdScraper.sample_answers k))
  /\ (forall m,
        In m [IdScraper.new_request IdScraper.sample_template 5 "201903" "40" "P";
              IdScraper.new_request IdScraper.sample_template 6 "201903" "40" "C"] ->
        IdScraper.answered IdScraper.sample_answers 2 (IdScraper.id m))
  /\ exists d n,
       IdScraper.wait_for_finish 3 IdScraper.sample_answers
         [IdScraper.new_request IdScraper.sample_template 5 "201903" "40" "P";
          IdScraper.new_request IdScraper.sample_template 6 "201903" "40" "C"]
       = Some (d, n)
       /\ n <= 3
       /\ length d = 2
       /\ (forall m, In m d -> IdScraper.conid m <> 0%Z).
Proof.
  assert (H1 : forall k, Forall IdScraper.carries_conid (IdScraper.sample_answers k)).
  { intros [|[|k]]; simpl; repeat constructor; discriminate. }
  assert (H2 : forall m,
             In m [IdScraper.new_request IdScraper.sample_template 5 "201903" "40" "P";
                   IdScraper.new_request IdScraper.sample_template 6 "201903" "40" "C"] ->
             IdScraper.answered IdScraper.sample_answers 2 (IdScraper.id m)).
  { intros m [<-|[<-|[]]].
    - exists 0, {| IdScraper.contract :=
                     {| IdScraper.conId := 101;
                        IdScraper.lastTradeDateOrContractMonth := "20190214" |} |}.
      split; [lia|]. split; [now left | discriminate].
    - exists 1, {| IdScraper.contract :=
                     {| IdScraper.conId := 102;
                        IdScraper.lastTradeDateOrContractMonth := "20190214" |} |}.
      split; [lia|]. split; [now left | discriminate]. }
  split; [exact H1|]. split; [exact H2|].
  exact (wait_for_finish_when_answered IdScraper.sample_answers _ 2 H1 H2).
Defined.

(** ** The contract scraper: the export *)

Lemma postprocess_records (month_label : string -> Py.result string)
    (data : list IdScraper.request)
    (labelled : list (IdScraper.request * string)) :
  IdScraper.postprocess month_label data = Py.Ok labelled ->
  map fst labelled = data.
Proof.
  revert labelled. induction data as [|m data IH]; intros labelled; simpl.
  - now intros [= <-].
  - destruct (IdScraper.financial_instrument month_label m) as [text|e];
      simpl; [|discriminate].
    destruct (IdScraper.postprocess month_label data) as [rest|e];
      simpl; [|discriminate].
    intros [= <-]. simpl. now rewrite (IH rest).
Qed.

Lemma written_calls (c : IdScraper.template)
    (l : list (Z * (string * string * string))) :
  IdScraper.written (map (IdScraper.call_of c) l) = [].
Proof. induction l as [|[o [[m j] k]] l IH]; simpl; auto. Qed.

Lemma written_write_dynamo (tbl : string)
    (labelled : list (IdScraper.request * string)) :
  IdScraper.written (IdScraper.write_dynamo tbl labelled)
  = map IdScraper.conid (map fst labelled).
Proof.
  induction labelled as [|[m text] l IH]; simpl; [reflexivity|].
  now rewrite <- IH.
Qed.

Lemma written_app (out1 out2 : list IdScraper.effect) :
  IdScraper.written (out1 ++ out2)
  = IdScraper.written out1 ++ IdScraper.written out2.
Proof. unfold IdScraper.written. apply flat_map_app. Qed.

Lemma written_connect (host : string) (port client_id : Z)
    (out : list IdScraper.effect) :
  IdScraper.written (IdScraper.Connect host port client_id :: out)
  = IdScraper.written out.
Proof. reflexivity. Qed.

(** X4.  When every answer carries a contract id and the script runs to
    its end, it has written one item per request,
    [2 * len(months) * len(strikes)] in all, and none of them with the
    sentinel [conid = 0]. *)
Theorem scraper_exports_no_sentinel
    (month_label : string -> Py.result string) (fuel : nat)
    (sleep : nat -> list IdScraper.callback) (c : IdScraper.template)
    (months strikes : list string) (nextId : Z)
    (out : list IdScraper.effect) :
  (forall k, Forall IdScraper.carries_conid (sleep k)) ->
  IdScraper.main month_label fuel sleep c months strikes nextId
  = Some (Py.Ok out) ->
  length (IdScraper.written out) = 2 * length months * length strikes
  /\ (forall cid, In cid (IdScraper.written out) -> cid <> 0%Z).
Proof.
  intros Hall. unfold IdScraper.main, IdScraper.req_data.
  rewrite (nested_fold_keys (fun m j st k => IdScraper.req_one c m j st k)).
  fold (IdScraper.request_keys months strikes).
  rewrite req_keys_fold. cbn [app].
  set (data := map (IdScraper.record_of c) _).
  destruct (IdScraper.wait_for_finish fuel sleep data) as [[d n]|] eqn:Hw;
    [|discriminate].
  destruct (IdScraper.postprocess month_label d) as [labelled|e] eqn:Hp;
    simpl; [|discriminate].
  intros [= <-].
  rewrite written_connect, !written_app, written_calls, written_write_dynamo.
  rewrite (postprocess_records _ _ _ Hp). simpl. rewrite app_nil_r.
  destruct (wait_for_finish_returns_complete _ _ _ _ _ Hall Hw) as [Hd Hc].
  split.
  - rewrite length_map, Hd, length_map. unfold data.
    now rewrite length_map, number_from_length, request_keys_length.
  - intros cid Hcid. apply in_map_iff in Hcid as (m & <- & Hm).
    now apply (proj1 (forallb_complete_true d) Hc).
Qed.

Lemma scraper_exports_no_sentinel_witness :
  (forall k, Forall IdScraper.carries_conid (IdScraper.sample_answers k))
  /\ IdScraper.main IdScraper.sample_label 3 IdScraper.sample_answers
       IdScraper.sample_template ["201903"]%string ["40"]%string 5
     = Some (Py.Ok
         [ IdScraper.Connect "localhost" 4001 56;
           IdScraper.ReqContractDetails 5 IdScraper.sample_template "201903" "40" "P";
           IdScraper.ReqContractDetails 6 IdScraper.sample_template "201903" "40" "C";
           IdScraper.PutItem "instruments" "CL FOP (LO) Mar'19 40 PUT @NYMEX" 101;
           IdScraper.PutItem "instruments" "CL FOP (LO) Mar'19 40 CALL @NYMEX" 102;
           IdScraper.Disconnect ])
  /\ forall cid, In cid [101; 102]%Z -> cid <> 0%Z.
Proof.
  assert (H1 : forall k, Forall IdScraper.carries_conid (IdScraper.sample_answers k)).
  { intros [|[|k]]; simpl; repeat constructor; discriminate. }
  split; [exact H1|]. split; [reflexivity|].
  exact (proj2 (scraper_exports_no_sentinel IdScraper.sample_label 3
                  IdScraper.sample_answers IdScraper.sample_template
                  ["201903"]%string ["40"]%string 5 _ H1 eq_refl)).
Defined.

(** ** Waiting on a flag *)

Section WaitFacts.

Context {State Callback : Type}.
Variable handle : Callback -> State -> State.
Variable busy : State -> bool.

(** [while busy: sleep] returns after n sleeps exactly when the state
    after n sleeps is the first that is not busy. *)
Lemma wait_while_first_idle (fuel : nat) (sleep : nat -> list Callback)
    (s s' : State) (n : nat) :
  Wait.wait_while handle busy fuel sleep s = Some (s', n) <->
  (n < fuel
   /\ busy (Sched.state_at handle sleep s n) = false
   /\ (forall j, j < n -> busy (Sched.state_at handle sleep s j) = true)
   /\ s' = Sched.state_at handle sleep s n).
Proof.
  revert sleep s s' n.
  induction fuel as [|fuel IH]; intros sleep s s' n; simpl.
  - split; [discriminate | lia].
  - destruct (busy s) eqn:Hb.
    + split.
      * destruct (Wait.wait_while handle busy fuel _ _) as [[r n']|] eqn:Hrec;
          [|discriminate].
        intros [= <- <-].
        apply IH in Hrec as (Hn & Hidle & Hbusy & ->).
        rewrite state_at_shift in *.
        repeat split; try lia; auto.
        intros [|j] Hj; [exact Hb|].
        rewrite <- state_at_shift. apply Hbusy. lia.
      * intros (Hn & Hidle & Hbusy & ->).
        destruct n as [|n]; [simpl in Hidle; congruence|].
        assert (Hrec : Wait.wait_while handle busy fuel (Sched.shift sleep)
                         (Sched.deliver handle (sleep 0) s)
                       = Some (Sched.state_at handle sleep s (S n), n)).
        { apply IH. rewrite state_at_shift.
          repeat split; try lia; auto.
          intros j Hj. rewrite state_at_shift. apply Hbusy. lia. }
        rewrite Hrec. reflexivity.
    + split.
      * intros [= <- <-]. simpl. repeat split; try lia; auto.
      * intros (Hn & Hidle & Hbusy & ->).
        destruct n as [|n]; [reflexivity|].
        specialize (Hbusy 0 ltac:(lia)). simpl in Hbusy. congruence.
Qed.

End WaitFacts.

(** ** The snapshot scraper: the account download *)

Lemma snapshot_deliver_flag (cbs : list Snapshot.callback) (s : Snapshot.snapshot) :
  Snapshot.acct_updates_ongoing (Sched.deliver Snapshot.handle cbs s)
  = Snapshot.acct_updates_ongoing s && negb (Snapshot.download_ends cbs).
Proof.
  unfold Sched.deliver, Snapshot.download_ends. revert s.
  induction cbs as [|cb cbs IH]; intros s; simpl.
  - now rewrite andb_true_r.
  - rewrite IH.
    destruct cb as [r t p | r cd | r t o | c pos avg | ]; simpl;
      try reflexivity.
    + unfold Snapshot.updatePortfolio.
      destruct (String.eqb _ _); reflexivity.
    + now rewrite andb_false_r.
Qed.

Lemma snapshot_flag_at (sleep : nat -> list Snapshot.callback)
    (s : Snapshot.snapshot) (k : nat) :
  Snapshot.acct_updates_ongoing s = true ->
  Snapshot.acct_updates_ongoing (Sched.state_at Snapshot.handle sleep s k) = true
  <-> (forall j, j < k -> Snapshot.download_ends (sleep j) = false).
Proof.
  intros Hs. induction k as [|k IH]; simpl.
  - split; [intros _ j Hj; lia | auto].
  - rewrite snapshot_deliver_flag, andb_true_iff, negb_true_iff, IH.
    split.
    + intros [Hlt Hk] j Hj.
      destruct (decide (j = k)) as [->|Hne]; [exact Hk | apply Hlt; lia].
    + intros H. split; [intros j Hj; apply H; lia | apply H; lia].
Qed.

(** X5.  The wait of [create_instruments] for the account download has no
    time limit: once the flag is raised, it ends after n sleeps exactly
    when the n-th is the first sleep during which [accountDownloadEnd]
    arrives. *)
Theorem wait_account_until_download_end (fuel : nat)
    (sleep : nat -> list Snapshot.callback) (s s' : Snapshot.snapshot)
    (n : nat) :
  Snapshot.wait_account fuel sleep (fst (Snapshot.begin_account_updates s))
  = Some (s', n)
  <-> (0 < n < fuel
       /\ Snapshot.download_ends (sleep (n - 1)) = true
       /\ (forall j, j < n - 1 -> Snapshot.download_ends (sleep j) = false)
       /\ s' = Sched.state_at Snapshot.handle sleep
                 (fst (Snapshot.begin_account_updates s)) n).
Proof.
  unfold Snapshot.wait_account. rewrite wait_while_first_idle.
  set (s0 := fst (Snapshot.begin_account_updates s)).
  assert (H0 : Snapshot.acct_updates_ongoing s0 = true) by reflexivity.
  assert (Hat : forall k,
             Snapshot.acct_updates_ongoing
               (Sched.state_at Snapshot.handle sleep s0 k) = false
             <-> exists j, j < k /\ Snapshot.download_ends (sleep j) = true).
  { intros k. induction k as [|k IH]; simpl.
    - rewrite ?H0. split; [discriminate | intros (j & Hj & _); lia].
    - rewrite snapshot_deliver_flag, andb_false_iff, negb_false_iff, IH.
      split.
      + intros [(j & Hj & He)|He]; [exists j | exists k]; split; auto; lia.
      + intros (j & Hj & He).
        destruct (decide (j = k)) as [->|Hne]; [now right|].
        left. exists j. split; [lia | exact He]. }
  split.
  - intros (Hn & Hidle & Hbusy & ->).
    apply Hat in Hidle as (j & Hj & He).
    assert (Hjn : j = n - 1).
    { destruct (decide (j = n - 1)) as [|Hne]; [assumption|].
      exfalso. specialize (Hbusy (S j) ltac:(lia)).
      assert (Hf : Snapshot.acct_updates_ongoing
                     (Sched.state_at Snapshot.handle sleep s0 (S j)) = false).
      { apply Hat. exists j. split; [lia | exact He]. }
      congruence. }
    subst j. repeat split; try lia; auto.
    intros j Hj'.
    destruct (Snapshot.download_ends (sleep j)) eqn:Hej; [|reflexivity].
    exfalso. specialize (Hbusy (S j) ltac:(lia)).
    assert (Hf : Snapshot.acct_updates_ongoing
                   (Sched.state_at Snapshot.handle sleep s0 (S j)) = false).
    { apply Hat. exists j. split; [lia | exact Hej]. }
    congruence.
  - intros (Hn & He & Hnone & ->).
    repeat split; try lia.
    + apply Hat. exists (n - 1). split; [lia | exact He].
    + intros j Hj. apply snapshot_flag_at; [exact H0|].
      intros i Hi. apply Hnone. lia.
Qed.

(** On the sample run the download ends during the second sleep. *)
Example wait_account_sample :
  snd <$> Snapshot.wait_account 5 Snapshot.sample_account_run
            (fst (Snapshot.begin_account_updates Snapshot.sample_snapshot))
  = Some 2.
Proof. reflexivity. Qed.

(** ** The snapshot scraper: requesting the chain *)











(** ** The snapshot scraper: callbacks *)

Lemma snapshot_wait_step (fuel : nat) (sleep : nat -> list Snapshot.callback)
    (s : Snapshot.snapshot) (c : nat) :
  Snapshot.wait_loop (S fuel) sleep s c
  = if Nat.eqb c (Snapshot.unquoted (Snapshot.chain s))
    then Some (Sched.deliver Snapshot.handle (sleep 0) s, 1)
    else if Nat.eqb (Snapshot.unquoted (Snapshot.chain s)) 0
         then Some (Sched.deliver Snapshot.handle (sleep 0) s, 1)
         else match Snapshot.wait_loop fuel (Sched.shift sleep)
                      (Sched.deliver Snapshot.handle (sleep 0) s)
                      (Snapshot.unquoted (Snapshot.chain s)) with
              | Some (r, n) => Some (r, S n)
              | None => None
              end.
Proof. cbn [Snapshot.wait_loop]. now rewrite scan_unquoted. Qed.

Lemma handle_unquoted_same (cb : Snapshot.callback) (s : Snapshot.snapshot) :
  Snapshot.no_quote cb ->
  Snapshot.unquoted (Snapshot.chain (Snapshot.handle cb s))
  = Snapshot.unquoted (Snapshot.chain s).
Proof.
  assert (Hmap : forall (f : Snapshot.instrument -> Snapshot.instrument)
                        (l : list Snapshot.instrument),
             (forall i, Snapshot.Ask (f i) = Snapshot.Ask i
                        /\ Snapshot.Bid (f i) = Snapshot.Bid i) ->
             Snapshot.unquoted (map f l) = Snapshot.unquoted l).
  { intros f l Hf. unfold Snapshot.unquoted.
    induction l as [|i l IH]; [reflexivity|].
    simpl. destruct (Hf i) as [-> ->].
    destruct (Py.isnan (Snapshot.Ask i) && Py.isnan (Snapshot.Bid i));
      simpl; now rewrite IH. }
  destruct cb as [r t p | r cd | r t o | c pos avg | ]; simpl; intros Hcb.
  - destruct Hcb.
  - apply Hmap. intros i. destruct (r =? Snapshot.id i)%Z; split; reflexivity.
  - apply Hmap. intros i.
    destruct (Snapshot.id i =? r)%Z; [|split; reflexivity].
    destruct (Snapshot.und_price o); destruct (t =? 13)%Z; split; reflexivity.
  - unfold Snapshot.updatePortfolio. destruct (String.eqb _ _); reflexivity.
  - reflexivity.
Qed.

Lemma deliver_unquoted_same (cbs : list Snapshot.callback)
    (s : Snapshot.snapshot) :
  Forall Snapshot.no_quote cbs ->
  Snapshot.unquoted (Snapshot.chain (Sched.deliver Snapshot.handle cbs s))
  = Snapshot.unquoted (Snapshot.chain s).
Proof.
  intros Hcbs.
  apply (deliver_preserves Snapshot.handle
           (fun s' => Snapshot.unquoted (Snapshot.chain s')
                      = Snapshot.unquoted (Snapshot.chain s))
           Snapshot.no_quote); auto.
  intros cb s0 Hcb Hs0. now rewrite handle_unquoted_same.
Qed.

(** X7.  [Snapshot.wait_to_finish] only watches the quotes.  When the
    first sleep brings no price tick, whatever else arrives, the wait
    ends with the second poll (with the first, when no record is missing);
    when nothing arrives at all it hands the object back as it was. *)
Theorem wait_to_finish_without_quotes :
  (forall (fuel : nat) (sleep : nat -> list Snapshot.callback)
          (s : Snapshot.snapshot),
     Forall Snapshot.no_quote (sleep 0) ->
     let n := if Nat.eqb (Snapshot.unquoted (Snapshot.chain s)) 0 then 1 else 2 in
     Snapshot.wait_to_finish (S (S fuel)) sleep s
     = Some (Sched.state_at Snapshot.handle sleep s n, n))
  /\ (forall (fuel : nat) (s : Snapshot.snapshot),
        Snapshot.wait_to_finish (S (S fuel)) Snapshot.silence s
        = Some (s, if Nat.eqb (Snapshot.unquoted (Snapshot.chain s)) 0
                   then 1 else 2)).
Proof.
  assert (H : forall (fuel : nat) (sleep : nat -> list Snapshot.callback)
                     (s : Snapshot.snapshot),
             Forall Snapshot.no_quote (sleep 0) ->
             Snapshot.wait_to_finish (S (S fuel)) sleep s
             = Some (Sched.state_at Snapshot.handle sleep s
                       (if Nat.eqb (Snapshot.unquoted (Snapshot.chain s)) 0
                        then 1 else 2),
                     if Nat.eqb (Snapshot.unquoted (Snapshot.chain s)) 0
                     then 1 else 2)).
  { intros fuel sleep s Hq.
    unfold Snapshot.wait_to_finish. rewrite snapshot_wait_step.
    destruct (Nat.eqb_spec 0 (Snapshot.unquoted (Snapshot.chain s))) as [<-|Hne];
      [reflexivity|].
    destruct (Nat.eqb_spec (Snapshot.unquoted (Snapshot.chain s)) 0) as [Hz|_];
      [lia|].
    rewrite snapshot_wait_step, (deliver_unquoted_same _ _ Hq), Nat.eqb_refl.
    reflexivity. }
  split; [exact H|].
  intros fuel s. rewrite H by constructor.
  destruct (Nat.eqb _ 0); reflexivity.
Qed.

Lemma wait_to_finish_without_quotes_witness :
  Forall Snapshot.no_quote (Snapshot.greeks_only_run 0)
  /\ snd <$> Snapshot.wait_to_finish 2 Snapshot.greeks_only_run
               Snapshot.sample_snapshot
     = Some 2.
Proof.
  assert (H : Forall Snapshot.no_quote (Snapshot.greeks_only_run 0))
    by (repeat constructor).
  split; [exact H|].
  now rewrite (proj1 wait_to_finish_without_quotes 0 Snapshot.greeks_only_run
                 Snapshot.sample_snapshot H).
Defined.

Lemma snapshot_handle_descriptor (cb : Snapshot.callback) (s : Snapshot.snapshot) :
  map Snapshot.descriptor (Snapshot.chain (Snapshot.handle cb s))
  = map Snapshot.descriptor (Snapshot.chain s)
  /\ Snapshot.config (Snapshot.handle cb s) = Snapshot.config s
  /\ Snapshot.cont (Snapshot.handle cb s) = Snapshot.cont s.
Proof.
  destruct cb as [r t p | r cd | r t o | c pos avg | ]; simpl.
  - split; [|split; reflexivity].
    unfold Snapshot.tickPrice. rewrite map_map. apply map_ext. intros i.
    destruct (Snapshot.id i =? r)%Z; [|reflexivity].
    destruct (t =? 1)%Z; [reflexivity|].
    destruct (t =? 2)%Z; reflexivity.
  - split; [|split; reflexivity].
    unfold Snapshot.contractDetails. rewrite map_map. apply map_ext. intros i.
    destruct (r =? Snapshot.id i)%Z; reflexivity.
  - split; [|split; reflexivity].
    unfold Snapshot.tickOptionComputation. rewrite map_map.
    apply map_ext. intros i.
    destruct (Snapshot.id i =? r)%Z; [|reflexivity].
    destruct (Snapshot.und_price o); destruct (t =? 13)%Z; reflexivity.
  - unfold Snapshot.updatePortfolio.
    destruct (String.eqb _ _); repeat split; reflexivity.
  - repeat split; reflexivity.
Qed.

(** X8.  No callback of a run adds, drops, reorders or renumbers the
    records of the chain, or touches the configuration and the contract
    template: at every poll the chain has the descriptors
    [create_instruments] gave it.  A market data callback for a request
    number that no record carries changes nothing at all. *)
Theorem callbacks_keep_chain :
  (forall (sleep : nat -> list Snapshot.callback) (s : Snapshot.snapshot)
          (k : nat),
     map Snapshot.descriptor
         (Snapshot.chain (Sched.state_at Snapshot.handle sleep s k))
     = map Snapshot.descriptor (Snapshot.chain s)
     /\ Snapshot.config (Sched.state_at Snapshot.handle sleep s k)
        = Snapshot.config s
     /\ Snapshot.cont (Sched.state_at Snapshot.handle sleep s k)
        = Snapshot.cont s)
  /\ (forall (cb : Snapshot.callback) (r : Z) (s : Snapshot.snapshot),
        Snapshot.answers cb = Some r ->
        ~ In r (map Snapshot.id (Snapshot.chain s)) ->
        Snapshot.handle cb s = s).
Proof.
  split.
  - intros sleep s k. induction k as [|k IH]; [repeat split; reflexivity|].
    simpl. revert IH.
    generalize (Sched.state_at Snapshot.handle sleep s k) as s1.
    unfold Sched.deliver. induction (sleep k) as [|cb cbs IHc]; intros s1 IH;
      [exact IH|].
    simpl. apply IHc.
    destruct (snapshot_handle_descriptor cb s1) as (H1 & H2 & H3).
    destruct IH as (I1 & I2 & I3).
    repeat split; congruence.
  - intros cb r [cfg ct ch acc flag] Hcb Hr.
    assert (Hmap : forall (f : Snapshot.instrument -> Snapshot.instrument),
               (forall i, Snapshot.id i <> r -> f i = i) ->
               map f ch = ch).
    { intros f Hf. simpl in Hr. clear Hcb.
      induction ch as [|i ch IH]; [reflexivity|].
      simpl in *. rewrite IH by tauto. rewrite Hf; [reflexivity|].
      intros Heq. apply Hr. now left. }
    destruct cb as [r' t p | r' cd | r' t o | c pos avg | ]; simpl in Hcb;
      try discriminate; injection Hcb as ->; simpl;
      unfold Snapshot.set_chain; simpl; f_equal.
    + unfold Snapshot.tickPrice. apply Hmap. intros i Hi.
      destruct (Z.eqb_spec (Snapshot.id i) r); [contradiction | reflexivity].
    + unfold Snapshot.contractDetails. apply Hmap. intros i Hi.
      destruct (Z.eqb_spec r (Snapshot.id i)); [congruence | reflexivity].
    + unfold Snapshot.tickOptionComputation. apply Hmap. intros i Hi.
      destruct (Z.eqb_spec (Snapshot.id i) r); [contradiction | reflexivity].
Qed.

Lemma callbacks_keep_chain_witness :
  Snapshot.answers (Snapshot.TickPrice 9 1 (Py.of_Z 11)) = Some 9%Z
  /\ ~ In 9%Z (map Snapshot.id (Snapshot.chain Snapshot.sample_snapshot))
  /\ Snapshot.handle (Snapshot.TickPrice 9 1 (Py.of_Z 11)) Snapshot.sample_snapshot
     = Snapshot.sample_snapshot.
Proof.
  assert (H : ~ In 9%Z (map Snapshot.id (Snapshot.chain Snapshot.sample_snapshot))).
  { simpl. intros [H|[H|[]]]; discriminate. }
  split; [reflexivity|]. split; [exact H|].
  exact (proj2 callbacks_keep_chain (Snapshot.TickPrice 9 1 (Py.of_Z 11)) 9%Z
           Snapshot.sample_snapshot eq_refl H).
Defined.

(** X9.  A bid or ask tick that carries a price fills every record of its
    request: after it no record with that number counts as missing, and
    the count of missing records has not grown.  A price tick of any other
    type leaves the chain as it was. *)
Theorem tick_price_fills :
  (forall (r t : Z) (p : Py.float) (chain : list Snapshot.instrument),
     (t = 1 \/ t = 2)%Z ->
     Py.isnan p = false ->
     (forall i, In i (Snapshot.tickPrice r t p chain) ->
                Snapshot.id i = r -> Snapshot.missing i = false)
     /\ Snapshot.unquoted (Snapshot.tickPrice r t p chain)
        <= Snapshot.unquoted chain)
  /\ (forall (r t : Z) (p : Py.float) (chain : list Snapshot.instrument),
        t <> 1%Z -> t <> 2%Z ->
        Snapshot.tickPrice r t p chain = chain).
Proof.
  split.
  - intros r t p chain Ht Hp. split.
    + intros i' Hin Hid. unfold Snapshot.tickPrice in Hin.
      apply in_map_iff in Hin as (i & <- & _).
      rewrite missing_quotes.
      destruct (Z.eqb_spec (Snapshot.id i) r) as [_|Hne].
      * destruct Ht as [->| ->]; simpl; rewrite Hp;
          [apply andb_false_r | reflexivity].
      * contradiction.
    + change (Snapshot.tickPrice r t p chain)
        with (Snapshot.chain
                (Snapshot.handle (Snapshot.TickPrice r t p)
                   (Snapshot.set_chain Snapshot.sample_snapshot chain))).
      apply (handle_unquoted_le (Snapshot.TickPrice r t p)
               (Snapshot.set_chain Snapshot.sample_snapshot chain)).
      exact Hp.
  - intros r t p chain H1 H2. unfold Snapshot.tickPrice.
    induction chain as [|i chain IH]; [reflexivity|].
    simpl. rewrite IH.
    destruct (Snapshot.id i =? r)%Z; [|reflexivity].
    destruct (Z.eqb_spec t 1); [contradiction|].
    destruct (Z.eqb_spec t 2); [contradiction|]. reflexivity.
Qed.

Lemma tick_price_fills_witness :
  (1 = 1 \/ 1 = 2)%Z
  /\ Py.isnan (Py.of_Z 11) = false
  /\ Snapshot.unquoted (Snapshot.tickPrice 2 1 (Py.of_Z 11) Snapshot.sample_chain)
     <= Snapshot.unquoted Snapshot.sample_chain
  /\ Snapshot.unquoted (Snapshot.tickPrice 2 1 (Py.of_Z 11) Snapshot.sample_chain) = 1.
Proof.
  split; [now left|]. split; [reflexivity|].
  split; [|reflexivity].
  exact (proj2 (proj1 tick_price_fills 2%Z 1%Z (Py.of_Z 11) Snapshot.sample_chain
                  (or_introl eq_refl) eq_refl)).
Defined.

(** ** The two tools name an option alike *)

(** X10.  The contract scraper and the snapshot scraper build the text
    that names an option in the same way: for the same symbol, security
    type, trading class, exchange and month, a strike that [{:g}] prints
    as the scraper's strike text, and the same side, the key the scraper
    writes to the instrument table is the ["Financial Instrument"] of the
    snapshot's chain record (and both fail together when the month has no
    label). *)
Theorem instrument_keys_agree (month_label : string -> Py.result string)
    (format_g : Py.float -> string) (r : IdScraper.request)
    (c : Snapshot.Contract) (i : Py.float) (j : string) :
  IdScraper.symbol r = Snapshot.symbol c ->
  IdScraper.sectype r = Snapshot.secType c ->
  IdScraper.class r = Snapshot.tradingClass c ->
  IdScraper.exchange r = Snapshot.exchange c ->
  IdScraper.strike r = format_g i ->
  In j ["c"; "p"]%string ->
  IdScraper.side r = Snapshot.upper j ->
  IdScraper.financial_instrument month_label r
  = Snapshot.financial_instrument month_label format_g c (IdScraper.expiry r) i j.
Proof.
  intros Hsym Hsec Hcls Hex Hstrike Hj Hside.
  unfold IdScraper.financial_instrument, Snapshot.financial_instrument.
  rewrite Hsym, Hsec, Hcls, Hex, Hstrike, Hside.
  destruct Hj as [<-|[<-|[]]]; reflexivity.
Qed.

Lemma instrument_keys_agree_witness :
  In "c"%string ["c"; "p"]%string
  /\ IdScraper.financial_instrument Snapshot.sample_label
       (IdScraper.new_request IdScraper.sample_template 5 "201903" "40" "C")
     = Py.Ok "CL FOP (LO) Mar'19 40 CALL @NYMEX"%string
  /\ Snapshot.financial_instrument Snapshot.sample_label Snapshot.sample_format_g
       (Snapshot.cont Snapshot.sample_snapshot) "201903" (Py.of_Z 40) "c"
     = Py.Ok "CL FOP (LO) Mar'19 40 CALL @NYMEX"%string.
Proof.
  split; [now left|]. split; [reflexivity|].
  exact (eq_trans
           (eq_sym
              (instrument_keys_agree Snapshot.sample_label Snapshot.sample_format_g
                 (IdScraper.new_request IdScraper.sample_template 5 "201903" "40" "C")
                 (Snapshot.cont Snapshot.sample_snapshot) (Py.of_Z 40) "c"
                 eq_refl eq_refl eq_refl eq_refl eq_refl (or_introl eq_refl)
                 eq_refl))
           eq_refl).
Defined.

(** ** The snapshot scraper: the multiplier *)

(** X11.  With an empty account [prepare_df] returns the frame as the
    lookup of the contract ids gave it, whatever the multiplier; with a
    multiplier of zero and any position in the account it raises
    [ZeroDivisionError], whether or not a row of the frame matches. *)
Theorem prepare_df_zero_multiplier
    (days_left : string -> Py.result Z)
    (lookup_contract_id : list Snapshot.row -> string -> Py.result (list Snapshot.row))
    (s : Snapshot.snapshot) (df : list Snapshot.row) :
  Snapshot.prepare_frame days_left lookup_contract_id s = Py.Ok df ->
  (Snapshot.account s = ∅ ->
   Snapshot.prepare_df days_left lookup_contract_id s = Py.Ok df)
  /\ (Snapshot.account s <> ∅ ->
      Py.is_zero (Snapshot.cfg_mult (Snapshot.config s)) = true ->
      Snapshot.prepare_df days_left lookup_contract_id s
      = Py.Raise Py.ZeroDivisionError).
Proof.
  intros Hframe. unfold Snapshot.prepare_df. rewrite Hframe. cbn [Py.bind].
  split.
  - intros ->. now rewrite map_to_list_empty.
  - intros Hne Hz.
    destruct (map_to_list (Snapshot.account s)) as [|[k v] items] eqn:Hitems.
    + exfalso. apply Hne. now apply map_to_list_empty_iff.
    + cbn [Snapshot.update_positions]. unfold Py.truediv. now rewrite Hz.
Qed.

Lemma prepare_df_zero_multiplier_witness :
  Snapshot.account Snapshot.sample_export_no_mult <> ∅
  /\ Py.is_zero (Snapshot.cfg_mult (Snapshot.config Snapshot.sample_export_no_mult))
     = true
  /\ Snapshot.prepare_df Snapshot.sample_days_left Snapshot.sample_lookup
       Snapshot.sample_export_no_mult
     = Py.Raise Py.ZeroDivisionError.
Proof.
  assert (H : Snapshot.account Snapshot.sample_export_no_mult <> ∅).
  { intros H. apply (f_equal (fun m => m !! 77%Z)) in H.
    vm_compute in H. discriminate. }
  split; [exact H|]. split; [reflexivity|].
  destruct (Snapshot.prepare_frame Snapshot.sample_days_left Snapshot.sample_lookup
              Snapshot.sample_export_no_mult) as [df|e] eqn:Hframe.
  - exact (proj2 (prepare_df_zero_multiplier _ _ _ df Hframe) H eq_refl).
  - vm_compute in Hframe. discriminate.
Defined.

(** ** The news trader: identifiers *)

(** X12.  Once [prepare_orders] has run with a last price that is not
    [<= 0], no two of the six orders share an identifier. *)
Theorem prepared_ids_distinct (w : News.TwsWrapper) :
  Py.fleb (News.last_price w) (Py.of_Z 0) = false ->
  NoDup (map News.orderId (News.get_orders (News.prepare_orders w))).
Proof.
  intros Hprice. unfold News.prepare_orders. rewrite Hprice.
  cbn -[Py.str_of_Z Z.add].
  set (o := News.nextValidOrderId w).
  change [Py.PyStr (Py.str_of_Z o); Py.PyStr (Py.str_of_Z (o + 1));
          Py.PyStr (Py.str_of_Z (o + 2)); Py.PyStr (Py.str_of_Z (o + 3));
          Py.PyStr (Py.str_of_Z (o + 4)); Py.PyStr (Py.str_of_Z (o + 5))]
    with (map (fun z => Py.PyStr (Py.str_of_Z z))
              [o; o + 1; o + 2; o + 3; o + 4; o + 5]%Z).
  apply NoDup_fmap_2.
  - intros a b [= H]. now apply str_of_Z_inj.
  - repeat (apply NoDup_cons; split;
            [rewrite ?elem_of_cons, elem_of_nil; lia|]).
    apply NoDup_nil_2.
Qed.

Lemma prepared_ids_distinct_witness :
  Py.fleb (News.last_price News.sample_ready) (Py.of_Z 0) = false
  /\ NoDup (map News.orderId
              (News.get_orders (News.prepare_orders News.sample_ready))).
Proof.
  split; [reflexivity|].
  apply (prepared_ids_distinct News.sample_ready). reflexivity.
Defined.

Lemma order_status_no_match (order_id : Py.id_val) (w : News.TwsWrapper) :
  News.is_entry order_id w = false ->
  News.is_exit order_id w = false ->
  News.orderStatus order_id w = w.
Proof.
  unfold News.is_entry, News.is_exit, News.orderStatus.
  intros -> Hexit.
  apply orb_false_iff in Hexit as [Hexit Hst].
  apply orb_false_iff in Hexit as [Hexit Hstr].
  rewrite Hexit, Hstr, Hst. reflexivity.
Qed.

(** X13.  [prepare_orders] keeps the identifiers as text, and the status
    of an order arrives with its identifier as a number: once the orders
    are prepared, and all through the set-up of [trade], an order status
    with a numeric identifier matches no order and changes nothing; the
    trader that [trade] has set up stays [HOT]. *)
Theorem numeric_order_status_ignored (w : News.TwsWrapper) (z : Z) :
  Py.fleb (News.last_price w) (Py.of_Z 0) = false ->
  News.orderStatus (Py.PyInt z) (News.prepare_orders w) = News.prepare_orders w
  /\ News.orderStatus (Py.PyInt z) (fst (News.trade_setup w))
     = fst (News.trade_setup w)
  /\ News.status (News.orderStatus (Py.PyInt z) (fst (News.trade_setup w)))
     = News.HOT.
Proof.
  intros Hprice.
  assert (H1 : News.orderStatus (Py.PyInt z) (News.prepare_orders w)
               = News.prepare_orders w).
  { apply order_status_no_match;
      unfold News.is_entry, News.is_exit, News.prepare_orders;
      rewrite Hprice; reflexivity. }
  assert (H2 : News.orderStatus (Py.PyInt z) (fst (News.trade_setup w))
               = fst (News.trade_setup w)).
  { apply order_status_no_match;
      unfold News.is_entry, News.is_exit, News.trade_setup, News.prepare_orders;
      rewrite Hprice; reflexivity. }
  split; [exact H1|]. split; [exact H2|]. now rewrite H2.
Qed.

Lemma numeric_order_status_ignored_witness :
  Py.fleb (News.last_price News.sample_ready) (Py.of_Z 0) = false
  /\ News.status (News.orderStatus (Py.PyInt 7) (fst (News.trade_setup News.sample_ready)))
     = News.HOT.
Proof.
  split; [reflexivity|].
  exact (proj2 (proj2 (numeric_order_status_ignored News.sample_ready 7 eq_refl))).
Defined.

(** X14.  Without a positive last price [trade] still places the six
    orders, under the identifiers they already had: for a trader fresh
    from its constructor, whatever identifier the API has announced, all
    six go out as order 0. *)
Theorem trade_without_price :
  (forall w,
     Py.fleb (News.last_price w) (Py.of_Z 0) = true ->
     map News.placed_id (snd (News.trade_setup w))
     = map News.orderId (News.get_orders w)
     /\ News.status (fst (News.trade_setup w)) = News.HOT)
  /\ (forall o : Z,
        map News.placed_id (snd (News.trade_setup (News.nextValidId o News.init)))
        = repeat (Py.PyInt 0) 6).
Proof.
  split.
  - intros w Hprice. unfold News.trade_setup, News.prepare_orders.
    rewrite Hprice. split; reflexivity.
  - intros o. reflexivity.
Qed.

Lemma trade_without_price_witness :
  Py.fleb (News.last_price (News.nextValidId 7 News.init)) (Py.of_Z 0) = true
  /\ map News.placed_id (snd (News.trade_setup (News.nextValidId 7 News.init)))
     = map News.orderId (News.get_orders (News.nextValidId 7 News.init)).
Proof.
  split; [reflexivity|].
  exact (proj1 (proj1 trade_without_price (News.nextValidId 7 News.init) eq_refl)).
Defined.

(** ** The news trader: prices *)

(** X15.  Setting the identifiers and setting the prices do not
    interfere: [wrapper_price_update] leaves identifiers, parents, groups,
    status, last price and next identifier alone, [prepare_orders] leaves
    every price alone, and the two can be done in either order. *)
Theorem prepare_and_price_commute (p : Py.float) (w : News.TwsWrapper) :
  News.prepare_orders (News.wrapper_price_update p w)
  = News.wrapper_price_update p (News.prepare_orders w)
  /\ map News.labels (News.get_orders (News.wrapper_price_update p w))
     = map News.labels (News.get_orders w)
  /\ (News.status (News.wrapper_price_update p w),
      News.last_price (News.wrapper_price_update p w),
      News.nextValidOrderId (News.wrapper_price_update p w))
     = (News.status w, News.last_price w, News.nextValidOrderId w)
  /\ News.set_price (News.wrapper_price_update p w) = p
  /\ map News.prices (News.get_orders (News.prepare_orders w))
     = map News.prices (News.get_orders w).
Proof.
  split; [|split; [|split; [|split]]]; try reflexivity.
  - unfold News.prepare_orders. cbn [News.wrapper_price_update News.last_price
      News.with_set_price News.with_orders].
    destruct (Py.fleb (News.last_price w) (Py.of_Z 0)); reflexivity.
  - unfold News.prepare_orders.
    destruct (Py.fleb (News.last_price w) (Py.of_Z 0)); reflexivity.
Qed.

Lemma fsub_diag (x : Py.float) :
  Py.fsub x x = S754_nan \/ Py.fsub x x = S754_zero false.
Proof.
  destruct x as [s|s| |s m e]; simpl.
  - right. destruct s; reflexivity.
  - left. destruct s; reflexivity.
  - now left.
  - right. unfold Py.fsub, SFsub. rewrite Z.sub_diag. reflexivity.
Qed.

Lemma no_gap_after_update (d x : Py.float) :
  SFltb d (Py.of_Z 0) = false ->
  SFltb d (Py.fabs (Py.fsub x x)) = false.
Proof.
  intros Hd. destruct (fsub_diag x) as [-> | ->].
  - destruct d; reflexivity.
  - exact Hd.
Qed.

(** X16.  The adjustment loop does not repeat itself: when the
    adjustment threshold is not negative, a turn of [update_loop] that
    follows another with no tick in between sends nothing and changes
    nothing. *)
Theorem update_step_settles (w : News.TwsWrapper) :
  SFltb (News.delta_adjust w) (Py.of_Z 0) = false ->
  News.update_step (fst (News.update_step w))
  = (fst (News.update_step w), []).
Proof.
  intros Hd. unfold News.update_step at 2 3.
  destruct (News.needs_adjustment w) eqn:Hw.
  - unfold News.update_step, News.needs_adjustment. simpl.
    now rewrite (no_gap_after_update _ _ Hd).
  - simpl. unfold News.update_step. now rewrite Hw.
Qed.

Lemma update_step_settles_witness :
  SFltb (News.delta_adjust News.sample_hot) (Py.of_Z 0) = false
  /\ length (snd (News.update_step News.sample_hot)) = 6
  /\ News.update_step (fst (News.update_step News.sample_hot))
     = (fst (News.update_step News.sample_hot), []).
Proof.
  split; [reflexivity|]. split; [reflexivity|].
  apply (update_step_settles News.sample_hot). reflexivity.
Defined.

(** ** The portfolio tool *)

Lemma portfolio_deliver (cbs : list Portfolio.callback) (p : Portfolio.portfolio_tool) :
  Sched.deliver Portfolio.handle cbs p
  = {| Portfolio.haveData := Portfolio.haveData p || Portfolio.ends cbs;
       Portfolio.acct := Portfolio.acct p;
       Portfolio.portfolio :=
         Portfolio.portfolio p
         ++ map Portfolio.new_entry (Portfolio.updates cbs);
       Portfolio.value := Portfolio.value p |}.
Proof.
  unfold Sched.deliver, Portfolio.ends, Portfolio.updates. revert p.
  induction cbs as [|cb cbs IH]; intros [h a l v]; simpl.
  - now rewrite orb_false_r, app_nil_r.
  - rewrite IH. destruct cb; simpl; try reflexivity.
    + now rewrite <- app_assoc.
    + now rewrite orb_true_r.
    + now rewrite orb_true_r.
Qed.

Lemma portfolio_updates_app (l1 l2 : list Portfolio.callback) :
  Portfolio.updates (l1 ++ l2) = Portfolio.updates l1 ++ Portfolio.updates l2.
Proof. unfold Portfolio.updates. apply flat_map_app. Qed.

Lemma portfolio_state_at (sleep : nat -> list Portfolio.callback)
    (p : Portfolio.portfolio_tool) (k : nat) :
  Portfolio.haveData p = false ->
  Sched.state_at Portfolio.handle sleep p k
  = {| Portfolio.haveData := Portfolio.ends (Portfolio.arrived sleep k);
       Portfolio.acct := Portfolio.acct p;
       Portfolio.portfolio :=
         Portfolio.portfolio p
         ++ map Portfolio.new_entry (Portfolio.updates (Portfolio.arrived sleep k));
       Portfolio.value := Portfolio.value p |}.
Proof.
  intros Hp. induction k as [|k IH]; simpl.
  - destruct p as [h a l v]. simpl in *. subst h. now rewrite app_nil_r.
  - rewrite IH, portfolio_deliver. simpl.
    unfold Portfolio.ends at 3. rewrite existsb_app.
    now rewrite portfolio_updates_app, map_app, app_assoc.
Qed.

Lemma portfolio_ends_arrived (sleep : nat -> list Portfolio.callback) (k : nat) :
  Portfolio.ends (Portfolio.arrived sleep k) = true
  <-> exists j, j < k /\ Portfolio.ends (sleep j) = true.
Proof.
  induction k as [|k IH]; simpl.
  - split; [discriminate | intros (j & Hj & _); lia].
  - unfold Portfolio.ends at 1. rewrite existsb_app, orb_true_iff.
    fold (Portfolio.ends (Portfolio.arrived sleep k)).
    fold (Portfolio.ends (sleep k)). rewrite IH. split.
    + intros [(j & Hj & He)|He]; [exists j | exists k]; split; auto; lia.
    + intros (j & Hj & He).
      destruct (decide (j = k)) as [->|Hne]; [now right|].
      left. exists j. split; [lia | exact He].
Qed.

Lemma portfolio_wait (fuel : nat) (sleep : nat -> list Portfolio.callback)
    (p p' : Portfolio.portfolio_tool) (n : nat) :
  Wait.wait_while Portfolio.handle (fun p => negb (Portfolio.haveData p))
    fuel sleep (Portfolio.set_haveData p false) = Some (p', n)
  <-> (0 < n < fuel
       /\ Portfolio.ends (sleep (n - 1)) = true
       /\ (forall j, j < n - 1 -> Portfolio.ends (sleep j) = false)
       /\ p' = {| Portfolio.haveData := true;
                  Portfolio.acct := Portfolio.acct p;
                  Portfolio.portfolio :=
                    Portfolio.portfolio p
                    ++ map Portfolio.new_entry
                         (Portfolio.updates (Portfolio.arrived sleep n));
                  Portfolio.value := Portfolio.value p |}).
Proof.
  rewrite wait_while_first_idle.
  assert (Hat : forall k,
             Sched.state_at Portfolio.handle sleep (Portfolio.set_haveData p false) k
             = {| Portfolio.haveData := Portfolio.ends (Portfolio.arrived sleep k);
                  Portfolio.acct := Portfolio.acct p;
                  Portfolio.portfolio :=
                    Portfolio.portfolio p
                    ++ map Portfolio.new_entry
                         (Portfolio.updates (Portfolio.arrived sleep k));
                  Portfolio.value := Portfolio.value p |}).
  { intros k. now rewrite portfolio_state_at. }
  split.
  - intros (Hn & Hidle & Hbusy & ->).
    rewrite Hat in Hidle. simpl in Hidle. apply negb_false_iff in Hidle.
    pose proof Hidle as Hsome.
    apply portfolio_ends_arrived in Hsome as (j & Hj & He).
    assert (Hnone : forall i, i < n - 1 -> Portfolio.ends (sleep i) = false).
    { intros i Hi.
      destruct (Portfolio.ends (sleep i)) eqn:Hei; [|reflexivity].
      exfalso. specialize (Hbusy (S i) ltac:(lia)).
      rewrite Hat in Hbusy. simpl in Hbusy. apply negb_true_iff in Hbusy.
      assert (Ht : Portfolio.ends (Portfolio.arrived sleep (S i)) = true).
      { apply portfolio_ends_arrived. exists i. split; [lia | exact Hei]. }
      simpl in Ht. congruence. }
    assert (Hjn : j = n - 1).
    { destruct (decide (j = n - 1)) as [|Hne]; [assumption|].
      rewrite (Hnone j) in He by lia. discriminate. }
    subst j. repeat split; try lia; auto.
    rewrite Hat, Hidle. reflexivity.
  - intros (Hn & He & Hnone & ->).
    assert (Hend : Portfolio.ends (Portfolio.arrived sleep n) = true).
    { apply portfolio_ends_arrived. exists (n - 1). split; [lia | exact He]. }
    repeat split; try lia.
    + rewrite Hat. simpl. now rewrite Hend.
    + intros j Hj. rewrite Hat. simpl. apply negb_true_iff.
      destruct (Portfolio.ends (Portfolio.arrived sleep j)) eqn:Hej;
        [|reflexivity].
      apply portfolio_ends_arrived in Hej as (i & Hi & Hei).
      rewrite Hnone in Hei by lia. discriminate.
    + rewrite Hat, Hend. reflexivity.
Qed.

(** X17.  [Portfolio.get_account_details] and
    [Portfolio.get_account_summary] wait without a time limit: each
    returns exactly when some sleep brings [accountDownloadEnd] or
    [accountSummaryEnd], after the first such sleep.  On return the flag
    is set and the portfolio has grown by one entry for every
    [updatePortfolio] callback that arrived, in order of arrival, a
    contract that was reported twice being there twice. *)
Theorem account_wait_until_end (all_tags : string) (nextId : Z) (fuel : nat)
    (sleep : nat -> list Portfolio.callback)
    (p p' : Portfolio.portfolio_tool) (out : list Portfolio.request) :
  (Portfolio.get_account_details fuel sleep p = Some (p', out)
   <-> exists n,
         n < fuel /\ Portfolio.first_end sleep n
         /\ p' = Portfolio.after_wait sleep p n
         /\ out = [Portfolio.Connect "localhost" 4001 32;
                   Portfolio.ReqAccountUpdates true (Portfolio.acct p);
                   Portfolio.ReqAccountUpdates false (Portfolio.acct p);
                   Portfolio.Disconnect])
  /\ (Portfolio.get_account_summary all_tags nextId fuel sleep p = Some (p', out)
      <-> exists n,
            n < fuel /\ Portfolio.first_end sleep n
            /\ p' = Portfolio.after_wait sleep p n
            /\ out = [Portfolio.Connect "localhost" 4001 32;
                      Portfolio.ReqAccountSummary nextId "All" all_tags;
                      Portfolio.Disconnect]).
Proof.
  unfold Portfolio.get_account_details, Portfolio.get_account_summary,
    Portfolio.first_end, Portfolio.after_wait.
  split; split.
  - destruct (Wait.wait_while _ _ fuel sleep _) as [[q n]|] eqn:Hw;
      [|discriminate].
    intros [= <- <-]. exists n.
    apply portfolio_wait in Hw as (Hn & He & Hnone & ->).
    repeat split; auto; lia.
  - intros (n & Hn & (Hpos & He & Hnone) & -> & ->).
    erewrite (proj2 (portfolio_wait fuel sleep p _ n)); [reflexivity|].
    repeat split; auto.
  - destruct (Wait.wait_while _ _ fuel sleep _) as [[q n]|] eqn:Hw;
      [|discriminate].
    intros [= <- <-]. exists n.
    apply portfolio_wait in Hw as (Hn & He & Hnone & ->).
    repeat split; auto; lia.
  - intros (n & Hn & (Hpos & He & Hnone) & -> & ->).
    erewrite (proj2 (portfolio_wait fuel sleep p _ n)); [reflexivity|].
    repeat split; auto.
Qed.

(** On the sample run the end of the download comes in the second sleep,
    and the contract that was reported in both sleeps is held twice. *)
Example get_account_details_sample :
  (fun r => map Portfolio.cont (Portfolio.portfolio (fst r)))
    <$> Portfolio.get_account_details 5 Portfolio.sample_run (Portfolio.init "DU000000")
  = Some [ {| Portfolio.symbol := "CL"; Portfolio.conId := 77 |};
           {| Portfolio.symbol := "CL"; Portfolio.conId := 77 |} ].
Proof. reflexivity. Qed.

Lemma tick_entries_without_id (req_id : Z) (g : Portfolio.greeks)
    (l : list Portfolio.entry) :
  Forall (fun e => Portfolio.id e = None) l ->
  Portfolio.tick_entries req_id g l
  = (l, match l with [] => None | _ :: _ => Some (Py.KeyError "id") end).
Proof.
  intros Hl. destruct Hl as [|e l He _]; [reflexivity|].
  simpl. now rewrite He.
Qed.

(** X18.  Nothing in the tool gives a portfolio entry its ["id"]: on a
    portfolio built by the account callbacks, [tickOptionComputation]
    stores no greeks.  It does nothing when the portfolio is empty and
    raises [KeyError] on the first entry otherwise, leaving the portfolio
    as it was. *)
Theorem tick_option_without_ids (acct : string)
    (cbs : list Portfolio.callback) (req_id : Z) (g : Portfolio.greeks) :
  let p := Sched.deliver Portfolio.handle cbs (Portfolio.init acct) in
  Portfolio.tickOptionComputation req_id g p
  = (p, match Portfolio.updates cbs with
        | [] => None
        | _ :: _ => Some (Py.KeyError "id")
        end).
Proof.
  intros p. subst p. rewrite portfolio_deliver. simpl.
  unfold Portfolio.tickOptionComputation. simpl.
  rewrite tick_entries_without_id.
  - destruct (Portfolio.updates cbs); reflexivity.
  - apply List.Forall_forall. intros e He.
    apply in_map_iff in He as (c & <- & _). reflexivity.
Qed.

(** ** The news trader: ticks *)

(** X19.  Only a tick of type LAST moves the last price: bid, ask and
    size ticks leave the wrapper as it was, so that after any series of
    them a trader fresh from its constructor still has no price and
    [prepare_orders] still does nothing. *)
Theorem only_last_ticks_arm :
  (forall (t : Z) (p : Py.float) (w : News.TwsWrapper),
     t <> News.LAST -> News.tickPrice t p w = w)
  /\ (forall (o : Z) (ticks : list (Z * Py.float)),
        Forall (fun tick => fst tick <> News.LAST) ticks ->
        News.after_ticks ticks (News.nextValidId o News.init)
        = News.nextValidId o News.init
        /\ News.prepare_orders
             (News.after_ticks ticks (News.nextValidId o News.init))
           = News.nextValidId o News.init).
Proof.
  assert (H1 : forall (t : Z) (p : Py.float) (w : News.TwsWrapper),
             t <> News.LAST -> News.tickPrice t p w = w).
  { intros t p w Ht. unfold News.tickPrice.
    destruct (Z.eqb_spec t News.LAST); [contradiction | reflexivity]. }
  split; [exact H1|].
  intros o ticks Hticks.
  assert (H : News.after_ticks ticks (News.nextValidId o News.init)
              = News.nextValidId o News.init).
  { unfold News.after_ticks.
    generalize (News.nextValidId o News.init) as w.
    induction Hticks as [|[t p] ticks Ht _ IH]; intros w; [reflexivity|].
    simpl. rewrite (H1 t p w Ht). apply IH. }
  split; [exact H|]. rewrite H. reflexivity.
Qed.

Lemma only_last_ticks_arm_witness :
  Forall (fun tick : Z * Py.float => fst tick <> News.LAST)
         [(1%Z, Py.of_Z 50); (2%Z, Py.of_Z 51)]
  /\ News.prepare_orders
       (News.after_ticks [(1%Z, Py.of_Z 50); (2%Z, Py.of_Z 51)]
          (News.nextValidId 7 News.init))
     = News.nextValidId 7 News.init.
Proof.
  assert (H : Forall (fun tick : Z * Py.float => fst tick <> News.LAST)
                     [(1%Z, Py.of_Z 50); (2%Z, Py.of_Z 51)]).
  { repeat constructor; discriminate. }
  split; [exact H|].
  exact (proj2 (proj2 only_last_ticks_arm 7%Z _ H)).
Defined.

(** ** Reading a variable *)

Lemma find_in_app {A : Type} (f : A -> bool) (l1 l2 : list A) :
  find f (l1 ++ l2)
  = match find f l1 with
    | Some x => Some x
    | None => find f l2
    end.
Proof.
  induction l1 as [|x l1 IH]; [reflexivity|].
  simpl. destruct (f x); [reflexivity | exact IH].
Qed.

Lemma read_gdx_var_acc (records : list Gms.var_record)
    (d : gmap (list string) Py.float) (k : list string) :
  fold_left (fun d rec => <[Gms.keys rec := Gms.level rec]> d) records d !! k
  = match find (fun rec => bool_decide (Gms.keys rec = k)) (rev records) with
    | Some rec => Some (Gms.level rec)
    | None => d !! k
    end.
Proof.
  revert d. induction records as [|rec records IH]; intros d; [reflexivity|].
  cbn [fold_left rev]. rewrite IH, find_in_app.
  destruct (find _ (rev records)); [reflexivity|].
  simpl. destruct (bool_decide_reflect (Gms.keys rec = k)) as [<-|Hne].
  - now rewrite lookup_insert_eq.
  - now rewrite lookup_insert_ne.
Qed.

(** X20.  [read_gdx_var] returns, under a tuple of keys, the level of
    the last record with these keys, and nothing under keys that no
    record has; when no two records share their keys, every record is
    found under its own keys and the dictionary has as many entries as
    there are records. *)
Theorem read_gdx_var_lookup :
  (forall (records : list Gms.var_record) (k : list string),
     Gms.read_gdx_var records !! k
     = Gms.level
         <$> find (fun rec => bool_decide (Gms.keys rec = k)) (rev records))
  /\ (forall (records : list Gms.var_record),
        NoDup (map Gms.keys records) ->
        (forall rec, In rec records ->
                     Gms.read_gdx_var records !! Gms.keys rec
                     = Some (Gms.level rec))
        /\ size (Gms.read_gdx_var records) = length records).
Proof.
  assert (H1 : forall (records : list Gms.var_record) (k : list string),
             Gms.read_gdx_var records !! k
             = Gms.level
                 <$> find (fun rec => bool_decide (Gms.keys rec = k))
                       (rev records)).
  { intros records k. unfold Gms.read_gdx_var. rewrite read_gdx_var_acc.
    destruct (find _ (rev records)); [reflexivity | apply lookup_empty]. }
  split; [exact H1|].
  intros records Hnd. split.
  - intros rec Hin. rewrite H1.
    destruct (find _ (rev records)) as [rec'|] eqn:Hfind.
    + apply find_some in Hfind as [Hin' Hk].
      apply bool_decide_eq_true in Hk. apply in_rev in Hin'.
      simpl. f_equal. f_equal.
      clear H1. induction records as [|r records IH]; [destruct Hin|].
      simpl in Hnd. apply NoDup_cons in Hnd as [Hr Hnd].
      assert (Hmem : forall x, In x records -> Gms.keys x ∈ map Gms.keys records).
      { intros x Hx. apply list_elem_of_In, in_map. exact Hx. }
      destruct Hin as [->|Hin], Hin' as [->|Hin']; auto.
      * exfalso. apply Hr. rewrite <- Hk. now apply Hmem.
      * exfalso. apply Hr. rewrite Hk. now apply Hmem.
    + exfalso. pose proof (find_none _ _ Hfind rec) as Hnone.
      rewrite bool_decide_eq_false in Hnone. apply Hnone; [|reflexivity].
      now apply -> in_rev.
  - unfold Gms.read_gdx_var.
    assert (Hacc : forall (d : gmap (list string) Py.float),
               (forall rec, In rec records -> d !! Gms.keys rec = None) ->
               size (fold_left (fun d rec => <[Gms.keys rec := Gms.level rec]> d)
                               records d)
               = size d + length records).
    { clear H1. induction records as [|r records IH]; intros d Hd.
      - simpl. lia.
      - simpl in Hnd. apply NoDup_cons in Hnd as [Hr Hnd].
        cbn [fold_left length]. rewrite (IH Hnd).
        + rewrite map_size_insert_None by (apply Hd; now left). lia.
        + intros rec Hin. rewrite lookup_insert_ne.
          * apply Hd. now right.
          * intros Heq. apply Hr. rewrite Heq.
            apply list_elem_of_In, in_map. exact Hin. }
    rewrite Hacc by (intros; apply lookup_empty).
    now rewrite map_size_empty.
Qed.

Lemma read_gdx_var_lookup_witness :
  NoDup (map Gms.keys Gms.sample_records)
  /\ Gms.read_gdx_var Gms.sample_records !! ["x"; "2"]%string = Some (Py.of_Z 4)
  /\ size (Gms.read_gdx_var Gms.sample_records) = 2.
Proof.
  assert (H : NoDup (map Gms.keys Gms.sample_records)).
  { simpl. apply NoDup_cons. split.
    - rewrite elem_of_cons, elem_of_nil. intros [H|[]]. discriminate.
    - apply NoDup_cons. split; [apply not_elem_of_nil | apply NoDup_nil_2]. }
  split; [exact H|].
  destruct (proj2 read_gdx_var_lookup Gms.sample_records H) as [Hl Hs].
  split; [|exact Hs].
  exact (Hl {| Gms.keys := ["x"; "2"]%string; Gms.level := Py.of_Z 4 |}
            (or_intror (or_introl eq_refl))).
Defined.
